(** * Bloom detection and prediction core: a shallow embedding in Rocq

    Sources embedded:
    - [src/backend/vegetation_indices.py]  (VegetationIndexCalculator)
    - [src/backend/bloom_detector.py]      (BloomDetector, with the parts of
      [scipy.signal.find_peaks] and [scipy.stats.linregress] it calls)
    - [src/backend/bloom_predictor.py]     (BloomPredictor)

    Numbers are modelled as exact rationals [Q]; the IEEE special values
    that numpy produces on division by zero are modelled explicitly where
    the index calculators rely on them.  Python exceptions are modelled by
    a small error monad [Exc]; [try ... except Exception] is [try_except]. *)

From Stdlib Require Import ZArith QArith Qminmax Qabs Qround String Ascii List Bool Lia Lqa Sorted.
Import ListNotations.
Open Scope nat_scope.
Open Scope Q_scope.

(* ------------------------------------------------------------------ *)
(** ** Python exceptions *)

Module Py.

Inductive exn : Type :=
| ValueError (msg : string)
| KeyError (key : string)
| TypeError (msg : string)
| ZeroDivisionError
| OverflowError (msg : string).

Definition Exc (A : Type) : Type := sum exn A.

Definition ret {A} (a : A) : Exc A := inr a.
Definition raise {A} (e : exn) : Exc A := inl e.
Definition bind {A B} (m : Exc A) (k : A -> Exc B) : Exc B :=
  match m with inl e => inl e | inr a => k a end.

(** [try: body  except Exception as e: handler(e)] *)
Definition try_except {A} (body : Exc A) (handler : exn -> A) : A :=
  match body with inl e => handler e | inr a => a end.

(** [str(e)] *)
Definition str_exn (e : exn) : string :=
  match e with
  | ValueError m => m
  | KeyError k => String.append "'" (String.append k "'")
  | TypeError m => m
  | ZeroDivisionError => "float division by zero"
  | OverflowError m => m
  end.

(** Python's [a / b] on floats. *)
Definition div (a b : Q) : Exc Q :=
  if Qeq_bool b 0 then raise ZeroDivisionError else ret (a / b).

(** [int(x)] on a float: truncation toward zero. *)
Definition int_of (q : Q) : Z := Z.quot (Qnum q) (Zpos (Qden q)).

(** [for x in xs: f(x)] collecting results, stopping at the first raise. *)
Fixpoint mapM {A B} (f : A -> Exc B) (xs : list A) : Exc (list B) :=
  match xs with
  | [] => ret []
  | x :: xs' =>
      bind (f x) (fun y => bind (mapM f xs') (fun ys => ret (y :: ys)))
  end.

End Py.

Notation "x <- m ;; k" := (Py.bind m (fun x => k))
  (at level 61, m at next level, right associativity).

(** Strict comparisons on [Q] as Python's [<] on floats. *)
Definition Qltb (a b : Q) : bool := negb (Qle_bool b a).
Definition Qgeb (a b : Q) : bool := Qle_bool b a.

(** [lst[i]] for an index known to be in range. *)
Definition at_ (xs : list Q) (i : nat) : Q := nth i xs 0.

(** [sum(xs)] and [np.mean(xs)]. *)
Definition Qsum (xs : list Q) : Q := fold_right Qplus 0 xs.
Definition Qmean (xs : list Q) : Q := Qsum xs / inject_Z (Z.of_nat (length xs)).

(* ------------------------------------------------------------------ *)
(** ** Float values with IEEE special cases (numpy element semantics) *)

Module Ext.

Inductive t : Type :=
| Fin (q : Q)
| PosInf
| NegInf
| NaN.

Definition sign_inf (positive : bool) : t := if positive then PosInf else NegInf.

Definition neg (x : t) : t :=
  match x with
  | Fin q => Fin (- q) | PosInf => NegInf | NegInf => PosInf | NaN => NaN
  end.

Definition add (x y : t) : t :=
  match x, y with
  | NaN, _ | _, NaN => NaN
  | Fin a, Fin b => Fin (a + b)
  | PosInf, NegInf | NegInf, PosInf => NaN
  | PosInf, _ | _, PosInf => PosInf
  | NegInf, _ | _, NegInf => NegInf
  end.

Definition sub (x y : t) : t := add x (neg y).

(** sign of a value: [Some true] positive, [Some false] negative,
    [None] zero or NaN *)
Definition sgn (x : t) : option bool :=
  match x with
  | Fin q => if Qeq_bool q 0 then None else Some (Qle_bool 0 q)
  | PosInf => Some true
  | NegInf => Some false
  | NaN => None
  end.

Definition mul (x y : t) : t :=
  match x, y with
  | NaN, _ | _, NaN => NaN
  | Fin a, Fin b => Fin (a * b)
  | _, _ =>
      match sgn x, sgn y with
      | Some sx, Some sy => sign_inf (Bool.eqb sx sy)
      | _, _ => NaN
      end
  end.

(** IEEE division: [x/0] is a signed infinity, [0/0] and [inf/inf] are NaN. *)
Definition div (x y : t) : t :=
  match x, y with
  | NaN, _ | _, NaN => NaN
  | Fin a, Fin b =>
      if Qeq_bool b 0 then
        (if Qeq_bool a 0 then NaN else sign_inf (Qle_bool 0 a))
      else Fin (a / b)
  | Fin _, _ => Fin 0
  | _, Fin b =>
      if Qeq_bool b 0 then x
      else match sgn x with
           | Some sx => sign_inf (Bool.eqb sx (Qle_bool 0 b))
           | None => NaN
           end
  | _, _ => NaN
  end.

(** [np.nan_to_num(v, nan=0.0, posinf=0.0, neginf=0.0)] *)
Definition nan_to_num (x : t) : t :=
  match x with Fin q => Fin q | _ => Fin 0 end.

(** [np.clip(v, -1, 1)] *)
Definition clip (lo hi : Q) (x : t) : t :=
  match x with
  | Fin q => Fin (Qmin hi (Qmax lo q))
  | PosInf => Fin hi
  | NegInf => Fin lo
  | NaN => NaN
  end.

Definition of_Q (q : Q) : t := Fin q.

End Ext.

(** Element-wise binary operation on two 1-D arrays; numpy broadcasts an
    array of length one and raises [ValueError] on other shape mismatches. *)
Definition broadcast2 {A} (f : A -> A -> A) (xs ys : list A) : Py.Exc (list A) :=
  if Nat.eqb (length xs) (length ys) then Py.ret (map (fun p => f (fst p) (snd p)) (combine xs ys))
  else match xs, ys with
       | [x], _ => Py.ret (map (f x) ys)
       | _, [y] => Py.ret (map (fun x => f x y) xs)
       | _, _ => Py.raise (Py.ValueError "operands could not be broadcast together")
       end.

Definition scale (c : Q) (xs : list Ext.t) : list Ext.t := map (Ext.mul (Ext.Fin c)) xs.
Definition shift (c : Q) (xs : list Ext.t) : list Ext.t := map (fun x => Ext.add x (Ext.Fin c)) xs.

(* ------------------------------------------------------------------ *)
(** ** [vegetation_indices.py]: VegetationIndexCalculator *)

Module VegetationIndices.

(** The satellite payload dictionary, as the calculators read it:
    - [demo_mode]: truthiness of [satellite_data.get('demo_mode')];
    - [ndvi_values]: [satellite_data.get('ndvi_values', [])];
    - [ndvi_data]: [None] when the key is absent or falsy, otherwise
      [Some (ndvi_dict.get('values', []))];
    - [bands]: [satellite_data.get('bands', {})], band name to asset
      ([None] for an asset stored as [None]). *)
Record Payload : Type := {
  demo_mode : bool;
  ndvi_values : list Q;
  ndvi_data : option (list Q);
  bands : list (string * option string)
}.

(** numpy's global random generator: the stream of unit samples it
    produces and how many of them have been consumed. *)
Record Rng : Type := {
  draw : nat -> Q;
  pos : nat
}.

(** [np.random.uniform(lo, hi, (100, 100))], flattened. *)
Definition band_size : nat := 100 * 100.

Definition uniform (lo hi : Q) (k : nat) (g : Rng) : list Q * Rng :=
  (map (fun j => lo + (hi - lo) * draw g j) (seq (pos g) k),
   {| draw := draw g; pos := pos g + k |}).

Fixpoint dict_get (k : string) (d : list (string * option string)) : option string :=
  match d with
  | [] => None
  | (k', v) :: d' => if String.eqb k k' then v else dict_get k d'
  end.

(** [_extract_band_data]: the raster loader is a placeholder that returns
    random arrays (only the band's presence is read). *)
Definition _extract_band_data (p : Payload) (band : string) (g : Rng)
    : option (list Q) * Rng :=
  match dict_get band (bands p) with
  | None => (None, g)
  | Some _ =>
      let dummy := let (a, g') := uniform (1#10) (8#10) band_size g in (Some a, g') in
      if demo_mode p then
        if String.eqb band "red" then
          let (a, g') := uniform (5#100) (15#100) band_size g in (Some a, g')
        else if String.eqb band "nir" || String.eqb band "nir08" then
          let (a, g') := uniform (3#10) (8#10) band_size g in (Some a, g')
        else if String.eqb band "blue" then
          let (a, g') := uniform (3#100) (10#100) band_size g in (Some a, g')
        else if String.eqb band "green" then
          let (a, g') := uniform (4#100) (12#100) band_size g in (Some a, g')
        else dummy
      else dummy
  end.

(** [ndvi.max()] in the logging line raises on an empty array. *)
Definition log_stats (v : list Ext.t) : Py.Exc (list Ext.t) :=
  match v with
  | [] => Py.raise (Py.ValueError "zero-size array to reduction operation maximum which has no identity")
  | _ => Py.ret v
  end.

(** Lines 61-68 of [calculate_ndvi]: safe division, [nan_to_num], [clip]. *)
Definition ndvi_from_bands (red nir : list Ext.t) : Py.Exc (list Ext.t) :=
  num <- broadcast2 Ext.sub nir red ;;
  den <- broadcast2 Ext.add nir red ;;
  q <- broadcast2 Ext.div num den ;;
  let v := map Ext.nan_to_num q in
  let v := map (Ext.clip (-1) 1) v in
  log_stats v.

(** Lines 117-129 of [calculate_evi]. *)
Definition G : Q := 5#2.
Definition C1 : Q := 6.
Definition C2 : Q := 15#2.
Definition L : Q := 1.

Definition evi_from_bands (red nir blue : list Ext.t) : Py.Exc (list Ext.t) :=
  num <- broadcast2 Ext.sub nir red ;;
  d1 <- broadcast2 Ext.add nir (scale C1 red) ;;
  d2 <- broadcast2 Ext.sub d1 (scale C2 blue) ;;
  let den := shift L d2 in
  q <- broadcast2 Ext.div num den ;;
  let v := scale G q in
  let v := map Ext.nan_to_num v in
  let v := map (Ext.clip (-1) 1) v in
  log_stats v.

Definition fin_array (xs : list Q) : list Ext.t := map Ext.Fin xs.

(** [calculate_ndvi]; the generator state is threaded through. *)
Definition calculate_ndvi (p : Payload) (g : Rng) : list Ext.t * Rng :=
  if demo_mode p then (fin_array (ndvi_values p), g)
  else
    match ndvi_data p with
    | Some (_ :: _ as values) => (fin_array values, g)
    | _ =>
        let (red, g1) := _extract_band_data p "red" g in
        let (nir, g2) := _extract_band_data p "nir" g1 in
        match red, nir with
        | Some r, Some n =>
            (Py.try_except (ndvi_from_bands (fin_array r) (fin_array n)) (fun _ => []), g2)
        | _, _ => ([], g2)
        end
    end.

(** [calculate_evi] *)
Definition calculate_evi (p : Payload) (g : Rng) : list Ext.t * Rng :=
  if demo_mode p then (fin_array (map (fun v => v * (11#10)) (ndvi_values p)), g)
  else
    match ndvi_data p with
    | Some (_ :: _ as values) => (fin_array (map (fun v => v * (115#100)) values), g)
    | _ =>
        let (red, g1) := _extract_band_data p "red" g in
        let (nir, g2) := _extract_band_data p "nir" g1 in
        let (blue, g3) := _extract_band_data p "blue" g2 in
        match red, nir, blue with
        | Some r, Some n, Some b =>
            (Py.try_except (evi_from_bands (fin_array r) (fin_array n) (fin_array b))
               (fun _ => []), g3)
        | _, _, _ => ([], g3)
        end
    end.

(** The index value of one pixel is a finite number in [[-1, 1]]. *)
Definition in_unit_range (x : Ext.t) : Prop :=
  exists q, x = Ext.Fin q /\ -1 <= q <= 1.

(** Lines 160-163 of [calculate_savi], [L = soil_brightness_factor]. *)
Definition savi_from_bands (red nir : list Ext.t) (soil_brightness_factor : Q)
    : Py.Exc (list Ext.t) :=
  let L := soil_brightness_factor in
  num <- broadcast2 Ext.sub nir red ;;
  s <- broadcast2 Ext.add nir red ;;
  q <- broadcast2 Ext.div num (shift L s) ;;
  let v := map (fun y => Ext.mul y (Ext.Fin (1 + L))) q in
  let v := map Ext.nan_to_num v in
  Py.ret (map (Ext.clip (-1) 1) v).

(** [calculate_savi] *)
Definition calculate_savi (p : Payload) (soil_brightness_factor : Q) (g : Rng)
    : list Ext.t * Rng :=
  let (red, g1) := _extract_band_data p "red" g in
  let (nir, g2) := _extract_band_data p "nir" g1 in
  match red, nir with
  | Some r, Some n =>
      (Py.try_except (savi_from_bands (fin_array r) (fin_array n) soil_brightness_factor)
         (fun _ => []), g2)
  | _, _ => ([], g2)
  end.

(** Lines 187-190 of [calculate_gndvi]. *)
Definition gndvi_from_bands (green nir : list Ext.t) : Py.Exc (list Ext.t) :=
  num <- broadcast2 Ext.sub nir green ;;
  den <- broadcast2 Ext.add nir green ;;
  q <- broadcast2 Ext.div num den ;;
  let v := map Ext.nan_to_num q in
  Py.ret (map (Ext.clip (-1) 1) v).

(** [calculate_gndvi] *)
Definition calculate_gndvi (p : Payload) (g : Rng) : list Ext.t * Rng :=
  let (green, g1) := _extract_band_data p "green" g in
  let (nir, g2) := _extract_band_data p "nir" g1 in
  match green, nir with
  | Some gr, Some n =>
      (Py.try_except (gndvi_from_bands (fin_array gr) (fin_array n)) (fun _ => []), g2)
  | _, _ => ([], g2)
  end.

(** Element-wise comparisons of an array with a float: NaN compares false. *)
Definition lt_Q (x : Ext.t) (c : Q) : bool :=
  match x with Ext.Fin q => Qltb q c | Ext.NegInf => true | _ => false end.
Definition ge_Q (x : Ext.t) (c : Q) : bool :=
  match x with Ext.Fin q => Qle_bool c q | Ext.PosInf => true | _ => false end.
Definition gt_Q (x : Ext.t) (c : Q) : bool :=
  match x with Ext.Fin q => Qltb c q | Ext.PosInf => true | _ => false end.

(** [mask.sum()] *)
Definition count_true (mask : Ext.t -> bool) (v : list Ext.t) : nat :=
  length (filter mask v).

(** [classify_vegetation]: a dict from class name to percentage. *)
Definition classify_vegetation (ndvi : list Ext.t) : list (string * Q) :=
  let total_pixels := length ndvi in
  if Nat.eqb total_pixels 0 then []
  else
    let pct (mask : Ext.t -> bool) :=
      inject_Z (Z.of_nat (count_true mask ndvi)) / inject_Z (Z.of_nat total_pixels) * 100 in
    [("water", pct (fun x => lt_Q x 0));
     ("bare_soil", pct (fun x => ge_Q x 0 && lt_Q x (2#10)));
     ("sparse_vegetation", pct (fun x => ge_Q x (2#10) && lt_Q x (4#10)));
     ("moderate_vegetation", pct (fun x => ge_Q x (4#10) && lt_Q x (6#10)));
     ("dense_vegetation", pct (fun x => ge_Q x (6#10)))]%string.

(** [ndvi.mean()] *)
Definition ext_sum (v : list Ext.t) : Ext.t := fold_left Ext.add v (Ext.Fin 0).
Definition ext_mean (v : list Ext.t) : Ext.t :=
  Ext.div (ext_sum v) (Ext.Fin (inject_Z (Z.of_nat (length v)))).

(** [ndvi.max()]: NaN propagates; an empty array raises. *)
Definition ext_max2 (a b : Ext.t) : Ext.t :=
  match a, b with
  | Ext.NaN, _ | _, Ext.NaN => Ext.NaN
  | Ext.Fin p, Ext.Fin q => Ext.Fin (Qmax p q)
  | Ext.PosInf, _ | _, Ext.PosInf => Ext.PosInf
  | Ext.NegInf, y => y
  | y, Ext.NegInf => y
  end.

Definition ext_max (v : list Ext.t) : Py.Exc Ext.t :=
  match v with
  | [] => Py.raise (Py.ValueError "zero-size array to reduction operation maximum which has no identity")
  | x :: xs => Py.ret (fold_left ext_max2 xs x)
  end.

Section Spectral.

(** The platform's float square root. *)
Variable sqrt : Q -> Q.

Definition ext_sqrt (x : Ext.t) : Ext.t :=
  match x with
  | Ext.Fin q => if Qle_bool 0 q then Ext.Fin (sqrt q) else Ext.NaN
  | Ext.PosInf => Ext.PosInf
  | _ => Ext.NaN
  end.

(** [ndvi.std()]: [sqrt(mean((x - x.mean()) * (x - x.mean())))] *)
Definition ext_std (v : list Ext.t) : Ext.t :=
  let m := ext_mean v in
  ext_sqrt (ext_mean (map (fun x => let d := Ext.sub x m in Ext.mul d d) v)).

(** The body of the [try] block of [detect_bloom_spectral_signature],
    after [calculate_ndvi]. *)
Definition spectral_body (ndvi : list Ext.t) : Py.Exc (bool * Q) :=
  match ndvi with
  | [] => Py.ret (false, 0)
  | _ =>
      let mean_ndvi := ext_mean ndvi in
      max_ndvi <- ext_max ndvi ;;
      let std_ndvi := ext_std ndvi in
      let confidence := 0 in
      let confidence :=
        if gt_Q mean_ndvi (1#2) then confidence + (4#10)
        else if gt_Q mean_ndvi (4#10) then confidence + (2#10)
        else confidence in
      let confidence := if gt_Q std_ndvi (15#100) then confidence + (3#10) else confidence in
      let confidence := if gt_Q max_ndvi (7#10) then confidence + (3#10) else confidence in
      Py.ret (Qltb (1#2) confidence, confidence)
  end.

(** [detect_bloom_spectral_signature] *)
Definition detect_bloom_spectral_signature (p : Payload) (g : Rng) : (bool * Q) * Rng :=
  let (ndvi, g') := calculate_ndvi p g in
  (Py.try_except (spectral_body ndvi) (fun _ => (false, 0)), g').

End Spectral.

End VegetationIndices.

(* ------------------------------------------------------------------ *)
(** ** [scipy.signal.find_peaks] with [height], [distance], [prominence] *)

Module FindPeaks.

(** [_local_maxima_1d]: strict local maxima, a flat plateau reported at
    its midpoint [(left_edge + right_edge) // 2]. *)
Fixpoint plateau_end (x : list Q) (v : Q) (i_max : nat) (fuel j : nat) : nat :=
  match fuel with
  | O => j
  | S f =>
      if (j <? i_max) && Qeq_bool (at_ x j) v
      then plateau_end x v i_max f (S j) else j
  end.

Fixpoint local_maxima_go (x : list Q) (i_max : nat) (fuel i : nat) : list nat :=
  match fuel with
  | O => []
  | S f =>
      if i <? i_max then
        if Qltb (at_ x (i - 1)) (at_ x i) then
          let i_ahead := plateau_end x (at_ x i) i_max (length x) (S i) in
          if Qltb (at_ x i_ahead) (at_ x i) then
            Nat.div2 (i + (i_ahead - 1))%nat :: local_maxima_go x i_max f (S i_ahead)
          else local_maxima_go x i_max f (S i)
        else local_maxima_go x i_max f (S i)
      else []
  end.

Definition _local_maxima_1d (x : list Q) : list nat :=
  local_maxima_go x (length x - 1) (length x) 1.

(** [_select_by_property(x[peaks], hmin, None)] for [height=hmin]. *)
Definition select_by_height (x : list Q) (hmin : Q) (peaks : list nat) : list nat :=
  filter (fun p => Qle_bool hmin (at_ x p)) peaks.

(** [np.argsort(priority)], taken stable (ties keep index order). *)
Fixpoint insert_by (pr : list Q) (j : nat) (l : list nat) : list nat :=
  match l with
  | [] => [j]
  | k :: l' =>
      if Qltb (at_ pr j) (at_ pr k) then j :: l else k :: insert_by pr j l'
  end.

Definition argsort (pr : list Q) : list nat :=
  fold_left (fun acc j => insert_by pr j acc) (seq 0 (length pr)) [].

(** [keep[k] = 0] *)
Definition set_false (keep : list bool) (k : nat) : list bool :=
  firstn k keep ++ false :: skipn (S k) keep.

(** [k = j - 1; while 0 <= k and peaks[j] - peaks[k] < distance: keep[k] = 0; k -= 1]
    ([k] below is one more than Python's [k]) *)
Fixpoint clear_left (peaks : list nat) (d pj : nat) (k : nat) (keep : list bool) : list bool :=
  match k with
  | O => keep
  | S k' =>
      if (pj - nth k' peaks O <? d)%nat
      then clear_left peaks d pj k' (set_false keep k') else keep
  end.

(** [k = j + 1; while k < peaks_size and peaks[k] - peaks[j] < distance: keep[k] = 0; k += 1] *)
Fixpoint clear_right (peaks : list nat) (d pj : nat) (fuel k : nat) (keep : list bool) : list bool :=
  match fuel with
  | O => keep
  | S f =>
      if (k <? length peaks) && (nth k peaks O - pj <? d)%nat
      then clear_right peaks d pj f (S k) (set_false keep k) else keep
  end.

Fixpoint distance_loop (peaks : list nat) (d : nat) (order : list nat) (keep : list bool) : list bool :=
  match order with
  | [] => keep
  | j :: order' =>
      let keep' :=
        if nth j keep false then
          let pj := nth j peaks O in
          clear_right peaks d pj (length peaks) (S j) (clear_left peaks d pj j keep)
        else keep in
      distance_loop peaks d order' keep'
  end.

Fixpoint select (keep : list bool) (xs : list nat) : list nat :=
  match keep, xs with
  | b :: keep', x :: xs' => if b then x :: select keep' xs' else select keep' xs'
  | _, _ => []
  end.

(** [_select_by_peak_distance(peaks, x[peaks], distance)]: highest peaks first. *)
Definition select_by_peak_distance (x : list Q) (d : nat) (peaks : list nat) : list nat :=
  let priority := map (at_ x) peaks in
  let keep := distance_loop peaks d (rev (argsort priority)) (repeat true (length peaks)) in
  select keep peaks.

(** [_peak_prominences] with [wlen=None]: the lowest point on each side
    before a strictly higher sample or the array end. *)
Fixpoint left_min (x : list Q) (v : Q) (i : nat) (m : Q) : Q :=
  if Qle_bool (at_ x i) v then
    let m' := if Qltb (at_ x i) m then at_ x i else m in
    match i with O => m' | S i' => left_min x v i' m' end
  else m.

Fixpoint right_min (x : list Q) (v : Q) (fuel i : nat) (m : Q) : Q :=
  match fuel with
  | O => m
  | S f =>
      if Qle_bool (at_ x i) v then
        right_min x v f (S i) (if Qltb (at_ x i) m then at_ x i else m)
      else m
  end.

Definition prominence (x : list Q) (p : nat) : Q :=
  let v := at_ x p in
  v - Qmax (left_min x v p v) (right_min x v (length x - p)%nat p v).

Definition select_by_prominence (x : list Q) (pmin : Q) (peaks : list nat) : list nat :=
  filter (fun p => Qle_bool pmin (prominence x p)) peaks.

(** [find_peaks(x, height=h, distance=d, prominence=pmin)]: the filters in
    scipy's order. *)
Definition find_peaks (x : list Q) (h : Q) (d : nat) (pmin : Q) : list nat :=
  let peaks := _local_maxima_1d x in
  let peaks := select_by_height x h peaks in
  let peaks := select_by_peak_distance x d peaks in
  select_by_prominence x pmin peaks.

End FindPeaks.

(* ------------------------------------------------------------------ *)
(** ** [scipy.stats.linregress], as far as the callers read it *)

Module LinRegress.

Record Result : Type := {
  slope : Q;
  intercept : Q;
  r_squared : Q   (** [r_value ** 2], [r] clipped to [[-1, 1]] *)
}.

Definition linregress (xs ys : list Q) : Py.Exc Result :=
  match xs with
  | [] => Py.raise (Py.ValueError "Inputs must not be empty.")
  | x0 :: _ =>
      let xmax := fold_right Qmax x0 xs in
      let xmin := fold_right Qmin x0 xs in
      if Qeq_bool xmax xmin && (1 <? length xs)%nat then
        Py.raise (Py.ValueError "Cannot calculate a linear regression if all x values are identical")
      else
        let xmean := Qmean xs in
        let ymean := Qmean ys in
        let ssxm := Qmean (map (fun x => (x - xmean) * (x - xmean)) xs) in
        let ssym := Qmean (map (fun y => (y - ymean) * (y - ymean)) ys) in
        let ssxym := Qmean (map (fun p => (fst p - xmean) * (snd p - ymean)) (combine xs ys)) in
        let r2 :=
          if Qeq_bool ssxm 0 || Qeq_bool ssym 0 then 0
          else Qmin 1 (ssxym * ssxym / (ssxm * ssym)) in
        let slope := ssxym / ssxm in
        Py.ret {| slope := slope; intercept := ymean - slope * xmean; r_squared := r2 |}
  end.

End LinRegress.

(* ------------------------------------------------------------------ *)
(** ** [bloom_detector.py]: BloomDetector *)

Module BloomDetector.

Record Detector : Type := {
  bloom_threshold : Q;
  change_threshold : Q;
  min_duration_days : Z
}.

(** [BloomDetector()] *)
Definition default_detector : Detector :=
  {| bloom_threshold := 4#10; change_threshold := 2#10; min_duration_days := 14 |}.

(** An element of the input series: a float, or a value that the float
    conversion ([float(...)], or [find_peaks]'s [float64] cast) rejects. *)
Inductive PyScalar : Type :=
| PyFloat (q : Q)
| PyNonNumeric (s : string).

Definition to_float (v : PyScalar) : Py.Exc Q :=
  match v with
  | PyFloat q => Py.ret q
  | PyNonNumeric s => Py.raise (Py.ValueError ("could not convert string to float: " ++ s))
  end.

Inductive Intensity : Type := Low | Moderate | High | VeryHigh.

(** The dictionary of a [peak_bloom] event. *)
Record PeakEvent : Type := {
  peak_index : nat;
  start_index : nat;
  end_index : nat;
  peak_ndvi : Q;
  start_ndvi : Q;
  end_ndvi : Q;
  duration_observations : Z;
  increase_rate : Q;
  confidence : Q;
  intensity : Intensity;
  event_dates : option (string * string * string);  (** start, peak, end *)
  peak_evi : option Q
}.

(** The three shapes of event dictionary [detect_blooms] returns. *)
Inductive BloomEvent : Type :=
| SingleObservation (ndvi : Q) (is_blooming : bool) (conf : Q)
| SustainedBloom (peak : Q) (mean : Q) (duration : nat) (conf : Q)
| PeakBloom (e : PeakEvent).

(** [_find_bloom_start] *)
Fixpoint start_scan (x : list Q) (i : nat) : nat :=
  match i with
  | O => O
  | S i' =>
      if Qltb (at_ x (S i) - at_ x i) (5#100) then S i else start_scan x i'
  end.

Definition _find_bloom_start (x : list Q) (peak_idx : nat) : nat :=
  match peak_idx with
  | O => O
  | S p => start_scan x p
  end.

(** [_find_bloom_end]: compares with [self.bloom_threshold]. *)
Fixpoint end_scan (self : Detector) (x : list Q) (fuel i : nat) : nat :=
  match fuel with
  | O => (length x - 1)%nat
  | S f =>
      if Nat.eqb i (length x - 1) then i
      else if Qltb (at_ x i - at_ x (i - 1)) (-(5#100)) then end_scan self x f (S i)
      else if Qltb (at_ x i) (bloom_threshold self) then i
      else end_scan self x f (S i)
  end.

Definition _find_bloom_end (self : Detector) (x : list Q) (peak_idx : nat) : nat :=
  if (length x - 1 <=? peak_idx)%nat then (length x - 1)%nat
  else end_scan self x (length x) (S peak_idx).

(** [_calculate_confidence] *)
Definition _calculate_confidence (self : Detector) (v : Q) : Q :=
  if Qltb v (bloom_threshold self) then 0
  else if Qltb v (5#10) then 5#10
  else if Qltb v (6#10) then 7#10
  else if Qltb v (7#10) then 85#100
  else 95#100.

(** [_calculate_intensity] (the mean of an empty segment is NaN, which
    fails every comparison) *)
Definition _calculate_intensity (segment : list Q) : Intensity :=
  match segment with
  | [] => VeryHigh
  | _ =>
      let m := Qmean segment in
      if Qltb m (4#10) then Low
      else if Qltb m (6#10) then Moderate
      else if Qltb m (75#100) then High
      else VeryHigh
  end.

(** [ndvi_array[start:stop]] *)
Definition slice (x : list Q) (start stop : nat) : list Q :=
  firstn (stop - start) (skipn start x).

Definition array_max (x : list Q) : Q :=
  match x with [] => 0 | x0 :: _ => fold_right Qmax x0 x end.

(** Lines 109-148: the event for one accepted peak. *)
Definition peak_event (self : Detector) (x : list Q) (evi_data : option (list PyScalar))
    (dates : option (list string)) (peak_idx : nat) : Py.Exc BloomEvent :=
  let peak_value := at_ x peak_idx in
  let start_idx := _find_bloom_start x peak_idx in
  let end_idx := _find_bloom_end self x peak_idx in
  let duration := (Z.of_nat end_idx - Z.of_nat start_idx + 1)%Z in
  let increase_rate :=
    (at_ x peak_idx - at_ x start_idx)
      / inject_Z (Z.max (Z.of_nat peak_idx - Z.of_nat start_idx) 1) in
  let ev_dates :=
    match dates with
    | Some (_ :: _ as ds) =>
        if (Nat.max peak_idx (Nat.max end_idx start_idx) <? length ds)%nat
        then Some (nth start_idx ds ""%string, nth peak_idx ds ""%string, nth end_idx ds ""%string)
        else None
    | _ => None
    end in
  evi <- match evi_data with
         | Some ev =>
             if (peak_idx <? length ev)%nat
             then (q <- to_float (nth peak_idx ev (PyFloat 0)) ;; Py.ret (Some q))
             else Py.ret None
         | None => Py.ret None
         end ;;
  Py.ret (PeakBloom {|
    peak_index := peak_idx;
    start_index := start_idx;
    end_index := end_idx;
    peak_ndvi := peak_value;
    start_ndvi := at_ x start_idx;
    end_ndvi := at_ x end_idx;
    duration_observations := duration;
    increase_rate := increase_rate;
    confidence := _calculate_confidence self peak_value;
    intensity := _calculate_intensity (slice x start_idx (S end_idx));
    event_dates := ev_dates;
    peak_evi := evi |}).

(** The body of the [try] block of [detect_blooms]. *)
Definition detect_blooms_body (self : Detector) (ndvi_data : list PyScalar)
    (evi_data : option (list PyScalar)) (threshold : option Q)
    (dates : option (list string)) : Py.Exc (list BloomEvent) :=
  if Nat.eqb (length ndvi_data) 0 then Py.ret []
  else
    let threshold := match threshold with Some t => t | None => bloom_threshold self end in
    x <- Py.mapM to_float ndvi_data ;;
    if Nat.eqb (length x) 1 then
      let value := at_ x 0 in
      if Qgeb value threshold
      then Py.ret [SingleObservation value true (_calculate_confidence self value)]
      else Py.ret []
    else
      let peaks := FindPeaks.find_peaks x threshold 2 (1#10) in
      match peaks with
      | [] =>
          let high := filter (fun v => Qgeb v threshold) x in
          if (2 <=? length high)%nat
          then Py.ret [SustainedBloom (array_max x) (Qmean high) (length high) (7#10)]
          else Py.ret []
      | _ => Py.mapM (peak_event self x evi_data dates) peaks
      end.

(** [detect_blooms]: every exception becomes the empty list. *)
Definition detect_blooms (self : Detector) (ndvi_data : list PyScalar)
    (evi_data : option (list PyScalar)) (threshold : option Q)
    (dates : option (list string)) : list BloomEvent :=
  Py.try_except (detect_blooms_body self ndvi_data evi_data threshold dates) (fun _ => []).

Definition series (xs : list Q) : list PyScalar := map PyFloat xs.

End BloomDetector.

(* ------------------------------------------------------------------ *)
(** ** [BloomDetector.analyze_trends] *)

Module Trends.

Import BloomDetector.

(** One yearly dictionary: each field is [None] when its key is absent. *)
Record YearlySummary : Type := {
  year : option Z;
  peak_ndvi : option Q;
  average_ndvi : option Q;
  bloom_events : option (list BloomEvent)
}.

Record LinTrend : Type := {
  slope : Q;
  direction : string;
  r_squared : Q;
  interpretation : option string
}.

Record Frequency : Type := {
  f_average : Q;
  f_min : nat;
  f_max : nat
}.

Record YoY : Type := {
  from_year : Z;
  to_year : Z;
  percent_change : Q
}.

(** The returned dictionary; absent keys are [None]. *)
Record TrendReport : Type := {
  status : option string;
  message : option string;
  peak_ndvi_trend : option LinTrend;
  average_ndvi_trend : option LinTrend;
  bloom_frequency : option Frequency;
  year_over_year_changes : option (list YoY)
}.

Definition empty_report : TrendReport :=
  {| status := None; message := None; peak_ndvi_trend := None;
     average_ndvi_trend := None; bloom_frequency := None;
     year_over_year_changes := None |}.

Definition status_report (s : string) (m : option string) : TrendReport :=
  {| status := Some s; message := m; peak_ndvi_trend := None;
     average_ndvi_trend := None; bloom_frequency := None;
     year_over_year_changes := None |}.

(** [BloomDetector._interpret_trend] *)
Definition _interpret_trend (slope r_squared : Q) : string :=
  if Qltb r_squared (3#10) then "No clear trend (low correlation)"
  else if Qltb (Qabs slope) (1#100) then "Stable bloom intensity"
  else if Qltb 0 slope then
    (if Qltb (5#100) slope
     then "Strong increase in bloom intensity - may indicate favorable conditions"
     else "Moderate increase in bloom intensity")
  else
    (if Qltb slope (-(5#100))
     then "Strong decrease in bloom intensity - may indicate stress or climate change"
     else "Moderate decrease in bloom intensity").

(** [data.get('peak_ndvi', 0)] and [data.get('average_ndvi', 0)] *)
Definition peak_of (d : YearlySummary) : Q := match peak_ndvi d with Some v => v | None => 0 end.
Definition average_of (d : YearlySummary) : Q := match average_ndvi d with Some v => v | None => 0 end.

Definition get_year (d : YearlySummary) : Py.Exc Z :=
  match year d with Some y => Py.ret y | None => Py.raise (Py.KeyError "year") end.

(** [for i in range(1, len(peak_ndvis)): change = ((p[i] - p[i-1]) / p[i-1]) * 100] *)
Fixpoint yoy_changes (years : list Z) (peaks : list Q) : Py.Exc (list YoY) :=
  match years, peaks with
  | y0 :: (y1 :: _) as years', p0 :: (p1 :: _) as peaks' =>
      c <- Py.div (p1 - p0) p0 ;;
      rest <- yoy_changes years' peaks' ;;
      Py.ret ({| from_year := y0; to_year := y1; percent_change := c * 100 |} :: rest)
  | _, _ => Py.ret []
  end.

Definition direction_of (s : Q) : string :=
  if Qltb 0 s then "increasing" else "decreasing".

Definition list_min (xs : list nat) : nat :=
  match xs with [] => O | x :: xs' => fold_right Nat.min x xs' end.
Definition list_max (xs : list nat) : nat :=
  match xs with [] => O | x :: xs' => fold_right Nat.max x xs' end.

(** The body of the [try] block of [analyze_trends]. *)
Definition analyze_trends_body (timeseries_data : list YearlySummary) : Py.Exc TrendReport :=
  match timeseries_data with
  | [] => Py.ret (status_report "no_data" None)
  | _ =>
      years <- Py.mapM get_year timeseries_data ;;
      let peak_ndvis := map peak_of timeseries_data in
      let avg_ndvis := map average_of timeseries_data in
      trends <-
        (if (2 <=? length years)%nat then
           lp <- LinRegress.linregress (map inject_Z years) peak_ndvis ;;
           la <- LinRegress.linregress (map inject_Z years) avg_ndvis ;;
           let event_counts :=
             map (fun d => length (match bloom_events d with Some es => es | None => [] end))
               timeseries_data in
           let freq :=
             match event_counts with
             | [] => None
             | _ => Some {| f_average := Qmean (map (fun c => inject_Z (Z.of_nat c)) event_counts);
                            f_min := list_min event_counts; f_max := list_max event_counts |}
             end in
           Py.ret (Some {| slope := LinRegress.slope lp;
                           direction := direction_of (LinRegress.slope lp);
                           r_squared := LinRegress.r_squared lp;
                           interpretation :=
                             Some (_interpret_trend (LinRegress.slope lp) (LinRegress.r_squared lp)) |},
                   Some {| slope := LinRegress.slope la;
                           direction := direction_of (LinRegress.slope la);
                           r_squared := LinRegress.r_squared la;
                           interpretation := None |},
                   freq)
         else Py.ret (None, None, None)) ;;
      yoy <-
        (if (2 <=? length timeseries_data)%nat then
           changes <- yoy_changes years peak_ndvis ;; Py.ret (Some changes)
         else Py.ret None) ;;
      let '(pt, avt, fr) := trends in
      Py.ret {| status := None; message := None; peak_ndvi_trend := pt;
                average_ndvi_trend := avt; bloom_frequency := fr;
                year_over_year_changes := yoy |}
  end.

(** [analyze_trends]: an exception becomes [{'status': 'error', 'message': str(e)}]. *)
Definition analyze_trends (timeseries_data : list YearlySummary) : TrendReport :=
  Py.try_except (analyze_trends_body timeseries_data)
    (fun e => status_report "error" (Some (Py.str_exn e))).

End Trends.

(* ------------------------------------------------------------------ *)
(** ** Python [datetime] at day resolution *)

Module Dates.

Record Date : Type := { yr : Z; mo : Z; dy : Z }.

Definition is_leap (y : Z) : bool :=
  Z.eqb (y mod 4) 0 && (negb (Z.eqb (y mod 100) 0) || Z.eqb (y mod 400) 0).

Definition days_in_month (y m : Z) : Z :=
  match m with
  | 1 | 3 | 5 | 7 | 8 | 10 | 12 => 31
  | 4 | 6 | 9 | 11 => 30
  | 2 => if is_leap y then 29 else 28
  | _ => 0
  end%Z.

(** [_DAYS_BEFORE_MONTH] *)
Definition days_before_month_table (m : Z) : Z :=
  match m with
  | 1 => 0 | 2 => 31 | 3 => 59 | 4 => 90 | 5 => 120 | 6 => 151
  | 7 => 181 | 8 => 212 | 9 => 243 | 10 => 273 | 11 => 304 | 12 => 334
  | _ => 0
  end%Z.

Definition days_before_year (y : Z) : Z :=
  let y1 := (y - 1)%Z in (y1 * 365 + y1 / 4 - y1 / 100 + y1 / 400)%Z.

Definition days_before_month (y m : Z) : Z :=
  (days_before_month_table m + (if (2 <? m)%Z && is_leap y then 1 else 0))%Z.

(** [date.toordinal()] *)
Definition toordinal (d : Date) : Z :=
  (days_before_year (yr d) + days_before_month (yr d) (mo d) + dy d)%Z.

(** [timetuple().tm_yday] *)
Definition yday (d : Date) : Z := (days_before_month (yr d) (mo d) + dy d)%Z.

(** [date.fromordinal(n)] ([_ord2ymd]) *)
Definition fromordinal (n : Z) : Date :=
  let n0 := (n - 1)%Z in
  let n400 := (n0 / 146097)%Z in let n1 := (n0 mod 146097)%Z in
  let n100 := (n1 / 36524)%Z in let n2 := (n1 mod 36524)%Z in
  let n4 := (n2 / 1461)%Z in let n3 := (n2 mod 1461)%Z in
  let k1 := (n3 / 365)%Z in let n5 := (n3 mod 365)%Z in
  let year := (n400 * 400 + 1 + n100 * 100 + n4 * 4 + k1)%Z in
  if Z.eqb k1 4 || Z.eqb n100 4 then {| yr := year - 1; mo := 12; dy := 31 |}
  else
    let leap := Z.eqb k1 3 && (negb (Z.eqb n4 24) || Z.eqb n100 3) in
    let month := Z.shiftr (n5 + 50) 5 in
    let preceding := (days_before_month_table month + (if (2 <? month)%Z && leap then 1 else 0))%Z in
    let '(month, preceding) :=
      if (n5 <? preceding)%Z then
        let m' := (month - 1)%Z in
        (m', (preceding - (days_in_month 2001 m' + (if Z.eqb m' 2 && leap then 1 else 0)))%Z)
      else (month, preceding) in
    {| yr := year; mo := month; dy := n5 - preceding + 1 |}.

Definition MAXORDINAL : Z := 3652059.

(** [datetime(y, m, d)] *)
Definition mk_datetime (y m d : Z) : Py.Exc Date :=
  if negb ((1 <=? y)%Z && (y <=? 9999)%Z) then Py.raise (Py.ValueError "year is out of range")
  else if negb ((1 <=? m)%Z && (m <=? 12)%Z) then Py.raise (Py.ValueError "month must be in 1..12")
  else if negb ((1 <=? d)%Z && (d <=? days_in_month y m)%Z) then
    Py.raise (Py.ValueError "day is out of range for month")
  else Py.ret {| yr := y; mo := m; dy := d |}.

(** [d + timedelta(days=k)] *)
Definition add_days (d : Date) (k : Z) : Py.Exc Date :=
  let o := (toordinal d + k)%Z in
  if (1 <=? o)%Z && (o <=? MAXORDINAL)%Z then Py.ret (fromordinal o)
  else Py.raise (Py.OverflowError "date value out of range").

(** [(a - b).days] *)
Definition diff_days (a b : Date) : Z := (toordinal a - toordinal b)%Z.

(** Decimal digits *)
Definition digit_char (k : nat) : ascii := ascii_of_nat (48 + k).

Fixpoint nat_to_string_fuel (fuel n : nat) : string :=
  match fuel with
  | O => ""
  | S f =>
      let r := Nat.div n 10 in
      (if Nat.eqb r 0 then "" else nat_to_string_fuel f r) ++ String (digit_char (Nat.modulo n 10)) ""
  end.

Definition nat_to_string (n : nat) : string := nat_to_string_fuel (S n) n.

Definition z_to_string (z : Z) : string :=
  if (z <? 0)%Z then "-" ++ nat_to_string (Z.to_nat (- z)) else nat_to_string (Z.to_nat z).

Definition pad2 (z : Z) : string :=
  if (z <? 10)%Z then "0" ++ z_to_string z else z_to_string z.

(** [strftime('%Y-%m-%d')] (glibc prints years below 1000 unpadded) *)
Definition strftime (d : Date) : string :=
  z_to_string (yr d) ++ "-" ++ pad2 (mo d) ++ "-" ++ pad2 (dy d).

Definition digit_val (c : ascii) : option Z :=
  let n := nat_of_ascii c in
  if (48 <=? n)%nat && (n <=? 57)%nat then Some (Z.of_nat (n - 48)) else None.

Definition in_range (c : ascii) (lo hi : nat) : bool :=
  let n := nat_of_ascii c in (48 + lo <=? n)%nat && (n <=? 48 + hi)%nat.

Definition dval (c : ascii) : Z := (Z.of_nat (nat_of_ascii c) - 48)%Z.

(** The alternatives of [_strptime]'s [%m] regex [1[0-2]|0[1-9]|[1-9]], in order. *)
Definition month_alts (s : string) : list (Z * string) :=
  (match s with String "1"%char (String c r) => if in_range c 0 2 then [((10 + dval c)%Z, r)] else [] | _ => [] end)
  ++ (match s with String "0"%char (String c r) => if in_range c 1 9 then [(dval c, r)] else [] | _ => [] end)
  ++ (match s with String c r => if in_range c 1 9 then [(dval c, r)] else [] | _ => [] end).

(** [%d]: [3[01]|[12]\d|0[1-9]|[1-9]| [1-9]] *)
Definition day_alts (s : string) : list (Z * string) :=
  (match s with String "3"%char (String c r) => if in_range c 0 1 then [((30 + dval c)%Z, r)] else [] | _ => [] end)
  ++ (match s with String c (String c' r) =>
        if in_range c 1 2 && in_range c' 0 9 then [((10 * dval c + dval c')%Z, r)] else [] | _ => [] end)
  ++ (match s with String "0"%char (String c r) => if in_range c 1 9 then [(dval c, r)] else [] | _ => [] end)
  ++ (match s with String c r => if in_range c 1 9 then [(dval c, r)] else [] | _ => [] end)
  ++ (match s with String " "%char (String c r) => if in_range c 1 9 then [(dval c, r)] else [] | _ => [] end).

Fixpoint first_before_dash (alts : list (Z * string)) : option (Z * string) :=
  match alts with
  | [] => None
  | (v, String "-"%char r) :: _ => Some (v, r)
  | _ :: alts' => first_before_dash alts'
  end.

(** [datetime.strptime(s, '%Y-%m-%d')] *)
Definition strptime (s : string) : Py.Exc Date :=
  let nomatch := Py.raise (Py.ValueError ("time data '" ++ s ++ "' does not match format '%Y-%m-%d'")) in
  match s with
  | String a (String b (String c (String d (String "-"%char rest)))) =>
      match digit_val a, digit_val b, digit_val c, digit_val d with
      | Some a', Some b', Some c', Some d' =>
          let y := (1000 * a' + 100 * b' + 10 * c' + d')%Z in
          match first_before_dash (month_alts rest) with
          | None => nomatch
          | Some (m, rest') =>
              match day_alts rest' with
              | [] => nomatch
              | (dd, EmptyString) :: _ => mk_datetime y m dd
              | (_, r) :: _ => Py.raise (Py.ValueError ("unconverted data remains: " ++ r))
              end
          end
      | _, _, _, _ => nomatch
      end
  | _ => nomatch
  end.

End Dates.

(* ------------------------------------------------------------------ *)
(** ** [bloom_predictor.py]: BloomPredictor *)

Module BloomPredictor.

Import Dates.
Local Open Scope string_scope.
Local Open Scope nat_scope.
Local Open Scope Q_scope.

(** An event dictionary of the history, as the predictor reads it:
    [event.get('peak_date')] and [event.get('peak_ndvi', 0)]. *)
Record HistEvent : Type := {
  peak_date : option string;
  ev_peak_ndvi : option Q
}.

(** One year's analysis: [bloom_data.get('bloom_events', [])], [bloom_data.get('year')]. *)
Record HistYear : Type := {
  bloom_events : option (list HistEvent);
  year : option Z
}.

Record Location : Type := { lat : Q; lon : Q }.

(** The dictionary returned by one prediction method. *)
Record SubPrediction : Type := {
  method : string;
  predicted_date : option string;
  predicted_peak_ndvi : Q;
  uncertainty_days : Z;
  sp_confidence : option Q
}.

(** The dictionary returned by [predict_next_bloom]; absent keys are
    [None] or empty. *)
Record Prediction : Type := {
  p_status : string;
  p_message : option string;
  p_confidence : Q;
  p_predicted_date : option string;
  p_confidence_level : option string;
  p_uncertainty_days : option Z;
  p_date_range : option (string * string * string);
  p_prediction_methods : list (string * string * Q * Q);
  p_recommendations : list string;
  p_based_on_years : option nat;
  p_historical_bloom_dates : list string;
  p_current_date : option string;
  p_location : option Location
}.

Definition status_only (status msg : string) : Prediction :=
  {| p_status := status; p_message := Some msg; p_confidence := 0;
     p_predicted_date := None; p_confidence_level := None; p_uncertainty_days := None;
     p_date_range := None; p_prediction_methods := []; p_recommendations := [];
     p_based_on_years := None; p_historical_bloom_dates := []; p_current_date := None;
     p_location := None |}.

(** A string used as a condition: [None] when absent or empty. *)
Definition truthy_str (o : option string) : option string :=
  match o with Some (String _ _ as s) => Some s | _ => None end.

Definition default_Q (d : Q) (o : option Q) : Q := match o with Some v => v | None => d end.

(** [np.median] *)
Fixpoint insertQ (a : Q) (l : list Q) : list Q :=
  match l with
  | [] => [a]
  | b :: l' => if Qle_bool a b then a :: l else b :: insertQ a l'
  end.

Definition sortQ (l : list Q) : list Q := fold_right insertQ [] l.

Definition median (l : list Q) : Q :=
  let s := sortQ l in
  let n := length s in
  if Nat.even n then (at_ s (Nat.div n 2 - 1) + at_ s (Nat.div n 2)) / 2
  else at_ s (Nat.div n 2).

(** [int(np.std(xs))]: the floor of the square root of the population
    variance, [isqrt(floor(var))]. *)
Definition variance (l : list Q) : Q :=
  let m := Qmean l in Qmean (map (fun x => (x - m) * (x - m)) l).

Definition int_std (l : list Q) : Z := Z.sqrt (Qfloor (variance l)).

Definition QZ (z : Z) : Q := inject_Z z.
Definition Qnat (n : nat) : Q := inject_Z (Z.of_nat n).

Definition next_year_for (current : Date) (avg_month : Z) : Z :=
  if (mo current <? avg_month)%Z then yr current else (yr current + 1)%Z.

(** [_statistical_prediction] *)
Definition _statistical_prediction (bloom_dates : list Date) (peak_ndvi_values : list Q)
    (current : Date) : Py.Exc SubPrediction :=
  let days_of_year := map (fun d => QZ (yday d)) bloom_dates in
  let avg_doy := Py.int_of (Qmean days_of_year) in
  let std_doy := if (1 <? length days_of_year)%nat then int_std days_of_year else 14%Z in
  let avg_peak_ndvi := Qmean peak_ndvi_values in
  let avg_month := Py.int_of (Qmean (map (fun d => QZ (mo d)) bloom_dates)) in
  let next_year := next_year_for current avg_month in
  jan1 <- mk_datetime next_year 1 1 ;;
  pd <- add_days jan1 (avg_doy - 1) ;;
  earliest <- add_days pd (- std_doy) ;;
  latest <- add_days pd std_doy ;;
  Py.ret {| method := "statistical_average";
            predicted_date := Some (strftime pd);
            predicted_peak_ndvi := avg_peak_ndvi;
            uncertainty_days := std_doy;
            sp_confidence := Some (Qmin ((6#10) + Qnat (length bloom_dates) * (5#100)) (85#100)) |}.

(** [yearly_blooms]: a dict from year to its (date, ndvi) pairs, in
    insertion order. *)
Fixpoint add_to_group (y : Z) (item : Date * Q) (g : list (Z * list (Date * Q)))
    : list (Z * list (Date * Q)) :=
  match g with
  | [] => [(y, [item])]
  | (y', items) :: g' =>
      if Z.eqb y y' then (y', app items [item]) :: g' else (y', items) :: add_to_group y item g'
  end.

Definition group_by_year (pairs : list (Date * Q)) : list (Z * list (Date * Q)) :=
  fold_left (fun g p => add_to_group (yr (fst p)) p g) pairs [].

(** [max(blooms, key=lambda x: x[1])]: the first maximal element. *)
Definition first_max (items : list (Date * Q)) : option (Date * Q) :=
  fold_left (fun acc it =>
    match acc with
    | None => Some it
    | Some a => if Qltb (snd a) (snd it) then Some it else Some a
    end) items None.

Definition contains (needle hay : string) : bool :=
  match String.index 0 needle hay with Some _ => true | None => false end.

(** [_pattern_based_prediction] *)
Definition _pattern_based_prediction (bloom_dates : list Date) (peak_ndvi_values : list Q)
    (current : Date) (vegetation_type : option string) : Py.Exc SubPrediction :=
  let yearly := group_by_year (combine bloom_dates peak_ndvi_values) in
  let primary_blooms :=
    flat_map (fun g => match first_max (snd g) with Some b => [fst b] | None => [] end) yearly in
  let days_of_year := map (fun d => QZ (yday d)) primary_blooms in
  let median_doy := Py.int_of (median days_of_year) in
  let adjustment :=
    match truthy_str vegetation_type with
    | Some vt => if contains "desert" vt then (-5)%Z else if contains "tree" vt then (-7)%Z else 0%Z
    | None => 0%Z
    end in
  let predicted_doy := (median_doy + adjustment)%Z in
  let avg_month := Py.int_of (median (map (fun d => QZ (mo d)) primary_blooms)) in
  let next_year := next_year_for current avg_month in
  jan1 <- mk_datetime next_year 1 1 ;;
  pd <- add_days jan1 (predicted_doy - 1) ;;
  Py.ret {| method := "pattern_based";
            predicted_date := Some (strftime pd);
            predicted_peak_ndvi := median peak_ndvi_values;
            uncertainty_days :=
              if (1 <? length days_of_year)%nat then int_std days_of_year else 10%Z;
            sp_confidence := Some (Qmin ((65#100) + Qnat (length primary_blooms) * (5#100)) (88#100)) |}.

Section WithSqrt.

(** The platform's float square root, used for [abs(r_value)]. *)
Variable sqrt : Q -> Q.

(** [_trend_adjusted_prediction] *)
Definition _trend_adjusted_prediction (bloom_dates : list Date) (peak_ndvi_values : list Q)
    (current : Date) : Py.Exc SubPrediction :=
  if (length bloom_dates <? 3)%nat then _statistical_prediction bloom_dates peak_ndvi_values current
  else
    let years := map yr bloom_dates in
    let days_of_year := map (fun d => QZ (yday d)) bloom_dates in
    if (3 <=? length (nodup Z.eq_dec years))%nat then
      lr <- LinRegress.linregress (map QZ years) days_of_year ;;
      let avg_month := Py.int_of (Qmean (map (fun d => QZ (mo d)) bloom_dates)) in
      let next_year := next_year_for current avg_month in
      let predicted_doy := Py.int_of (LinRegress.slope lr * QZ next_year + LinRegress.intercept lr) in
      jan1 <- mk_datetime next_year 1 1 ;;
      pd <- add_days jan1 (predicted_doy - 1) ;;
      Py.ret {| method := "trend_adjusted";
                predicted_date := Some (strftime pd);
                predicted_peak_ndvi := Qmean peak_ndvi_values;
                uncertainty_days := int_std days_of_year;
                sp_confidence :=
                  Some (Qmin ((7#10) + sqrt (LinRegress.r_squared lr) * (2#10)) (92#100)) |}
    else _statistical_prediction bloom_dates peak_ndvi_values current.

End WithSqrt.

(** [_confidence_level] *)
Definition _confidence_level (score : Q) : string :=
  if Qgeb score (80#100) then "Very High"
  else if Qgeb score (65#100) then "High"
  else if Qgeb score (50#100) then "Moderate"
  else if Qgeb score (35#100) then "Low"
  else "Very Low".

(** [_generate_recommendations] *)
Definition _generate_recommendations (predicted : Date) (conf : Q) (uncertainty : Z)
    : Py.Exc (list string) :=
  monitoring_start <- add_days predicted (- (uncertainty + 14)) ;;
  let r_monitor :=
    ("Begin monitoring from " ++ strftime monitoring_start ++ " ("
      ++ z_to_string (uncertainty + 14) ++ " days before predicted bloom)")%string in
  let r_conf :=
    if Qgeb conf (75#100) then
      ["High confidence prediction - suitable for planning activities"%string;
       "Consider advance logistics preparation"%string]
    else if Qgeb conf (55#100) then
      ["Moderate confidence - maintain flexible planning"%string;
       "Monitor weather conditions closely"%string]
    else
      ["Low confidence - use as rough estimate only"%string;
       "Require real-time monitoring for confirmation"%string] in
  let r_unc :=
    if (21 <? uncertainty)%Z then
      ("High uncertainty (" ++ "±" ++ z_to_string uncertainty ++ " days) - check weekly")%string
    else if (14 <? uncertainty)%Z then
      ("Moderate uncertainty (" ++ "±" ++ z_to_string uncertainty ++ " days) - check bi-weekly")%string
    else
      ("Low uncertainty (" ++ "±" ++ z_to_string uncertainty ++ " days) - reliable timeframe")%string in
  Py.ret (app [r_monitor] (app r_conf [r_unc;
          "Validate prediction with ground observations"%string;
          "Update prediction as season approaches"%string])).

(** A dict with string keys, in insertion order. *)
Fixpoint lookup {A} (k : string) (d : list (string * A)) : option A :=
  match d with
  | [] => None
  | (k', v) :: d' => if String.eqb k k' then Some v else lookup k d'
  end.

Definition dict_set {A} (k : string) (v : A) (d : list (string * A)) : list (string * A) :=
  map (fun p => if String.eqb (fst p) k then (k, v) else p) d.

(** The [weights] dict of [_ensemble_prediction]. *)
Definition ensemble_weights (n_years : nat) : list (string * Q) :=
  let weights := [("statistical", 4#10); ("pattern_based", 35#100); ("trend_adjusted", 25#100)] in
  if (5 <=? n_years)%nat
  then dict_set "statistical" (30#100) (dict_set "trend_adjusted" (35#100) weights)
  else weights.

(** [reference_date = datetime(2025, 1, 1)] *)
Definition reference_date : Date := {| yr := 2025; mo := 1; dy := 1 |}.

(** The loop over [weights.items()]: weighted day offsets and weighted
    confidences of the methods that produced a date. *)
Fixpoint weighted_terms (weights : list (string * Q)) (predictions : list (string * SubPrediction))
    : Py.Exc (list Q * list Q) :=
  match weights with
  | [] => Py.ret ([], [])
  | (m, w) :: ws =>
      match lookup m predictions with
      | Some p =>
          match truthy_str (predicted_date p) with
          | Some s =>
              pd <- strptime s ;;
              let days_from_ref := diff_days pd reference_date in
              rest <- weighted_terms ws predictions ;;
              Py.ret (QZ days_from_ref * w :: fst rest,
                      default_Q (5#10) (sp_confidence p) * w :: snd rest)
          | None => weighted_terms ws predictions
          end
      | None => weighted_terms ws predictions
      end
  end.

Definition min_date (ds : list Date) : Date :=
  match ds with
  | [] => reference_date
  | d :: ds' => fold_left (fun a b => if (toordinal b <? toordinal a)%Z then b else a) ds' d
  end.

(** [_ensemble_prediction] *)
Definition _ensemble_prediction (predictions : list (string * SubPrediction)) (n_years : nat)
    : Py.Exc Prediction :=
  let weights := ensemble_weights n_years in
  terms <- weighted_terms weights predictions ;;
  let avg_days := Qsum (fst terms) in
  let avg_confidence := Qsum (snd terms) in
  final_date <- add_days reference_date (Py.int_of avg_days) ;;
  all_dates <- Py.mapM strptime
                 (flat_map (fun mp => match truthy_str (predicted_date (snd mp)) with
                                      | Some s => [s] | None => [] end) predictions) ;;
  let uncertainty :=
    if (1 <? length all_dates)%nat then
      let lo := min_date all_dates in
      (int_std (map (fun d => QZ (diff_days d lo)) all_dates) + 7)%Z
    else 14%Z in
  earliest <- add_days final_date (- uncertainty) ;;
  latest <- add_days final_date uncertainty ;;
  methods <- Py.mapM (fun mp =>
               let '(m, pred) := mp in
               date <- match predicted_date pred with
                       | Some s => Py.ret s
                       | None => Py.raise (Py.KeyError "predicted_date")
                       end ;;
               w <- match lookup m weights with
                    | Some w => Py.ret w
                    | None => Py.raise (Py.KeyError m)
                    end ;;
               Py.ret (m, date, default_Q 0 (sp_confidence pred), w)) predictions ;;
  recs <- _generate_recommendations final_date avg_confidence uncertainty ;;
  Py.ret {| p_status := "success";
            p_message := None;
            p_confidence := avg_confidence;
            p_predicted_date := Some (strftime final_date);
            p_confidence_level := Some (_confidence_level avg_confidence);
            p_uncertainty_days := Some uncertainty;
            p_date_range := Some (strftime earliest, strftime final_date, strftime latest);
            p_prediction_methods := methods;
            p_recommendations := recs;
            p_based_on_years := None;
            p_historical_bloom_dates := [];
            p_current_date := None;
            p_location := None |}.

(** Lines 59-74: the (peak_date, peak_ndvi) pairs of the history; a peak
    date that does not parse is skipped by the bare [except: pass]. *)
Definition collect_event (e : HistEvent) : list (Date * Q) :=
  match truthy_str (peak_date e) with
  | Some s =>
      match strptime s with
      | inr dt => [(dt, default_Q 0 (ev_peak_ndvi e))]
      | inl _ => []
      end
  | None => []
  end.

Definition collect_pairs (historical_blooms : list HistYear) : list (Date * Q) :=
  flat_map (fun y => flat_map collect_event
                       (match bloom_events y with Some es => es | None => [] end))
    historical_blooms.

Definition last_n {A} (n : nat) (l : list A) : list A := skipn (length l - n) l.

(** The body of the [try] block of [predict_next_bloom]; [today] is the
    value of [datetime.now()] and [sqrt] the float square root. *)
Definition predict_next_bloom_body (sqrt : Q -> Q) (today : Date)
    (historical_blooms : list HistYear) (location : Location)
    (vegetation_type : option string) (current_date : option string) : Py.Exc Prediction :=
  let current_date := match truthy_str current_date with Some s => s | None => strftime today end in
  current <- strptime current_date ;;
  match historical_blooms with
  | [] => Py.ret (status_only "insufficient_data" "No historical bloom data available for prediction")
  | _ =>
      let pairs := collect_pairs historical_blooms in
      if (length pairs <? 2)%nat then
        Py.ret (status_only "insufficient_data" "Need at least 2 years of historical data for prediction")
      else
        let bloom_dates := map fst pairs in
        let peak_ndvi_values := map snd pairs in
        stat_pred <- _statistical_prediction bloom_dates peak_ndvi_values current ;;
        pattern_pred <- _pattern_based_prediction bloom_dates peak_ndvi_values current vegetation_type ;;
        trend_pred <- _trend_adjusted_prediction sqrt bloom_dates peak_ndvi_values current ;;
        final <- _ensemble_prediction
                   [("statistical", stat_pred); ("pattern_based", pattern_pred);
                    ("trend_adjusted", trend_pred)] (length historical_blooms) ;;
        Py.ret {| p_status := p_status final;
                  p_message := p_message final;
                  p_confidence := p_confidence final;
                  p_predicted_date := p_predicted_date final;
                  p_confidence_level := p_confidence_level final;
                  p_uncertainty_days := p_uncertainty_days final;
                  p_date_range := p_date_range final;
                  p_prediction_methods := p_prediction_methods final;
                  p_recommendations := p_recommendations final;
                  p_based_on_years := Some (length historical_blooms);
                  p_historical_bloom_dates := map strftime (last_n 5 bloom_dates);
                  p_current_date := Some current_date;
                  p_location := Some location |}
  end.

(** [predict_next_bloom]: an exception becomes
    [{'status': 'error', 'message': str(e), 'confidence': 0.0}]. *)
Definition predict_next_bloom (sqrt : Q -> Q) (today : Date)
    (historical_blooms : list HistYear) (location : Location)
    (vegetation_type : option string) (current_date : option string) : Prediction :=
  Py.try_except
    (predict_next_bloom_body sqrt today historical_blooms location vegetation_type current_date)
    (fun e => status_only "error" (Py.str_exn e)).

End BloomPredictor.

(* ------------------------------------------------------------------ *)
(** ** [bloom_detector.py]: the summaries and the mock [predict_next_bloom] *)

Module DetectorSummaries.

Import BloomDetector.
Import Dates.
Local Open Scope string_scope.
Local Open Scope nat_scope.
Local Open Scope Q_scope.

(** [event.get('peak_ndvi', 0)]: the single-observation dictionary has
    no [peak_ndvi] key. *)
Definition event_peak_ndvi (e : BloomEvent) : Q :=
  match e with
  | SingleObservation _ _ _ => 0
  | SustainedBloom pk _ _ _ => pk
  | PeakBloom pe => peak_ndvi pe
  end.

(** [f"{event.get('peak_index', 'N/A')}"] *)
Definition event_peak_index_str (e : BloomEvent) : string :=
  match e with
  | PeakBloom pe => nat_to_string (peak_index pe)
  | _ => "N/A"
  end.

(** [max(bloom_events, key=...)]: the first maximal element. *)
Definition max_by (key : BloomEvent -> Q) (e0 : BloomEvent) (es : list BloomEvent) : BloomEvent :=
  fold_left (fun m e => if Qltb (key m) (key e) then e else m) es e0.

(** [get_peak_bloom_date] *)
Definition get_peak_bloom_date (bloom_events : list BloomEvent) : option string :=
  match bloom_events with
  | [] => None
  | e0 :: es => Some ("Observation " ++ event_peak_index_str (max_by event_peak_ndvi e0 es))
  end.

(** [calculate_bloom_intensity] *)
Definition calculate_bloom_intensity (bloom_events : list BloomEvent) : Q :=
  match bloom_events with
  | [] => 0
  | _ =>
      let peak_ndvis := map event_peak_ndvi bloom_events in
      let avg_ndvi := Qmean peak_ndvis in
      let intensity := (avg_ndvi - (4#10)) / (6#10) in
      Qmin 1 (Qmax 0 intensity)
  end.

(** The dictionary returned by [BloomDetector.predict_next_bloom]; absent
    keys are [None]. *)
Record MockPrediction : Type := {
  m_status : string;
  m_message : option string;
  m_predicted_date : option string;
  m_confidence : option Q;
  m_uncertainty_days : option Z;
  m_date_range : option (string * string);
  m_based_on_years : option nat
}.

Definition mock_status (status : string) (message : option string) : MockPrediction :=
  {| m_status := status; m_message := message; m_predicted_date := None;
     m_confidence := None; m_uncertainty_days := None; m_date_range := None;
     m_based_on_years := None |}.

(** [data.get('bloom_events', [])] over the history. *)
Definition history_events (historical_data : list Trends.YearlySummary) : list BloomEvent :=
  flat_map (fun d => match Trends.bloom_events d with Some es => es | None => [] end)
    historical_data.

(** The body of the [try] block of [predict_next_bloom]. *)
Definition predict_next_bloom_body (historical_data : list Trends.YearlySummary)
    (current_date : string) : Py.Exc MockPrediction :=
  match historical_data with
  | [] => Py.ret (mock_status "insufficient_data" None)
  | _ =>
      let events := history_events historical_data in
      let bloom_months := map (fun _ => 4%Z) events in
      let bloom_days := map (fun _ => 15%Z) events in
      match bloom_months with
      | [] => Py.ret (mock_status "no_historical_blooms" None)
      | _ =>
          let avg_month := Py.int_of (Qmean (map BloomPredictor.QZ bloom_months)) in
          let avg_day := Py.int_of (Qmean (map BloomPredictor.QZ bloom_days)) in
          let std_days :=
            if (1 <? length bloom_days)%nat
            then BloomPredictor.int_std (map BloomPredictor.QZ bloom_days) else 7%Z in
          current <- strptime current_date ;;
          let next_year := BloomPredictor.next_year_for current avg_month in
          predicted_date <- mk_datetime next_year avg_month avg_day ;;
          let confidence := if (3 <=? length historical_data)%nat then 8#10 else 6#10 in
          earliest <- add_days predicted_date (- std_days) ;;
          latest <- add_days predicted_date std_days ;;
          Py.ret {| m_status := "success"; m_message := None;
                    m_predicted_date := Some (strftime predicted_date);
                    m_confidence := Some confidence;
                    m_uncertainty_days := Some std_days;
                    m_date_range := Some (strftime earliest, strftime latest);
                    m_based_on_years := Some (length historical_data) |}
      end
  end.

(** [predict_next_bloom]: an exception becomes
    [{'status': 'error', 'message': str(e)}]. *)
Definition predict_next_bloom (historical_data : list Trends.YearlySummary)
    (current_date : string) : MockPrediction :=
  Py.try_except (predict_next_bloom_body historical_data current_date)
    (fun e => mock_status "error" (Some (Py.str_exn e))).

End DetectorSummaries.

(* ------------------------------------------------------------------ *)
(** ** Concrete inputs used by the properties *)

Import BloomDetector.

(** The series of the spec's worked example. *)
Definition example_series : list Q := [2#10; 3#10; 45#100; 75#100; 5#10; 3#10].

Definition band_payload : VegetationIndices.Payload :=
  {| VegetationIndices.demo_mode := false; VegetationIndices.ndvi_values := [];
     VegetationIndices.ndvi_data := None;
     VegetationIndices.bands := [("red", Some "B04"); ("nir", Some "B08"); ("blue", Some "B02")]%string |}.

(** A stream of unit samples: 0 first, then 0.5. *)
Definition unit_draws : VegetationIndices.Rng :=
  {| VegetationIndices.draw := fun k => match k with O => 0 | S _ => 1#2 end;
     VegetationIndices.pos := 0 |}.

(** [BloomDetector(bloom_threshold=t)] *)
Definition detector_with_threshold (t : Q) : Detector :=
  {| bloom_threshold := t; change_threshold := 2#10; min_duration_days := 14 |}.

(** A peak whose decline stays above 0.4 but falls below 0.85. *)
Definition c4_series : list Q := [1#10; 9#10; 88#100; 86#100; 84#100; 5#10].

(** The [start_index], [peak_index], [end_index] and
    [duration_observations] keys of an event dictionary, when present. *)
Definition event_span (e : BloomEvent) : option (nat * nat * nat * Z) :=
  match e with
  | PeakBloom pe => Some (start_index pe, peak_index pe, end_index pe, duration_observations pe)
  | _ => None
  end.

(** A yearly dictionary with all its keys. *)
Definition year_entry (y : Z) (peak avg : Q) : Trends.YearlySummary :=
  {| Trends.year := Some y; Trends.peak_ndvi := Some peak; Trends.average_ndvi := Some avg;
     Trends.bloom_events := Some [] |}.

Definition some_day : Dates.Date := {| Dates.yr := 2025; Dates.mo := 10; Dates.dy := 15 |}.

Definition origin : BloomPredictor.Location := {| BloomPredictor.lat := 0; BloomPredictor.lon := 0 |}.




(** [np.isnan] on one element. *)
Definition is_nan (x : Ext.t) : bool := match x with Ext.NaN => true | _ => false end.

(** Two peak positions at least two observations apart ([distance=2]). *)
Definition gap2 (a b : nat) : Prop := (a + 2 <= b)%nat.

(** The order of the labels of [_confidence_level], lowest first. *)
Definition level_rank (s : string) : nat :=
  if String.eqb s "Very High" then 4
  else if String.eqb s "High" then 3
  else if String.eqb s "Moderate" then 2
  else if String.eqb s "Low" then 1
  else 0.

(** Two separated peaks above 0.4. *)
Definition two_peak_series : list Q := [1#10; 8#10; 2#10; 9#10; 1#10].


(** Two yearly dictionaries with distinct years and nonzero peaks. *)
Definition two_years : list Trends.YearlySummary :=
  [year_entry 2023 (6#10) (5#10); year_entry 2024 (7#10) (5#10)].

(** A yearly dictionary holding one bloom event. *)
Definition year_with_event : Trends.YearlySummary :=
  {| Trends.year := Some 2024%Z; Trends.peak_ndvi := Some (7#10); Trends.average_ndvi := Some (5#10);
     Trends.bloom_events := Some [SingleObservation (7#10) true (6#10)] |}.

Definition march_10 : Dates.Date := {| Dates.yr := 2025; Dates.mo := 3; Dates.dy := 10 |}.

(** Two years of history with one parsable peak date each. *)
Definition hist2 : list BloomPredictor.HistYear :=
  [{| BloomPredictor.bloom_events :=
        Some [{| BloomPredictor.peak_date := Some "2023-04-10"%string;
                 BloomPredictor.ev_peak_ndvi := Some (7#10) |}];
      BloomPredictor.year := Some 2023%Z |};
   {| BloomPredictor.bloom_events :=
        Some [{| BloomPredictor.peak_date := Some "2024-04-14"%string;
                 BloomPredictor.ev_peak_ndvi := Some (8#10) |}];
      BloomPredictor.year := Some 2024%Z |}].

(* ================================================================== *)
(** * Properties *)

(** ** Helper lemmas: element-wise arrays *)

Lemma clip_nan_to_num_in_range (x : Ext.t) :
  VegetationIndices.in_unit_range (Ext.clip (-1) 1 (Ext.nan_to_num x)).
Proof.
  unfold VegetationIndices.in_unit_range.
  destruct x; simpl; eexists; split; try reflexivity;
    split; try (apply Q.min_glb; [discriminate | apply Q.le_max_l]);
    apply Q.le_min_l.
Qed.

Lemma log_stats_inv (v w : list Ext.t) :
  VegetationIndices.log_stats v = inr w -> w = v.
Proof. destruct v; simpl; intro H; inversion H; reflexivity. Qed.

Lemma broadcast2_same_length {A} (f : A -> A -> A) (xs ys : list A) :
  length xs = length ys ->
  exists zs, broadcast2 f xs ys = inr zs /\ length zs = length xs.
Proof.
  intro Hl. unfold broadcast2. rewrite Hl, Nat.eqb_refl.
  eexists; split; [reflexivity|].
  rewrite length_map, length_combine, Hl. apply Nat.min_id.
Qed.

Lemma broadcast2_nth {A} (f : A -> A -> A) (xs ys zs : list A) (i : nat) (a b : A) :
  broadcast2 f xs ys = inr zs ->
  nth_error xs i = Some a -> nth_error ys i = Some b ->
  nth_error zs i = Some (f a b).
Proof.
  unfold broadcast2. intros H Ha Hb.
  destruct (Nat.eqb (length xs) (length ys)) eqn:E.
  - inversion H; subst. rewrite nth_error_map.
    assert (Hc : nth_error (combine xs ys) i = Some (a, b)).
    { clear H E. revert i ys Ha Hb. induction xs as [|x xs IH]; intros i ys Ha Hb.
      - destruct i; discriminate.
      - destruct ys as [|y ys]; [destruct i; discriminate|].
        destruct i; simpl in *.
        + inversion Ha; inversion Hb; reflexivity.
        + apply IH; assumption. }
    rewrite Hc. reflexivity.
  - destruct xs as [|x [|x' xs']].
    + destruct i; discriminate.
    + destruct i as [|i]; [|destruct i; discriminate].
      simpl in Ha. inversion Ha; subst. inversion H; subst.
      rewrite nth_error_map, Hb. reflexivity.
    + destruct ys as [|y [|y' ys']]; try discriminate.
      destruct i as [|i]; [|destruct i; discriminate].
      simpl in Hb. inversion Hb; subst. inversion H; subst.
      simpl in *. congruence.
Qed.

Lemma nth_error_fin_array (xs : list Q) (i : nat) (q : Q) :
  nth_error xs i = Some q ->
  nth_error (VegetationIndices.fin_array xs) i = Some (Ext.Fin q).
Proof. intro H. unfold VegetationIndices.fin_array. rewrite nth_error_map, H. reflexivity. Qed.

Lemma nth_error_some_nonempty {A} (xs : list A) (i : nat) (a : A) :
  nth_error xs i = Some a -> xs <> [].
Proof. intros H ->. destruct i; discriminate. Qed.

(** Division by a zero denominator gives a value [nan_to_num] maps to 0. *)
Lemma div_by_zero_to_zero (a d : Q) :
  d == 0 -> Ext.nan_to_num (Ext.div (Ext.Fin a) (Ext.Fin d)) = Ext.Fin 0.
Proof.
  intro Hd. simpl. apply Qeq_bool_iff in Hd. rewrite Hd.
  destruct (Qeq_bool a 0); [reflexivity|].
  destruct (Qle_bool 0 a); reflexivity.
Qed.

Lemma scaled_div_by_zero_to_zero (c a d : Q) :
  0 < c -> d == 0 ->
  Ext.nan_to_num (Ext.mul (Ext.Fin c) (Ext.div (Ext.Fin a) (Ext.Fin d))) = Ext.Fin 0.
Proof.
  intros Hc Hd. simpl. apply Qeq_bool_iff in Hd. rewrite Hd.
  destruct (Qeq_bool a 0); [reflexivity|].
  destruct (Qle_bool 0 a); simpl; destruct (Qeq_bool c 0); try reflexivity;
    destruct (Qle_bool 0 c); reflexivity.
Qed.

Lemma log_stats_nonempty (v : list Ext.t) : v <> [] -> VegetationIndices.log_stats v = inr v.
Proof. destruct v; [contradiction|reflexivity]. Qed.

Lemma nth_error_map_some {A B} (f : A -> B) (xs : list A) (i : nat) (a : A) :
  nth_error xs i = Some a -> nth_error (map f xs) i = Some (f a).
Proof. intro H. rewrite nth_error_map, H. reflexivity. Qed.

Lemma fin_array_length (xs : list Q) : length (VegetationIndices.fin_array xs) = length xs.
Proof. apply length_map. Qed.

Lemma ndvi_from_bands_in_range (red nir : list Ext.t) :
  Forall VegetationIndices.in_unit_range
    (Py.try_except (VegetationIndices.ndvi_from_bands red nir) (fun _ => [])).
Proof.
  unfold VegetationIndices.ndvi_from_bands, Py.try_except, Py.bind.
  destruct (broadcast2 Ext.sub nir red) as [e|num]; [constructor|].
  destruct (broadcast2 Ext.add nir red) as [e|den]; [constructor|].
  destruct (broadcast2 Ext.div num den) as [e|q]; [constructor|].
  destruct (VegetationIndices.log_stats _) as [e|w] eqn:E; [constructor|].
  apply log_stats_inv in E. subst w.
  rewrite map_map. apply Forall_forall. intros x Hx.
  apply in_map_iff in Hx as [y [<- _]]. apply clip_nan_to_num_in_range.
Qed.

Lemma evi_from_bands_in_range (red nir blue : list Ext.t) :
  Forall VegetationIndices.in_unit_range
    (Py.try_except (VegetationIndices.evi_from_bands red nir blue) (fun _ => [])).
Proof.
  unfold VegetationIndices.evi_from_bands, Py.try_except, Py.bind.
  destruct (broadcast2 Ext.sub nir red) as [e|num]; [constructor|].
  destruct (broadcast2 Ext.add nir _) as [e|d1]; [constructor|].
  destruct (broadcast2 Ext.sub d1 _) as [e|d2]; [constructor|].
  destruct (broadcast2 Ext.div num _) as [e|q]; [constructor|].
  destruct (VegetationIndices.log_stats _) as [e|w] eqn:E; [constructor|].
  apply log_stats_inv in E. subst w.
  rewrite map_map. apply Forall_forall. intros x Hx.
  apply in_map_iff in Hx as [y [<- _]]. apply clip_nan_to_num_in_range.
Qed.

Lemma ndvi_zero_denominator (red nir : list Q) (i : nat) (r n : Q) :
  length red = length nir ->
  nth_error red i = Some r -> nth_error nir i = Some n -> n + r == 0 ->
  nth_error (Py.try_except
               (VegetationIndices.ndvi_from_bands (VegetationIndices.fin_array red)
                  (VegetationIndices.fin_array nir)) (fun _ => [])) i = Some (Ext.Fin 0).
Proof.
  intros Hl Hr Hn H0.
  pose proof (nth_error_fin_array _ _ _ Hr) as Fr.
  pose proof (nth_error_fin_array _ _ _ Hn) as Fn.
  assert (Hl' : length (VegetationIndices.fin_array nir) = length (VegetationIndices.fin_array red))
    by (rewrite !fin_array_length; auto).
  unfold VegetationIndices.ndvi_from_bands.
  destruct (broadcast2_same_length Ext.sub _ _ Hl') as [num [Hnum Lnum]].
  destruct (broadcast2_same_length Ext.add _ _ Hl') as [den [Hden Lden]].
  rewrite Hnum, Hden. cbn [Py.bind].
  assert (Hl2 : length num = length den) by congruence.
  destruct (broadcast2_same_length Ext.div _ _ Hl2) as [q [Hq Lq]].
  rewrite Hq. cbn [Py.bind].
  pose proof (broadcast2_nth _ _ _ _ _ _ _ Hnum Fn Fr) as Nnum.
  pose proof (broadcast2_nth _ _ _ _ _ _ _ Hden Fn Fr) as Nden.
  pose proof (broadcast2_nth _ _ _ _ _ _ _ Hq Nnum Nden) as Nq.
  pose proof (nth_error_map_some Ext.nan_to_num _ _ _ Nq) as N1.
  pose proof (nth_error_map_some (Ext.clip (-1) 1) _ _ _ N1) as N2.
  rewrite log_stats_nonempty by (eapply nth_error_some_nonempty; exact N2).
  unfold Py.try_except. rewrite N2.
  simpl Ext.sub. simpl Ext.add. rewrite div_by_zero_to_zero by exact H0. reflexivity.
Qed.

Lemma evi_zero_denominator (red nir blue : list Q) (i : nat) (r n b : Q) :
  length red = length nir -> length blue = length nir ->
  nth_error red i = Some r -> nth_error nir i = Some n -> nth_error blue i = Some b ->
  n + VegetationIndices.C1 * r - VegetationIndices.C2 * b + VegetationIndices.L == 0 ->
  nth_error (Py.try_except
               (VegetationIndices.evi_from_bands (VegetationIndices.fin_array red)
                  (VegetationIndices.fin_array nir) (VegetationIndices.fin_array blue))
               (fun _ => [])) i = Some (Ext.Fin 0).
Proof.
  intros Hl Hlb Hr Hn Hb H0.
  pose proof (nth_error_fin_array _ _ _ Hr) as Fr.
  pose proof (nth_error_fin_array _ _ _ Hn) as Fn.
  pose proof (nth_error_fin_array _ _ _ Hb) as Fb.
  unfold VegetationIndices.evi_from_bands, scale, shift.
  assert (L1 : length (VegetationIndices.fin_array nir) = length (VegetationIndices.fin_array red))
    by (rewrite !fin_array_length; auto).
  destruct (broadcast2_same_length Ext.sub _ _ L1) as [num [Hnum Lnum]].
  rewrite Hnum. cbn [Py.bind].
  assert (L2 : length (VegetationIndices.fin_array nir)
               = length (map (Ext.mul (Ext.Fin VegetationIndices.C1)) (VegetationIndices.fin_array red)))
    by (rewrite length_map, !fin_array_length; auto).
  destruct (broadcast2_same_length Ext.add _ _ L2) as [d1 [Hd1 Ld1]].
  rewrite Hd1. cbn [Py.bind].
  assert (L3 : length d1
               = length (map (Ext.mul (Ext.Fin VegetationIndices.C2)) (VegetationIndices.fin_array blue)))
    by (rewrite Ld1, length_map, !fin_array_length; auto).
  destruct (broadcast2_same_length Ext.sub _ _ L3) as [d2 [Hd2 Ld2]].
  rewrite Hd2. cbn [Py.bind].
  assert (L4 : length num = length (map (fun x => Ext.add x (Ext.Fin VegetationIndices.L)) d2))
    by (rewrite length_map; congruence).
  destruct (broadcast2_same_length Ext.div _ _ L4) as [q [Hq Lq]].
  rewrite Hq. cbn [Py.bind].
  pose proof (broadcast2_nth _ _ _ _ _ _ _ Hnum Fn Fr) as Nnum.
  pose proof (broadcast2_nth _ _ _ _ _ _ _ Hd1 Fn (nth_error_map_some _ _ _ _ Fr)) as Nd1.
  pose proof (broadcast2_nth _ _ _ _ _ _ _ Hd2 Nd1 (nth_error_map_some _ _ _ _ Fb)) as Nd2.
  pose proof (nth_error_map_some (fun x => Ext.add x (Ext.Fin VegetationIndices.L)) _ _ _ Nd2) as Nden.
  pose proof (broadcast2_nth _ _ _ _ _ _ _ Hq Nnum Nden) as Nq.
  pose proof (nth_error_map_some (Ext.mul (Ext.Fin VegetationIndices.G)) _ _ _ Nq) as N0.
  pose proof (nth_error_map_some Ext.nan_to_num _ _ _ N0) as N1.
  pose proof (nth_error_map_some (Ext.clip (-1) 1) _ _ _ N1) as N2.
  rewrite log_stats_nonempty by (eapply nth_error_some_nonempty; exact N2).
  unfold Py.try_except. rewrite N2.
  change (Ext.sub (Ext.Fin n) (Ext.Fin r)) with (Ext.Fin (n + - r)).
  change (Ext.add (Ext.sub (Ext.add (Ext.Fin n) (Ext.mul (Ext.Fin VegetationIndices.C1) (Ext.Fin r)))
                     (Ext.mul (Ext.Fin VegetationIndices.C2) (Ext.Fin b)))
            (Ext.Fin VegetationIndices.L))
    with (Ext.Fin (n + VegetationIndices.C1 * r + - (VegetationIndices.C2 * b) + VegetationIndices.L)).
  rewrite scaled_div_by_zero_to_zero; [reflexivity | reflexivity |].
  unfold Qminus in H0. exact H0.
Qed.

(** On a band payload (not in demo mode, no pre-computed values), the
    public [calculate_ndvi] and [calculate_evi] return in-range values. *)
Lemma calculate_indices_band_path_in_range (p : VegetationIndices.Payload) (g : VegetationIndices.Rng) :
  VegetationIndices.demo_mode p = false ->
  (forall v vs, VegetationIndices.ndvi_data p <> Some (v :: vs)) ->
  Forall VegetationIndices.in_unit_range (fst (VegetationIndices.calculate_ndvi p g)) /\
  Forall VegetationIndices.in_unit_range (fst (VegetationIndices.calculate_evi p g)).
Proof.
  intros Hd Hn.
  unfold VegetationIndices.calculate_ndvi, VegetationIndices.calculate_evi. rewrite Hd.
  assert (Hmatch : forall {A} (k1 : list Q -> A) (k2 : A),
            match VegetationIndices.ndvi_data p with
            | Some (_ :: _ as values) => k1 values | _ => k2 end = k2).
  { intros A k1 k2. destruct (VegetationIndices.ndvi_data p) as [[|v vs]|] eqn:E; auto.
    exfalso. exact (Hn v vs eq_refl). }
  rewrite !Hmatch. split.
  - destruct (VegetationIndices._extract_band_data p "red" g) as [[r|] g1].
    + destruct (VegetationIndices._extract_band_data p "nir" g1) as [[n|] g2];
        [apply ndvi_from_bands_in_range | constructor].
    + destruct (VegetationIndices._extract_band_data p "nir" g1) as [[n|] g2]; constructor.
  - destruct (VegetationIndices._extract_band_data p "red" g) as [red g1].
    destruct (VegetationIndices._extract_band_data p "nir" g1) as [nir g2].
    destruct (VegetationIndices._extract_band_data p "blue" g2) as [blue g3].
    destruct red, nir, blue; try constructor. apply evi_from_bands_in_range.
Qed.

(** ** C1 *)

(** C1: on the series [0.2, 0.3, 0.45, 0.75, 0.5, 0.3] with threshold 0.4,
    [detect_blooms] returns exactly one [peak_bloom] event: peak index 3
    (value 0.75), start index 0 as given by the backward scan, end index 5
    as given by the forward scan, confidence 0.95, and intensity
    [moderate], the class of the mean (5/12) of the values from start to
    end inclusive. *)
Theorem C1_example_single_peak_bloom :
  match detect_blooms default_detector (series example_series) None (Some (4#10)) None with
  | [PeakBloom e] =>
      peak_index e = 3%nat /\ peak_ndvi e == 75#100 /\
      start_index e = _find_bloom_start example_series 3 /\ start_index e = 0%nat /\
      end_index e = _find_bloom_end default_detector example_series 3 /\ end_index e = 5%nat /\
      confidence e == 95#100 /\
      Qmean (slice example_series (start_index e) (S (end_index e))) == 5#12 /\
      intensity e = _calculate_intensity (slice example_series (start_index e) (S (end_index e))) /\
      intensity e = Moderate
  | _ => False
  end.
Proof. vm_compute. repeat split; reflexivity. Qed.

(** ** C2 *)

(** C2: for all band arrays the NDVI and EVI outputs hold only finite
    values in [[-1, 1]] (no NaN, no infinity), also through the public
    [calculate_ndvi]/[calculate_evi] on band payloads; at a pixel whose
    denominator is zero ([nir + red = 0] for NDVI) the value is 0: the
    division result is replaced by 0 before clipping. *)
Theorem C2_indices_finite_and_clipped :
  (forall red nir : list Ext.t,
     Forall VegetationIndices.in_unit_range
       (Py.try_except (VegetationIndices.ndvi_from_bands red nir) (fun _ => []))) /\
  (forall red nir blue : list Ext.t,
     Forall VegetationIndices.in_unit_range
       (Py.try_except (VegetationIndices.evi_from_bands red nir blue) (fun _ => []))) /\
  (forall (p : VegetationIndices.Payload) (g : VegetationIndices.Rng),
     VegetationIndices.demo_mode p = false ->
     (forall v vs, VegetationIndices.ndvi_data p <> Some (v :: vs)) ->
     Forall VegetationIndices.in_unit_range (fst (VegetationIndices.calculate_ndvi p g)) /\
     Forall VegetationIndices.in_unit_range (fst (VegetationIndices.calculate_evi p g))) /\
  (forall (red nir : list Q) (i : nat) (r n : Q),
     length red = length nir ->
     nth_error red i = Some r -> nth_error nir i = Some n -> n + r == 0 ->
     nth_error (Py.try_except
                  (VegetationIndices.ndvi_from_bands (VegetationIndices.fin_array red)
                     (VegetationIndices.fin_array nir)) (fun _ => [])) i = Some (Ext.Fin 0)) /\
  (forall (red nir blue : list Q) (i : nat) (r n b : Q),
     length red = length nir -> length blue = length nir ->
     nth_error red i = Some r -> nth_error nir i = Some n -> nth_error blue i = Some b ->
     n + VegetationIndices.C1 * r - VegetationIndices.C2 * b + VegetationIndices.L == 0 ->
     nth_error (Py.try_except
                  (VegetationIndices.evi_from_bands (VegetationIndices.fin_array red)
                     (VegetationIndices.fin_array nir) (VegetationIndices.fin_array blue))
                  (fun _ => [])) i = Some (Ext.Fin 0)).
Proof.
  split; [exact ndvi_from_bands_in_range|].
  split; [exact evi_from_bands_in_range|].
  split; [exact calculate_indices_band_path_in_range|].
  split; [exact ndvi_zero_denominator | exact evi_zero_denominator].
Qed.

Lemma C2_witness :
  nth_error (Py.try_except
               (VegetationIndices.ndvi_from_bands (VegetationIndices.fin_array [0; 0])
                  (VegetationIndices.fin_array [0; 0])) (fun _ => [])) 1%nat = Some (Ext.Fin 0) /\
  nth_error (Py.try_except
               (VegetationIndices.evi_from_bands (VegetationIndices.fin_array [1])
                  (VegetationIndices.fin_array [1]) (VegetationIndices.fin_array [16#15]))
               (fun _ => [])) 0%nat = Some (Ext.Fin 0) /\
  Forall VegetationIndices.in_unit_range (fst (VegetationIndices.calculate_ndvi band_payload unit_draws)).
Proof.
  destruct C2_indices_finite_and_clipped as (_ & _ & Hpay & Hn & He).
  split; [|split].
  - apply (Hn [0; 0] [0; 0] 1%nat 0 0); reflexivity.
  - apply (He [1] [1] [16#15] 0%nat 1 1 (16#15)); reflexivity.
  - apply (Hpay band_payload unit_draws); [reflexivity | intros v vs; discriminate].
Defined.

(** ** Helper lemmas: the exception monad *)

Lemma bind_inr {A B} (m : Py.Exc A) (k : A -> Py.Exc B) (r : B) :
  Py.bind m k = inr r -> exists a, m = inr a /\ k a = inr r.
Proof. destruct m as [e|a]; simpl; [discriminate | eauto]. Qed.

Lemma try_except_cases {A} (m : Py.Exc A) (h : Py.exn -> A) :
  (exists a, m = inr a /\ Py.try_except m h = a) \/
  (exists e, m = inl e /\ Py.try_except m h = h e).
Proof. destruct m as [e|a]; [right | left]; eauto. Qed.

Lemma mapM_length {A B} (f : A -> Py.Exc B) (xs : list A) (ys : list B) :
  Py.mapM f xs = inr ys -> length ys = length xs.
Proof.
  revert ys; induction xs as [|a xs IH]; simpl; intros ys H.
  - inversion H; reflexivity.
  - apply bind_inr in H as (b & _ & H). apply bind_inr in H as (bs & Hbs & H).
    inversion H; subst. simpl. f_equal. apply IH; assumption.
Qed.

Lemma mapM_in {A B} (f : A -> Py.Exc B) (xs : list A) (ys : list B) (y : B) :
  Py.mapM f xs = inr ys -> In y ys -> exists x, In x xs /\ f x = inr y.
Proof.
  revert ys; induction xs as [|a xs IH]; simpl; intros ys H Hy.
  - inversion H; subst. destruct Hy.
  - apply bind_inr in H as (b & Hb & H). apply bind_inr in H as (bs & Hbs & H).
    inversion H; subst. destruct Hy as [<-|Hy].
    + exists a; auto.
    + destruct (IH bs Hbs Hy) as (x & Hx & Hfx). exists x; auto.
Qed.

(** ** Helper lemmas: peak positions and event boundaries *)

Lemma plateau_end_le (x : list Q) (v : Q) (i_max fuel j : nat) :
  (j <= i_max)%nat -> (FindPeaks.plateau_end x v i_max fuel j <= i_max)%nat.
Proof.
  revert j; induction fuel as [|f IH]; simpl; intros j Hj; [assumption|].
  destruct ((j <? i_max)%nat && Qeq_bool (at_ x j) v) eqn:E; [|assumption].
  apply andb_true_iff in E as [E _]. apply Nat.ltb_lt in E. apply IH. lia.
Qed.

Lemma local_maxima_go_lt (x : list Q) (i_max fuel i p : nat) :
  In p (FindPeaks.local_maxima_go x i_max fuel i) -> (p < i_max)%nat.
Proof.
  revert i; induction fuel as [|f IH]; simpl; intros i Hp; [destruct Hp|].
  destruct (i <? i_max)%nat eqn:Ei; [|destruct Hp].
  apply Nat.ltb_lt in Ei.
  destruct (Qltb (at_ x (i - 1)) (at_ x i)); [|eapply IH; eassumption].
  set (ia := FindPeaks.plateau_end x (at_ x i) i_max (length x) (S i)) in *.
  assert (Hia : (ia <= i_max)%nat) by (apply plateau_end_le; lia).
  destruct (Qltb (at_ x ia) (at_ x i)); [|eapply IH; eassumption].
  destruct Hp as [<-|Hp]; [|eapply IH; eassumption].
  pose proof (Nat.div2_odd (i + (ia - 1))) as Hd.
  destruct (Nat.odd (i + (ia - 1))); simpl in Hd; lia.
Qed.

Lemma select_in (keep : list bool) (xs : list nat) (p : nat) :
  In p (FindPeaks.select keep xs) -> In p xs.
Proof.
  revert xs; induction keep as [|b keep IH]; intros [|x xs] H; simpl in H; try destruct H.
  destruct b.
  - destruct H as [<-|H]; [left; reflexivity | right; apply IH; exact H].
  - right; apply IH; exact H.
Qed.

Lemma find_peaks_lt (x : list Q) (h : Q) (d : nat) (pmin : Q) (p : nat) :
  In p (FindPeaks.find_peaks x h d pmin) -> (p < length x)%nat.
Proof.
  unfold FindPeaks.find_peaks, FindPeaks.select_by_prominence,
    FindPeaks.select_by_peak_distance, FindPeaks.select_by_height.
  intro H. apply filter_In in H as [H _]. apply select_in in H.
  apply filter_In in H as [H _]. apply local_maxima_go_lt in H. lia.
Qed.

Lemma start_scan_le (x : list Q) (i : nat) : (start_scan x i <= S i)%nat.
Proof.
  induction i as [|i IH]; simpl; [lia|].
  destruct (Qltb _ _); lia.
Qed.

Lemma find_bloom_start_le (x : list Q) (p : nat) : (_find_bloom_start x p <= p)%nat.
Proof. destruct p as [|p]; simpl; [lia | apply start_scan_le]. Qed.

Lemma end_scan_bounds (self : Detector) (x : list Q) (fuel i : nat) :
  (i <= length x - 1)%nat ->
  (i <= end_scan self x fuel i <= length x - 1)%nat.
Proof.
  revert i; induction fuel as [|f IH]; simpl; intros i Hi; [lia|].
  destruct (Nat.eqb i (length x - 1)) eqn:E; [lia|].
  apply Nat.eqb_neq in E.
  destruct (Qltb _ _); [specialize (IH (S i)); lia|].
  destruct (Qltb _ _); [lia|]. specialize (IH (S i)); lia.
Qed.

Lemma find_bloom_end_bounds (self : Detector) (x : list Q) (p : nat) :
  (p < length x)%nat ->
  (p <= _find_bloom_end self x p < length x)%nat.
Proof.
  intro Hp. unfold _find_bloom_end.
  destruct (length x - 1 <=? p)%nat eqn:E; [lia|].
  apply Nat.leb_gt in E.
  pose proof (end_scan_bounds self x (length x) (S p)) as H. lia.
Qed.

(** The four outcomes of [detect_blooms]: no event, a single observation,
    a sustained bloom, or one event per peak of [find_peaks]. *)
Lemma detect_blooms_cases (self : Detector) (data : list PyScalar) (evi : option (list PyScalar))
    (thr : option Q) (dates : option (list string)) :
  let t := match thr with Some t => t | None => bloom_threshold self end in
  detect_blooms self data evi thr dates = [] \/
  (exists x v c, Py.mapM to_float data = inr x /\ length x = 1%nat /\
     detect_blooms self data evi thr dates = [SingleObservation v true c]) \/
  (exists x, Py.mapM to_float data = inr x /\ length x <> 1%nat /\
     FindPeaks.find_peaks x t 2 (1#10) = [] /\
     let high := filter (fun v => Qgeb v t) x in
     (2 <= length high)%nat /\
     detect_blooms self data evi thr dates = [SustainedBloom (array_max x) (Qmean high) (length high) (7#10)]) \/
  (exists x, Py.mapM to_float data = inr x /\
     Py.mapM (peak_event self x evi dates) (FindPeaks.find_peaks x t 2 (1#10))
       = inr (detect_blooms self data evi thr dates)).
Proof.
  cbv zeta. unfold detect_blooms, Py.try_except.
  destruct (detect_blooms_body self data evi thr dates) as [ex|evs] eqn:Eb; [left; reflexivity|].
  unfold detect_blooms_body in Eb.
  destruct (Nat.eqb (length data) 0); [inversion Eb; subst; left; reflexivity|].
  apply bind_inr in Eb as (x & Hx & Eb).
  destruct (Nat.eqb (length x) 1) eqn:E1.
  { apply Nat.eqb_eq in E1.
    destruct (Qgeb _ _); injection Eb as <-; [|left; reflexivity].
    right; left. do 3 eexists. split; [exact Hx|]. split; [exact E1|reflexivity]. }
  apply Nat.eqb_neq in E1.
  destruct (FindPeaks.find_peaks x _ 2 (1#10)) as [|p0 ps] eqn:Ep.
  { destruct (2 <=? _)%nat eqn:E2; injection Eb as <-; [|left; reflexivity].
    right; right; left. exists x. split; [exact Hx|]. split; [exact E1|]. split; [exact Ep|].
    apply Nat.leb_le in E2. split; [exact E2|reflexivity]. }
  right; right; right. exists x. split; [exact Hx|]. rewrite Ep. exact Eb.
Qed.

(** ** C4 *)

(** C4 (discrepancy): with a custom threshold 0.85 on the series
    [0.1, 0.9, 0.88, 0.86, 0.84, 0.5], [detect_blooms] reports the peak at
    index 1 with end index 5, although the value at index 4 (0.84) has
    fallen below 0.85 after the peak with no step below -0.05: the forward
    scan compares with the detector's own threshold (0.4), not with the
    call's. The same scan run with 0.85 ([_find_bloom_end] of a detector
    whose threshold is 0.85) stops at index 4. *)
Theorem C4_end_scan_ignores_call_threshold :
  match detect_blooms default_detector (series c4_series) None (Some (85#100)) None with
  | [PeakBloom e] =>
      peak_index e = 1%nat /\ end_index e = 5%nat /\
      end_index e = _find_bloom_end default_detector c4_series 1 /\
      _find_bloom_end (detector_with_threshold (85#100)) c4_series 1 = 4%nat /\
      Qltb (at_ c4_series 4) (85#100) = true
  | _ => False
  end.
Proof. vm_compute. repeat split; reflexivity. Qed.

(** ** C5 *)

(** C5, counterexample: [detect_blooms] on the one-value series [[0.8]]
    returns a [single_observation] event, which has no start, peak or end
    index and no duration. *)
Lemma C5_counterexample :
  detect_blooms default_detector (series [8#10]) None None None
    = [SingleObservation (8#10) true (95#100)] /\
  event_span (SingleObservation (8#10) true (95#100)) = None.
Proof. split; vm_compute; reflexivity. Qed.

(** C5, amended: every [peak_bloom] event returned by [detect_blooms]
    satisfies start_index <= peak_index <= end_index < len(series), and its
    duration is end_index - start_index + 1, hence at least 1. Every other
    event (single_observation, sustained_bloom) carries no start, peak or
    end index. The duration of a sustained_bloom event is the number of
    values at or above the call's threshold. *)
Theorem C5_peak_event_span :
  forall (self : Detector) (data : list PyScalar) (evi : option (list PyScalar))
         (thr : option Q) (dates : option (list string)),
    let t := match thr with Some t => t | None => bloom_threshold self end in
    (forall e : PeakEvent,
       In (PeakBloom e) (detect_blooms self data evi thr dates) ->
       (start_index e <= peak_index e <= end_index e)%nat /\
       (end_index e < length data)%nat /\
       duration_observations e = (Z.of_nat (end_index e) - Z.of_nat (start_index e) + 1)%Z /\
       (1 <= duration_observations e)%Z) /\
    (forall ev : BloomEvent,
       In ev (detect_blooms self data evi thr dates) ->
       (forall pe, ev <> PeakBloom pe) -> event_span ev = None) /\
    (forall (pk mean : Q) (dur : nat) (conf : Q),
       In (SustainedBloom pk mean dur conf) (detect_blooms self data evi thr dates) ->
       exists x, Py.mapM to_float data = inr x /\ dur = length (filter (fun v => Qgeb v t) x)).
Proof.
  intros self data evi thr dates t. split; [|split].
  - intros e H.
    unfold detect_blooms, Py.try_except in H.
    destruct (detect_blooms_body self data evi thr dates) as [ex|evs] eqn:Eb; [destruct H|].
    unfold detect_blooms_body in Eb.
    destruct (Nat.eqb (length data) 0); [inversion Eb; subst; destruct H|].
    apply bind_inr in Eb as (x & Hx & Eb).
    apply mapM_length in Hx.
    destruct (Nat.eqb (length x) 1).
    { destruct (Qgeb _ _); inversion Eb; subst; simpl in H;
        [destruct H as [H|[]]; discriminate | destruct H]. }
    destruct (FindPeaks.find_peaks x _ 2 (1#10)) as [|p0 ps] eqn:Ep.
    { destruct (2 <=? _)%nat; inversion Eb; subst; simpl in H;
        [destruct H as [H|[]]; discriminate | destruct H]. }
    destruct (mapM_in _ _ _ _ Eb H) as (p & Hp & Hev).
    rewrite <- Ep in Hp. apply find_peaks_lt in Hp.
    unfold peak_event in Hev. apply bind_inr in Hev as (ev & _ & Hev).
    inversion Hev; subst; simpl.
    pose proof (find_bloom_start_le x p).
    pose proof (find_bloom_end_bounds self x p Hp).
    repeat split; lia.
  - intros ev _ Hne. destruct ev as [| |pe]; [reflexivity|reflexivity|].
    exfalso. exact (Hne pe eq_refl).
  - intros pk mean dur conf H.
    destruct (detect_blooms_cases self data evi thr dates)
      as [E|[(x & v & c & Hx & _ & E)|[(x & Hx & _ & Hp & Hh & E)|(x & Hx & E)]]];
      [rewrite E in H ..|].
    + destruct H.
    + destruct H as [H|[]]; discriminate H.
    + destruct H as [H|[]]. injection H as _ _ <- _.
      exists x. split; [exact Hx|reflexivity].
    + destruct (mapM_in _ _ _ _ E H) as (p & _ & Hev).
      unfold peak_event in Hev. apply bind_inr in Hev as (ev & _ & Hev). discriminate Hev.
Qed.

Lemma C5_witness :
  match detect_blooms default_detector (series example_series) None (Some (4#10)) None with
  | [PeakBloom e] =>
      (start_index e <= peak_index e <= end_index e)%nat /\
      (end_index e < length (series example_series))%nat /\
      duration_observations e = (Z.of_nat (end_index e) - Z.of_nat (start_index e) + 1)%Z /\
      (1 <= duration_observations e)%Z
  | _ => False
  end /\
  match detect_blooms default_detector (series [1#10; 5#10; 6#10; 7#10]) None (Some (4#10)) None with
  | [SustainedBloom pk mean dur conf] =>
      exists x, Py.mapM to_float (series [1#10; 5#10; 6#10; 7#10]) = inr x /\
        dur = length (filter (fun v => Qgeb v (4#10)) x)
  | _ => False
  end.
Proof.
  split.
  - pose proof (proj1 (C5_peak_event_span default_detector (series example_series) None (Some (4#10)) None))
      as H.
    destruct (detect_blooms default_detector (series example_series) None (Some (4#10)) None)
      as [|[| |e] [|]] eqn:E; try (vm_compute in E; discriminate).
    apply H. left. reflexivity.
  - pose proof (proj2 (proj2 (C5_peak_event_span default_detector (series [1#10; 5#10; 6#10; 7#10])
                                None (Some (4#10)) None))) as H.
    destruct (detect_blooms default_detector (series [1#10; 5#10; 6#10; 7#10]) None (Some (4#10)) None)
      as [|[|pk mean dur conf|] [|]] eqn:E; try (vm_compute in E; discriminate).
    apply (H pk mean dur conf). left. reflexivity.
Defined.

(** ** C8 *)

(** C8 (divergence of the code): [analyze_trends] on an empty input
    returns the status record [{'status': 'no_data'}], and on a failing
    input the status record [{'status': 'error', ...}]. On exactly one
    yearly entry it raises nothing, but when the entry has a year it
    returns the empty trend dictionary [{}], with no status key at all, so
    no no-data or insufficient-data status is reported. An entry without
    its year gives the error-status record (message ['year']). *)
Theorem C8_single_entry_trends :
  Trends.analyze_trends [] = Trends.status_report "no_data" None /\
  forall d : Trends.YearlySummary,
    (Trends.year d <> None ->
     Trends.analyze_trends [d] = Trends.empty_report /\
     Trends.status (Trends.analyze_trends [d]) = None) /\
    (Trends.year d = None ->
     Trends.analyze_trends [d] = Trends.status_report "error" (Some "'year'"%string)).
Proof.
  split; [reflexivity|].
  intro d. unfold Trends.analyze_trends, Trends.analyze_trends_body, Trends.get_year.
  simpl Py.mapM. destruct (Trends.year d) as [y|]; split; intro H; try congruence;
    try split; reflexivity.
Qed.

Lemma C8_witness :
  (Trends.analyze_trends [year_entry 2024 (7#10) (5#10)] = Trends.empty_report /\
   Trends.status (Trends.analyze_trends [year_entry 2024 (7#10) (5#10)]) = None) /\
  Trends.analyze_trends
    [{| Trends.year := None; Trends.peak_ndvi := Some (7#10); Trends.average_ndvi := None;
        Trends.bloom_events := None |}]
  = Trends.status_report "error" (Some "'year'"%string).
Proof.
  split.
  - apply (proj1 (proj2 C8_single_entry_trends (year_entry 2024 (7#10) (5#10)))). discriminate.
  - apply (proj2 (proj2 C8_single_entry_trends
      {| Trends.year := None; Trends.peak_ndvi := Some (7#10); Trends.average_ndvi := None;
         Trends.bloom_events := None |})). reflexivity.
Defined.

(** ** C10 *)

Lemma yoy_changes_cons (y0 y1 : Z) (ys : list Z) (p0 p1 : Q) (ps : list Q) :
  Trends.yoy_changes (y0 :: y1 :: ys) (p0 :: p1 :: ps) =
  (c <- Py.div (p1 - p0) p0 ;;
   rest <- Trends.yoy_changes (y1 :: ys) (p1 :: ps) ;;
   Py.ret ({| Trends.from_year := y0; Trends.to_year := y1;
              Trends.percent_change := c * 100 |} :: rest)).
Proof. reflexivity. Qed.

Lemma yoy_changes_zero_raises (years : list Z) (peaks : list Q) (i : nat) :
  length years = length peaks -> (S i < length peaks)%nat -> at_ peaks i == 0 ->
  exists ex, Trends.yoy_changes years peaks = inl ex.
Proof.
  revert years i; induction peaks as [|p0 peaks IH]; intros years i Hl Hi Hz;
    [simpl in Hi; lia|].
  destruct peaks as [|p1 peaks']; [simpl in Hi; lia|].
  destruct years as [|y0 [|y1 years']]; simpl in Hl; try lia.
  rewrite yoy_changes_cons. unfold Py.div.
  destruct i as [|i].
  - unfold at_ in Hz; simpl in Hz.
    rewrite (proj2 (Qeq_bool_iff p0 0) Hz). simpl. eauto.
  - destruct (IH (y1 :: years') i) as [ex Hex];
      [simpl; lia | simpl in Hi |- *; lia | exact Hz|].
    rewrite Hex. destruct (Qeq_bool p0 0); simpl; eauto.
Qed.

(** C10: on at least two yearly entries where some entry other than the
    last has peak value 0 (a missing [peak_ndvi] counts as 0), the
    year-over-year change divides by zero (or an earlier step raises) and
    [analyze_trends] returns the error-status record: no trend is
    reported. *)
Theorem C10_zero_peak_gives_error_report :
  forall (ts : list Trends.YearlySummary) (i : nat),
    (S i < length ts)%nat -> at_ (map Trends.peak_of ts) i == 0 ->
    exists msg, Trends.analyze_trends ts = Trends.status_report "error" (Some msg).
Proof.
  intros ts i Hi Hz.
  assert (Hb : exists ex, Trends.analyze_trends_body ts = inl ex).
  { destruct ts as [|d ts']; [simpl in Hi; lia|].
    unfold Trends.analyze_trends_body.
    destruct (Py.mapM Trends.get_year (d :: ts')) as [ex|years] eqn:Ey; [simpl; eauto|].
    simpl Py.bind at 1. cbv beta zeta.
    apply mapM_length in Ey.
    destruct (if (2 <=? length years)%nat then _ else _) as [ex|tr]; [simpl; eauto|].
    simpl Py.bind at 1.
    destruct ts' as [|d' ts'']; [simpl in Hi; lia|].
    destruct (yoy_changes_zero_raises years (map Trends.peak_of (d :: d' :: ts'')) i) as [ex Hex];
      [rewrite length_map; exact Ey | rewrite length_map; exact Hi | exact Hz |].
    change (map Trends.peak_of (d :: d' :: ts''))
      with (Trends.peak_of d :: map Trends.peak_of (d' :: ts'')) in Hex.
    rewrite Hex. simpl. eauto. }
  destruct Hb as [ex Hb]. exists (Py.str_exn ex).
  unfold Trends.analyze_trends. rewrite Hb. reflexivity.
Qed.

Lemma C10_witness :
  exists msg, Trends.analyze_trends
    [{| Trends.year := Some 2023%Z; Trends.peak_ndvi := None; Trends.average_ndvi := Some (4#10);
        Trends.bloom_events := Some [] |};
     year_entry 2024 (6#10) (5#10)] = Trends.status_report "error" (Some msg).
Proof.
  apply (C10_zero_peak_gives_error_report _ 0%nat).
  - simpl. lia.
  - reflexivity.
Defined.

(** ** C9 *)

(** Two successive calls of [calculate_ndvi] on [band_payload], from the
    generator state [unit_draws], give different arrays. *)
Lemma band_payload_calls_differ :
  fst (VegetationIndices.calculate_ndvi band_payload unit_draws) <>
  fst (VegetationIndices.calculate_ndvi band_payload
         (snd (VegetationIndices.calculate_ndvi band_payload unit_draws))).
Proof.
  assert (Hb : match hd_error (fst (VegetationIndices.calculate_ndvi band_payload unit_draws)),
                     hd_error (fst (VegetationIndices.calculate_ndvi band_payload
                                      (snd (VegetationIndices.calculate_ndvi band_payload unit_draws))))
               with
               | Some (Ext.Fin a), Some (Ext.Fin b) => Qeq_bool a b
               | _, _ => true
               end = false) by (vm_compute; reflexivity).
  intro H. rewrite H in Hb.
  destruct (hd_error _) as [[b| | |]|]; try discriminate Hb.
  rewrite Qeq_bool_refl in Hb. discriminate Hb.
Qed.

(** C9, counterexample: two successive calls of [calculate_ndvi] on the
    same band payload (red and nir present, not in demo mode) return
    different arrays, because the placeholder band loader draws from
    numpy's global generator, whose state the first call advances. *)
Lemma C9_counterexample :
  fst (VegetationIndices.calculate_ndvi band_payload unit_draws) <>
  fst (VegetationIndices.calculate_ndvi band_payload
         (snd (VegetationIndices.calculate_ndvi band_payload unit_draws))) /\
  Nat.eqb (VegetationIndices.pos (snd (VegetationIndices.calculate_ndvi band_payload unit_draws)))
          (VegetationIndices.pos unit_draws) = false.
Proof.
  split; [exact band_payload_calls_differ | vm_compute; reflexivity].
Qed.

(** C9, amended: [calculate_ndvi] is a function of its payload alone, and
    leaves the generator untouched, when the payload is in demo mode or
    carries non-empty pre-computed [ndvi_data]. Without a red or a nir
    band it returns the empty array whatever the generator state. With
    both bands (not in demo mode, no non-empty [ndvi_data]) the placeholder
    band loader draws the red array and then the nir array, 10000 samples
    each, from the generator: the result is the NDVI of those samples and
    the generator advances by 20000 samples. So repeated calls on an equal
    payload can return different arrays. *)
Theorem C9_payload_determined_paths :
  (forall (p : VegetationIndices.Payload) (g1 g2 : VegetationIndices.Rng),
     (VegetationIndices.demo_mode p = true \/
      exists v vs, VegetationIndices.ndvi_data p = Some (v :: vs)) ->
     VegetationIndices.calculate_ndvi p g1 = (fst (VegetationIndices.calculate_ndvi p g2), g1)) /\
  (forall (p : VegetationIndices.Payload) (g : VegetationIndices.Rng),
     (VegetationIndices.dict_get "red" (VegetationIndices.bands p) = None \/
      VegetationIndices.dict_get "nir" (VegetationIndices.bands p) = None) ->
     VegetationIndices.demo_mode p = false ->
     (forall v vs, VegetationIndices.ndvi_data p <> Some (v :: vs)) ->
     fst (VegetationIndices.calculate_ndvi p g) = []) /\
  (forall (p : VegetationIndices.Payload) (g : VegetationIndices.Rng),
     VegetationIndices.dict_get "red" (VegetationIndices.bands p) <> None ->
     VegetationIndices.dict_get "nir" (VegetationIndices.bands p) <> None ->
     VegetationIndices.demo_mode p = false ->
     (forall v vs, VegetationIndices.ndvi_data p <> Some (v :: vs)) ->
     VegetationIndices.calculate_ndvi p g =
       (Py.try_except
          (VegetationIndices.ndvi_from_bands
             (VegetationIndices.fin_array
                (fst (VegetationIndices.uniform (1#10) (8#10) VegetationIndices.band_size g)))
             (VegetationIndices.fin_array
                (fst (VegetationIndices.uniform (1#10) (8#10) VegetationIndices.band_size
                        {| VegetationIndices.draw := VegetationIndices.draw g;
                           VegetationIndices.pos :=
                             VegetationIndices.pos g + VegetationIndices.band_size |}))))
          (fun _ => []),
        {| VegetationIndices.draw := VegetationIndices.draw g;
           VegetationIndices.pos := VegetationIndices.pos g + 2 * VegetationIndices.band_size |})) /\
  (exists (p : VegetationIndices.Payload) (g : VegetationIndices.Rng),
     fst (VegetationIndices.calculate_ndvi p g) <>
     fst (VegetationIndices.calculate_ndvi p (snd (VegetationIndices.calculate_ndvi p g)))).
Proof.
  split; [|split; [|split]].
  - intros p g1 g2 [Hd | (v & vs & Hv)]; unfold VegetationIndices.calculate_ndvi.
    + rewrite Hd. reflexivity.
    + destruct (VegetationIndices.demo_mode p); [reflexivity|]. rewrite Hv. reflexivity.
  - intros p g Hb Hd Hn. unfold VegetationIndices.calculate_ndvi. rewrite Hd.
    assert (Hm : forall {A} (k1 : list Q -> A) (k2 : A),
              match VegetationIndices.ndvi_data p with
              | Some (_ :: _ as values) => k1 values | _ => k2 end = k2).
    { intros A k1 k2. destruct (VegetationIndices.ndvi_data p) as [[|v vs]|]; auto.
      exfalso. exact (Hn v vs eq_refl). }
    rewrite Hm. unfold VegetationIndices._extract_band_data at 1.
    destruct Hb as [Hb|Hb].
    + rewrite Hb. destruct (VegetationIndices._extract_band_data p "nir" g). reflexivity.
    + destruct (VegetationIndices.dict_get "red" (VegetationIndices.bands p)).
      * rewrite Hd. destruct (VegetationIndices.uniform _ _ _ _) as [a g'].
        unfold VegetationIndices._extract_band_data. rewrite Hb. reflexivity.
      * unfold VegetationIndices._extract_band_data. rewrite Hb. reflexivity.
  - intros p g Hr Hni Hd Hn. unfold VegetationIndices.calculate_ndvi. rewrite Hd.
    assert (Hm : forall {A} (k1 : list Q -> A) (k2 : A),
              match VegetationIndices.ndvi_data p with
              | Some (_ :: _ as values) => k1 values | _ => k2 end = k2).
    { intros A k1 k2. destruct (VegetationIndices.ndvi_data p) as [[|v vs]|]; auto.
      exfalso. exact (Hn v vs eq_refl). }
    rewrite Hm. unfold VegetationIndices._extract_band_data.
    destruct (VegetationIndices.dict_get "red" (VegetationIndices.bands p)) as [r|];
      [|exfalso; exact (Hr eq_refl)].
    destruct (VegetationIndices.dict_get "nir" (VegetationIndices.bands p)) as [n|];
      [|exfalso; exact (Hni eq_refl)].
    rewrite Hd. cbn [VegetationIndices.uniform VegetationIndices.draw VegetationIndices.pos fst].
    f_equal. f_equal. lia.
  - exists band_payload, unit_draws. exact band_payload_calls_differ.
Qed.

Lemma C9_witness :
  VegetationIndices.calculate_ndvi
    {| VegetationIndices.demo_mode := true; VegetationIndices.ndvi_values := [6#10; 7#10];
       VegetationIndices.ndvi_data := None; VegetationIndices.bands := [] |} unit_draws
  = (fst (VegetationIndices.calculate_ndvi
            {| VegetationIndices.demo_mode := true; VegetationIndices.ndvi_values := [6#10; 7#10];
               VegetationIndices.ndvi_data := None; VegetationIndices.bands := [] |}
            (snd (VegetationIndices.calculate_ndvi band_payload unit_draws))), unit_draws) /\
  fst (VegetationIndices.calculate_ndvi
         {| VegetationIndices.demo_mode := false; VegetationIndices.ndvi_values := [];
            VegetationIndices.ndvi_data := Some [];
            VegetationIndices.bands := [("red", Some "B04")]%string |} unit_draws) = [] /\
  VegetationIndices.calculate_ndvi band_payload unit_draws =
    (Py.try_except
       (VegetationIndices.ndvi_from_bands
          (VegetationIndices.fin_array
             (fst (VegetationIndices.uniform (1#10) (8#10) VegetationIndices.band_size unit_draws)))
          (VegetationIndices.fin_array
             (fst (VegetationIndices.uniform (1#10) (8#10) VegetationIndices.band_size
                     {| VegetationIndices.draw := VegetationIndices.draw unit_draws;
                        VegetationIndices.pos :=
                          VegetationIndices.pos unit_draws + VegetationIndices.band_size |}))))
       (fun _ => []),
     {| VegetationIndices.draw := VegetationIndices.draw unit_draws;
        VegetationIndices.pos :=
          VegetationIndices.pos unit_draws + 2 * VegetationIndices.band_size |}).
Proof.
  destruct C9_payload_determined_paths as [H1 [H2 [H3 _]]]. split; [|split].
  - apply H1. left. reflexivity.
  - apply H2; [right; reflexivity | reflexivity | intros v vs; discriminate].
  - apply H3; [discriminate | discriminate | reflexivity | intros v vs; discriminate].
Defined.

(** ** Helper lemmas: the predictor's success values *)
Ltac peel_binds H :=
  repeat (cbv beta zeta in H;
          let a := fresh "a" in let Ha := fresh "Ha" in
          apply bind_inr in H as (a & Ha & H)).

Lemma ensemble_prediction_success (preds : list (string * BloomPredictor.SubPrediction))
    (n : nat) (r : BloomPredictor.Prediction) :
  BloomPredictor._ensemble_prediction preds n = inr r ->
  BloomPredictor.p_status r = "success"%string.
Proof.
  unfold BloomPredictor._ensemble_prediction. intro H. peel_binds H.
  cbv beta zeta in H. injection H as <-. reflexivity.
Qed.

Lemma predict_body_status (sqrt : Q -> Q) (today : Dates.Date)
    (hist : list BloomPredictor.HistYear) (loc : BloomPredictor.Location)
    (vt cd : option string) (r : BloomPredictor.Prediction) :
  BloomPredictor.predict_next_bloom_body sqrt today hist loc vt cd = inr r ->
  BloomPredictor.p_status r = "success"%string \/
  (BloomPredictor.p_status r = "insufficient_data"%string /\ BloomPredictor.p_confidence r == 0).
Proof.
  unfold BloomPredictor.predict_next_bloom_body. intro H. cbv zeta in H.
  apply bind_inr in H as (cur & _ & H). cbv beta in H.
  destruct hist as [|h hist']; [injection H as <-; right; split; reflexivity|].
  destruct (length (BloomPredictor.collect_pairs (h :: hist')) <? 2)%nat;
    [injection H as <-; right; split; reflexivity|].
  peel_binds H. cbv beta zeta in H. injection H as <-. left. simpl.
  eapply ensemble_prediction_success; eassumption.
Qed.

(** ** C6 *)

(** C6, counterexample: the statement "fewer than 2 history pairs gives
    status insufficient_data with confidence 0" fails on an empty history
    with [current_date = '2025-13-10']. The current date is parsed before
    the history is examined, and the returned record has status error and
    confidence 0. *)
Lemma C6_counterexample :
  ~ (forall (sqrt : Q -> Q) (today : Dates.Date) (hist : list BloomPredictor.HistYear)
            (loc : BloomPredictor.Location) (vt cd : option string),
       (length (BloomPredictor.collect_pairs hist) < 2)%nat ->
       BloomPredictor.p_status (BloomPredictor.predict_next_bloom sqrt today hist loc vt cd)
         = "insufficient_data"%string /\
       BloomPredictor.p_confidence (BloomPredictor.predict_next_bloom sqrt today hist loc vt cd) == 0) /\
  BloomPredictor.p_status
    (BloomPredictor.predict_next_bloom (fun q => q) some_day [] origin None (Some "2025-13-10"%string))
    = "error"%string /\
  BloomPredictor.p_confidence
    (BloomPredictor.predict_next_bloom (fun q => q) some_day [] origin None (Some "2025-13-10"%string))
    == 0.
Proof.
  split; [|split; vm_compute; reflexivity].
  intro H.
  destruct (H (fun q => q) some_day [] origin None (Some "2025-13-10"%string)) as [Hs _];
    [simpl; lia|].
  vm_compute in Hs. discriminate Hs.
Qed.

(** C6, amended: when the current date ([current_date], or today's date
    when it is absent or empty) parses as [%Y-%m-%d], a history with fewer
    than 2 (peak_date, peak_value) pairs gives status insufficient_data,
    confidence 0 and no predicted date. The current date is checked first:
    when it does not parse, whatever the history, the result is the error
    record [{'status': 'error', 'message': str(e), 'confidence': 0.0}]. *)
Theorem C6_insufficient_history :
  forall (sqrt : Q -> Q) (today : Dates.Date) (hist : list BloomPredictor.HistYear)
         (loc : BloomPredictor.Location) (vt cd : option string),
    let cur := match BloomPredictor.truthy_str cd with
               | Some s => s | None => Dates.strftime today end in
    ((length (BloomPredictor.collect_pairs hist) < 2)%nat ->
     (exists d, Dates.strptime cur = inr d) ->
     BloomPredictor.p_status (BloomPredictor.predict_next_bloom sqrt today hist loc vt cd)
       = "insufficient_data"%string /\
     BloomPredictor.p_confidence (BloomPredictor.predict_next_bloom sqrt today hist loc vt cd) == 0 /\
     BloomPredictor.p_predicted_date (BloomPredictor.predict_next_bloom sqrt today hist loc vt cd) = None) /\
    (forall ex, Dates.strptime cur = inl ex ->
     BloomPredictor.predict_next_bloom sqrt today hist loc vt cd
       = BloomPredictor.status_only "error" (Py.str_exn ex) /\
     BloomPredictor.p_status (BloomPredictor.predict_next_bloom sqrt today hist loc vt cd)
       = "error"%string /\
     BloomPredictor.p_confidence (BloomPredictor.predict_next_bloom sqrt today hist loc vt cd) == 0).
Proof.
  intros sqrt today hist loc vt cd cur. split.
  - intros Hp [d Hd].
    unfold BloomPredictor.predict_next_bloom, BloomPredictor.predict_next_bloom_body.
    cbv zeta. unfold cur in Hd. rewrite Hd. cbn [Py.bind].
    destruct hist as [|h hist']; [repeat split; reflexivity|].
    apply Nat.ltb_lt in Hp. rewrite Hp. repeat split; reflexivity.
  - intros ex He.
    assert (E : BloomPredictor.predict_next_bloom sqrt today hist loc vt cd
                = BloomPredictor.status_only "error" (Py.str_exn ex)).
    { unfold BloomPredictor.predict_next_bloom, BloomPredictor.predict_next_bloom_body.
      cbv zeta. unfold cur in He. rewrite He. reflexivity. }
    rewrite E. repeat split; reflexivity.
Qed.

Lemma C6_witness :
  (BloomPredictor.p_status (BloomPredictor.predict_next_bloom (fun q => q) some_day
     [{| BloomPredictor.bloom_events :=
           Some [{| BloomPredictor.peak_date := Some "2024-04-10"%string;
                    BloomPredictor.ev_peak_ndvi := Some (7#10) |}];
         BloomPredictor.year := Some 2024%Z |}] origin None (Some "2025-10-15"%string))
    = "insufficient_data"%string /\
  BloomPredictor.p_confidence (BloomPredictor.predict_next_bloom (fun q => q) some_day
     [{| BloomPredictor.bloom_events :=
           Some [{| BloomPredictor.peak_date := Some "2024-04-10"%string;
                    BloomPredictor.ev_peak_ndvi := Some (7#10) |}];
         BloomPredictor.year := Some 2024%Z |}] origin None (Some "2025-10-15"%string)) == 0 /\
  BloomPredictor.p_predicted_date (BloomPredictor.predict_next_bloom (fun q => q) some_day
     [{| BloomPredictor.bloom_events :=
           Some [{| BloomPredictor.peak_date := Some "2024-04-10"%string;
                    BloomPredictor.ev_peak_ndvi := Some (7#10) |}];
         BloomPredictor.year := Some 2024%Z |}] origin None (Some "2025-10-15"%string)) = None) /\
  (exists ex, Dates.strptime "2025-13-10" = inl ex /\
   BloomPredictor.predict_next_bloom (fun q => q) some_day [] origin None (Some "2025-13-10"%string)
     = BloomPredictor.status_only "error" (Py.str_exn ex) /\
   BloomPredictor.p_status
     (BloomPredictor.predict_next_bloom (fun q => q) some_day [] origin None (Some "2025-13-10"%string))
     = "error"%string /\
   BloomPredictor.p_confidence
     (BloomPredictor.predict_next_bloom (fun q => q) some_day [] origin None (Some "2025-13-10"%string))
     == 0).
Proof.
  split.
  - apply C6_insufficient_history.
    + vm_compute. lia.
    + exists some_day. vm_compute. reflexivity.
  - destruct (Dates.strptime "2025-13-10") as [ex|d] eqn:E;
      [|vm_compute in E; discriminate E].
    exists ex. split; [reflexivity|].
    apply (proj2 (C6_insufficient_history (fun q => q) some_day [] origin None
                    (Some "2025-13-10"%string))).
    exact E.
Defined.

(** ** C7 *)




(** ** C3 *)

(** C3: no public operation lets an exception escape.
    - [detect_blooms] returns the body's events, or [] when the body raises.
    - [analyze_trends] returns the body's report, or the error-status record.
    - [predict_next_bloom] succeeds with status success, or insufficient_data
      with confidence 0. When the body raises, it returns the error-status
      record with confidence 0.
    - The NDVI and EVI band computations return their array, or [] on an
      exception. *)
Theorem C3_public_operations_contain_exceptions :
  (forall (self : Detector) (data : list PyScalar) (evi : option (list PyScalar))
          (thr : option Q) (dates : option (list string)),
     (exists evs, detect_blooms_body self data evi thr dates = inr evs /\
                  detect_blooms self data evi thr dates = evs) \/
     (exists ex, detect_blooms_body self data evi thr dates = inl ex /\
                 detect_blooms self data evi thr dates = [])) /\
  (forall ts : list Trends.YearlySummary,
     (exists r, Trends.analyze_trends_body ts = inr r /\ Trends.analyze_trends ts = r) \/
     (exists ex, Trends.analyze_trends_body ts = inl ex /\
                 Trends.analyze_trends ts = Trends.status_report "error" (Some (Py.str_exn ex)))) /\
  (forall (sqrt : Q -> Q) (today : Dates.Date) (hist : list BloomPredictor.HistYear)
          (loc : BloomPredictor.Location) (vt cd : option string),
     (exists r, BloomPredictor.predict_next_bloom_body sqrt today hist loc vt cd = inr r /\
                BloomPredictor.predict_next_bloom sqrt today hist loc vt cd = r /\
                (BloomPredictor.p_status r = "success"%string \/
                 (BloomPredictor.p_status r = "insufficient_data"%string /\
                  BloomPredictor.p_confidence r == 0))) \/
     (exists ex, BloomPredictor.predict_next_bloom_body sqrt today hist loc vt cd = inl ex /\
                 BloomPredictor.predict_next_bloom sqrt today hist loc vt cd =
                   BloomPredictor.status_only "error" (Py.str_exn ex) /\
                 BloomPredictor.p_status (BloomPredictor.predict_next_bloom sqrt today hist loc vt cd)
                   = "error"%string /\
                 BloomPredictor.p_confidence (BloomPredictor.predict_next_bloom sqrt today hist loc vt cd)
                   == 0)) /\
  (forall red nir : list Ext.t,
     (exists v, VegetationIndices.ndvi_from_bands red nir = inr v /\
                Py.try_except (VegetationIndices.ndvi_from_bands red nir) (fun _ => []) = v) \/
     (exists ex, VegetationIndices.ndvi_from_bands red nir = inl ex /\
                 Py.try_except (VegetationIndices.ndvi_from_bands red nir) (fun _ => []) = [])) /\
  (forall red nir blue : list Ext.t,
     (exists v, VegetationIndices.evi_from_bands red nir blue = inr v /\
                Py.try_except (VegetationIndices.evi_from_bands red nir blue) (fun _ => []) = v) \/
     (exists ex, VegetationIndices.evi_from_bands red nir blue = inl ex /\
                 Py.try_except (VegetationIndices.evi_from_bands red nir blue) (fun _ => []) = [])).
Proof.
  split; [intros; apply try_except_cases|].
  split; [intros; apply try_except_cases|].
  split.
  - intros sqrt today hist loc vt cd.
    unfold BloomPredictor.predict_next_bloom.
    destruct (BloomPredictor.predict_next_bloom_body sqrt today hist loc vt cd) as [ex|r] eqn:E.
    + right. exists ex. repeat split; reflexivity.
    + left. exists r. repeat split. eapply predict_body_status; eassumption.
  - split; intros; apply try_except_cases.
Qed.

(* ================================================================== *)
(** * Further properties of the code *)

(** ** [VegetationIndexCalculator]: SAVI and GNDVI *)

Lemma savi_from_bands_in_range (red nir : list Ext.t) (L : Q) :
  Forall VegetationIndices.in_unit_range
    (Py.try_except (VegetationIndices.savi_from_bands red nir L) (fun _ => [])).
Proof.
  unfold VegetationIndices.savi_from_bands, Py.try_except, Py.bind.
  destruct (broadcast2 Ext.sub nir red) as [e|num]; [constructor|].
  destruct (broadcast2 Ext.add nir red) as [e|s]; [constructor|].
  destruct (broadcast2 Ext.div num _) as [e|q]; [constructor|].
  simpl. rewrite !map_map. apply Forall_forall. intros x Hx.
  apply in_map_iff in Hx as [y [<- _]]. apply clip_nan_to_num_in_range.
Qed.

(** X1: [calculate_savi] returns an array whose every element is a finite
    number in [-1, 1], for every payload, soil factor [L] and random state:
    a missing band gives the empty array, a failed computation is caught
    and gives the empty array. *)

Theorem calculate_savi_in_range (p : VegetationIndices.Payload) (L : Q) (g : VegetationIndices.Rng) :
  Forall VegetationIndices.in_unit_range (fst (VegetationIndices.calculate_savi p L g)).
Proof.
  unfold VegetationIndices.calculate_savi.
  destruct (VegetationIndices._extract_band_data p "red" g) as [[r|] g1];
  destruct (VegetationIndices._extract_band_data p "nir" g1) as [[n|] g2];
  simpl; auto using savi_from_bands_in_range.
Qed.

Lemma gndvi_from_bands_as_ndvi (green nir : list Ext.t) :
  Py.try_except (VegetationIndices.gndvi_from_bands green nir) (fun _ => []) =
  Py.try_except (VegetationIndices.ndvi_from_bands green nir) (fun _ => []).
Proof.
  unfold VegetationIndices.gndvi_from_bands, VegetationIndices.ndvi_from_bands, Py.try_except, Py.bind.
  destruct (broadcast2 Ext.sub nir green) as [e|num]; [reflexivity|].
  destruct (broadcast2 Ext.add nir green) as [e|den]; [reflexivity|].
  destruct (broadcast2 Ext.div num den) as [e|q]; [reflexivity|].
  destruct q; reflexivity.
Qed.

(** X2: [calculate_gndvi] computes the NDVI formula with the green band in
    place of the red band (same error handling: missing band or exception
    gives the empty array), so its elements are finite and in [-1, 1]. *)

Theorem calculate_gndvi_is_green_ndvi (p : VegetationIndices.Payload) (g : VegetationIndices.Rng) :
  fst (VegetationIndices.calculate_gndvi p g) =
    (let (green, g1) := VegetationIndices._extract_band_data p "green" g in
     let (nir, _) := VegetationIndices._extract_band_data p "nir" g1 in
     match green, nir with
     | Some gr, Some n =>
         Py.try_except (VegetationIndices.ndvi_from_bands
                          (VegetationIndices.fin_array gr) (VegetationIndices.fin_array n)) (fun _ => [])
     | _, _ => []
     end) /\
  Forall VegetationIndices.in_unit_range (fst (VegetationIndices.calculate_gndvi p g)).
Proof.
  unfold VegetationIndices.calculate_gndvi.
  destruct (VegetationIndices._extract_band_data p "green" g) as [[r|] g1];
  destruct (VegetationIndices._extract_band_data p "nir" g1) as [[n|] g2];
  simpl; rewrite ?gndvi_from_bands_as_ndvi; split; auto using ndvi_from_bands_in_range.
Qed.

(** ** [classify_vegetation] *)

Lemma Qltb_iff (a b : Q) : Qltb a b = true <-> a < b.
Proof.
  unfold Qltb. rewrite negb_true_iff. split; intro H.
  - apply Qnot_le_lt. intro H'. apply Qle_bool_iff in H'. congruence.
  - destruct (Qle_bool b a) eqn:E; [|reflexivity].
    apply Qle_bool_iff in E. exfalso. apply (Qlt_not_le a b H E).
Qed.

Lemma Qle_bool_false (a b : Q) : Qle_bool a b = false <-> b < a.
Proof.
  split; intro H.
  - apply Qnot_le_lt. intro H'. apply Qle_bool_iff in H'. congruence.
  - destruct (Qle_bool a b) eqn:E; [|reflexivity].
    apply Qle_bool_iff in E. exfalso. apply (Qlt_not_le b a H E).
Qed.

Lemma vegetation_classes_partition (x : Ext.t) :
  (Nat.b2n (VegetationIndices.lt_Q x 0)
   + Nat.b2n (VegetationIndices.ge_Q x 0 && VegetationIndices.lt_Q x (2#10))
   + Nat.b2n (VegetationIndices.ge_Q x (2#10) && VegetationIndices.lt_Q x (4#10))
   + Nat.b2n (VegetationIndices.ge_Q x (4#10) && VegetationIndices.lt_Q x (6#10))
   + Nat.b2n (VegetationIndices.ge_Q x (6#10)))%nat = if is_nan x then 0%nat else 1%nat.
Proof.
  destruct x as [q| | |]; try reflexivity.
  unfold VegetationIndices.lt_Q, VegetationIndices.ge_Q, Qltb. simpl is_nan.
  destruct (Qle_bool 0 q) eqn:E0, (Qle_bool (2#10) q) eqn:E2,
           (Qle_bool (4#10) q) eqn:E4, (Qle_bool (6#10) q) eqn:E6;
    try reflexivity; exfalso;
    repeat match goal with
           | H : Qle_bool _ _ = true |- _ => apply Qle_bool_iff in H
           | H : Qle_bool _ _ = false |- _ => apply Qle_bool_false in H
           end; lra.
Qed.

Lemma count_true_cons (f : Ext.t -> bool) (x : Ext.t) (v : list Ext.t) :
  VegetationIndices.count_true f (x :: v) = (Nat.b2n (f x) + VegetationIndices.count_true f v)%nat.
Proof. unfold VegetationIndices.count_true. simpl. destruct (f x); reflexivity. Qed.

Lemma count_true_le (f : Ext.t -> bool) (v : list Ext.t) :
  (VegetationIndices.count_true f v <= length v)%nat.
Proof. unfold VegetationIndices.count_true. apply filter_length_le. Qed.

Lemma vegetation_class_counts (v : list Ext.t) :
  (VegetationIndices.count_true (fun x => VegetationIndices.lt_Q x 0) v
   + VegetationIndices.count_true (fun x => VegetationIndices.ge_Q x 0 && VegetationIndices.lt_Q x (2#10)) v
   + VegetationIndices.count_true (fun x => VegetationIndices.ge_Q x (2#10) && VegetationIndices.lt_Q x (4#10)) v
   + VegetationIndices.count_true (fun x => VegetationIndices.ge_Q x (4#10) && VegetationIndices.lt_Q x (6#10)) v
   + VegetationIndices.count_true (fun x => VegetationIndices.ge_Q x (6#10)) v)%nat
  = VegetationIndices.count_true (fun x => negb (is_nan x)) v.
Proof.
  induction v as [|x v IH]; [reflexivity|].
  rewrite !count_true_cons. pose proof (vegetation_classes_partition x) as Hx.
  destruct (is_nan x); simpl negb; simpl Nat.b2n in *; lia.
Qed.

Lemma pct_sum (a b c d e N : Q) : ~ N == 0 ->
  (a / N * 100 + (b / N * 100 + (c / N * 100 + (d / N * 100 + (e / N * 100 + 0))))) * N
  == 100 * (a + b + c + d + e).
Proof. intro H. field. exact H. Qed.

(** X3: [classify_vegetation] returns no classes exactly on an empty array;
    otherwise each of its five percentages lies in [0, 100], and the five
    sum to 100 times the fraction of non-NaN values: the classes partition
    the non-NaN values. *)

Theorem classify_vegetation_percentages (ndvi : list Ext.t) :
  (VegetationIndices.classify_vegetation ndvi = [] <-> ndvi = []) /\
  Forall (fun c => 0 <= snd c <= 100) (VegetationIndices.classify_vegetation ndvi) /\
  Qsum (map snd (VegetationIndices.classify_vegetation ndvi)) * inject_Z (Z.of_nat (length ndvi))
    == 100 * inject_Z (Z.of_nat (VegetationIndices.count_true (fun x => negb (is_nan x)) ndvi)).
Proof.
  destruct ndvi as [|x v]; [split; [tauto|split; [constructor|reflexivity]]|].
  unfold VegetationIndices.classify_vegetation.
  set (n := length (x :: v)).
  assert (Hn : (0 < n)%nat) by (unfold n; simpl; lia).
  replace (Nat.eqb n 0) with false by (symmetry; apply Nat.eqb_neq; lia).
  assert (Hpos : 0 < inject_Z (Z.of_nat n)).
  { unfold Qlt. simpl. lia. }
  split; [split; discriminate|].
  assert (Hpct : forall f, 0 <= inject_Z (Z.of_nat (VegetationIndices.count_true f (x :: v)))
                              / inject_Z (Z.of_nat n) * 100 <= 100).
  { intro f. pose proof (count_true_le f (x :: v)) as Hle. fold n in Hle.
    set (c := inject_Z (Z.of_nat (VegetationIndices.count_true f (x :: v)))).
    assert (Hc0 : 0 <= c) by (unfold c, Qle; simpl; lia).
    assert (Hcn : c <= inject_Z (Z.of_nat n)) by (unfold c; rewrite <- Zle_Qle; lia).
    split.
    - apply Qmult_le_0_compat; [apply Qle_shift_div_l; [exact Hpos| lra] | lra].
    - setoid_replace 100 with (1 * 100) at 2 by reflexivity.
      apply Qmult_le_r; [lra|]. apply Qle_shift_div_r; [exact Hpos| lra]. }
  split; [repeat constructor; apply Hpct|].
  rewrite <- vegetation_class_counts.
  rewrite !Nat2Z.inj_add, !inject_Z_plus. unfold Qsum. cbn [map snd fold_right].
  apply pct_sum. intro H. rewrite H in Hpos. apply (Qlt_irrefl 0). exact Hpos.
Qed.

(** ** [detect_bloom_spectral_signature] *)

(** X4: [detect_bloom_spectral_signature] advances the random state exactly
    as [calculate_ndvi], returns a confidence in [0, 1], and reports a bloom
    exactly when the NDVI array is nonempty and (std > 0.15 and max > 0.7)
    or (mean > 0.5 and (std > 0.15 or max > 0.7)); an empty array gives
    (False, 0.0). *)

Theorem spectral_signature_decision (sqrt : Q -> Q) (p : VegetationIndices.Payload)
    (g : VegetationIndices.Rng) :
  let ndvi := fst (VegetationIndices.calculate_ndvi p g) in
  let r := fst (VegetationIndices.detect_bloom_spectral_signature sqrt p g) in
  snd (VegetationIndices.detect_bloom_spectral_signature sqrt p g)
    = snd (VegetationIndices.calculate_ndvi p g) /\
  0 <= snd r <= 1 /\
  (fst r = true <->
   exists max_ndvi, VegetationIndices.ext_max ndvi = inr max_ndvi /\
     (VegetationIndices.gt_Q (VegetationIndices.ext_std sqrt ndvi) (15#100)
        && VegetationIndices.gt_Q max_ndvi (7#10)
      || VegetationIndices.gt_Q (VegetationIndices.ext_mean ndvi) (1#2)
         && (VegetationIndices.gt_Q (VegetationIndices.ext_std sqrt ndvi) (15#100)
             || VegetationIndices.gt_Q max_ndvi (7#10))) = true) /\
  (ndvi = [] -> fst r = false /\ snd r == 0).
Proof.
  cbv zeta. unfold VegetationIndices.detect_bloom_spectral_signature.
  destruct (VegetationIndices.calculate_ndvi p g) as [ndvi g']. cbn [fst snd].
  split; [reflexivity|].
  destruct ndvi as [|x xs].
  - cbn. split; [lra|]. split; [split; [discriminate|] | split; reflexivity].
    intros [m [Hm _]]. discriminate Hm.
  - unfold VegetationIndices.spectral_body, VegetationIndices.ext_max. cbn [Py.bind Py.ret Py.try_except].
    generalize (fold_left VegetationIndices.ext_max2 xs x) as mx. intro mx.
    destruct (VegetationIndices.gt_Q (VegetationIndices.ext_mean (x :: xs)) (1#2)),
             (VegetationIndices.gt_Q (VegetationIndices.ext_mean (x :: xs)) (4#10)),
             (VegetationIndices.gt_Q (VegetationIndices.ext_std sqrt (x :: xs)) (15#100)),
             (VegetationIndices.gt_Q mx (7#10)) eqn:Emx;
      cbn [Py.try_except fst snd].
    all: split; [split; unfold Qle; simpl; lia|].
    all: split; [|intro Hn; discriminate Hn].
    all: match goal with |- (Qltb ?a ?b = true <-> _) =>
           let v := eval vm_compute in (Qltb a b) in change (Qltb a b) with v end.
    all: split; [intro H; first [discriminate H | exists mx; split; [reflexivity| rewrite Emx; reflexivity]]
                |intros [m [Hm H]]; injection Hm as <-; rewrite Emx in H; first [discriminate H | reflexivity]].
Qed.

(** ** [get_peak_bloom_date] and [calculate_bloom_intensity] *)

Lemma Qltb_false (a b : Q) : Qltb a b = false <-> b <= a.
Proof.
  unfold Qltb. rewrite negb_false_iff. apply Qle_bool_iff.
Qed.

Lemma max_by_first_maximum (key : BloomEvent -> Q) (e0 : BloomEvent) (es : list BloomEvent) :
  exists i, nth_error (e0 :: es) i = Some (DetectorSummaries.max_by key e0 es) /\
    (forall e, In e (e0 :: es) -> key e <= key (DetectorSummaries.max_by key e0 es)) /\
    (forall j e, (j < i)%nat -> nth_error (e0 :: es) j = Some e ->
                 key e < key (DetectorSummaries.max_by key e0 es)).
Proof.
  induction es as [|e es IH] using rev_ind.
  - exists 0%nat. split; [reflexivity|]. split.
    + intros e [<-|[]]. apply Qle_refl.
    + intros j e Hj. lia.
  - unfold DetectorSummaries.max_by in *. rewrite fold_left_app. cbn [fold_left].
    set (m := fold_left _ es e0) in *.
    destruct IH as (i & Hi & Hle & Hlt).
    assert (Hlen : (i < length (e0 :: es))%nat) by (apply nth_error_Some; congruence).
    destruct (Qltb (key m) (key e)) eqn:E.
    + apply Qltb_iff in E. exists (length (e0 :: es)). split.
      * change (e0 :: es ++ [e]) with ((e0 :: es) ++ [e]).
        rewrite nth_error_app2 by lia. rewrite Nat.sub_diag. reflexivity.
      * split.
        -- intros e' He'. change (e0 :: es ++ [e]) with ((e0 :: es) ++ [e]) in He'.
           apply in_app_or in He' as [He'|[<-|[]]]; [|apply Qle_refl].
           apply Qlt_le_weak. eapply Qle_lt_trans; [apply Hle; exact He'| exact E].
        -- intros j e' Hj Hj'. change (e0 :: es ++ [e]) with ((e0 :: es) ++ [e]) in Hj'.
           rewrite nth_error_app1 in Hj' by lia.
           eapply Qle_lt_trans; [apply Hle; eapply nth_error_In; exact Hj'| exact E].
    + apply Qltb_false in E. exists i. split.
      * change (e0 :: es ++ [e]) with ((e0 :: es) ++ [e]).
        rewrite nth_error_app1 by lia. exact Hi.
      * split.
        -- intros e' He'. change (e0 :: es ++ [e]) with ((e0 :: es) ++ [e]) in He'.
           apply in_app_or in He' as [He'|[<-|[]]]; [apply Hle; exact He'| exact E].
        -- intros j e' Hj Hj'. change (e0 :: es ++ [e]) with ((e0 :: es) ++ [e]) in Hj'.
           rewrite nth_error_app1 in Hj' by lia. eapply Hlt; eassumption.
Qed.

(** X5: [get_peak_bloom_date] returns None exactly on an empty event list;
    otherwise it returns ["Observation " + peak_index] of an event whose
    peak NDVI is maximal and strictly larger than that of every earlier
    event (the first maximal one). *)

Theorem get_peak_bloom_date_first_maximum (bloom_events : list BloomEvent) :
  (DetectorSummaries.get_peak_bloom_date bloom_events = None <-> bloom_events = []) /\
  (forall s, DetectorSummaries.get_peak_bloom_date bloom_events = Some s ->
   exists i e, nth_error bloom_events i = Some e /\
     s = ("Observation " ++ DetectorSummaries.event_peak_index_str e)%string /\
     (forall e', In e' bloom_events ->
        DetectorSummaries.event_peak_ndvi e' <= DetectorSummaries.event_peak_ndvi e) /\
     (forall j e', (j < i)%nat -> nth_error bloom_events j = Some e' ->
        DetectorSummaries.event_peak_ndvi e' < DetectorSummaries.event_peak_ndvi e)).
Proof.
  destruct bloom_events as [|e0 es].
  - split; [tauto|]. intros s H. discriminate H.
  - split; [split; discriminate|].
    intros s H. injection H as <-.
    destruct (max_by_first_maximum DetectorSummaries.event_peak_ndvi e0 es) as (i & Hi & Hle & Hlt).
    exists i, (DetectorSummaries.max_by DetectorSummaries.event_peak_ndvi e0 es).
    repeat split; assumption.
Qed.

(** X6: [calculate_bloom_intensity] lies in [0, 1]; it is 0 exactly when
    there are no events or the mean peak NDVI is at most 0.4, and 1 exactly
    when there are events and the mean peak NDVI is at least 1. *)

Theorem calculate_bloom_intensity_clipped (bloom_events : list BloomEvent) :
  0 <= DetectorSummaries.calculate_bloom_intensity bloom_events <= 1 /\
  (DetectorSummaries.calculate_bloom_intensity bloom_events == 0 <->
   bloom_events = [] \/ Qmean (map DetectorSummaries.event_peak_ndvi bloom_events) <= 4#10) /\
  (DetectorSummaries.calculate_bloom_intensity bloom_events == 1 <->
   bloom_events <> [] /\ 1 <= Qmean (map DetectorSummaries.event_peak_ndvi bloom_events)).
Proof.
  destruct bloom_events as [|e0 es].
  - cbn. split; [lra|]. split; [split; [left; reflexivity | reflexivity]|].
    split; [intro H; discriminate H | intros [H _]; exfalso; apply H; reflexivity].
  - unfold DetectorSummaries.calculate_bloom_intensity.
    set (m := Qmean (map DetectorSummaries.event_peak_ndvi (e0 :: es))).
    destruct (Q.min_spec 1 (Qmax 0 ((m - (4#10)) / (6#10)))) as [[H1 H2]|[H1 H2]];
    destruct (Q.max_spec 0 ((m - (4#10)) / (6#10))) as [[H3 H4]|[H3 H4]];
    rewrite H2 in *; rewrite ?H4 in *.
    all: assert (Hd : forall a, (a - (4#10)) / (6#10) == (a - (4#10)) * (10#6))
           by (intro a; reflexivity).
    all: rewrite ?Hd in *.
    all: split; [lra|].
    all: split; [split; [intro H; right; lra | intros [H|H]; [discriminate H| lra]]
                |split; [intro H; split; [discriminate| lra] | intros [_ H]; lra]].
Qed.

(** ** [_find_bloom_start], [_find_bloom_end] and [_calculate_confidence] *)

Lemma start_scan_spec (x : list Q) (i : nat) :
  let s := start_scan x i in
  (s <= S i)%nat /\ s <> 1%nat /\
  (s = 0%nat \/ at_ x s - at_ x (s - 1) < 5#100) /\
  (forall k, (Nat.max s 1 <= k)%nat -> (k <= i)%nat -> 5#100 <= at_ x (S k) - at_ x k).
Proof.
  induction i as [|i IH]; cbv zeta.
  - simpl. split; [lia|]. split; [lia|]. split; [left; reflexivity|]. intros k Hk1 Hk2. lia.
  - cbv zeta in IH. simpl start_scan.
    destruct (Qltb (at_ x (S (S i)) - at_ x (S i)) (5#100)) eqn:E.
    + apply Qltb_iff in E. split; [lia|]. split; [lia|].
      split; [right; replace (S (S i) - 1)%nat with (S i) by lia; exact E|].
      intros k Hk1 Hk2. lia.
    + apply Qltb_false in E. destruct IH as (H1 & H2 & H3 & H4).
      split; [lia|]. split; [exact H2|]. split; [exact H3|].
      intros k Hk1 Hk2. destruct (Nat.eq_dec k (S i)) as [->|Hne]; [exact E|].
      apply H4; lia.
Qed.

(** X7: [_find_bloom_start] returns an index [s <= peak_idx] that is never 1;
    either [s = 0] or the step into [s] is below 0.05, and every step from
    [max s 1] up to the peak is at least 0.05. *)

Theorem find_bloom_start_scan (x : list Q) (peak_idx : nat) :
  let s := _find_bloom_start x peak_idx in
  (s <= peak_idx)%nat /\ s <> 1%nat /\
  (s = 0%nat \/ at_ x s - at_ x (s - 1) < 5#100) /\
  (forall k, (Nat.max s 1 <= k)%nat -> (k < peak_idx)%nat -> 5#100 <= at_ x (S k) - at_ x k).
Proof.
  cbv zeta. destruct peak_idx as [|p].
  - simpl. split; [lia|]. split; [lia|]. split; [left; reflexivity|]. intros k _ Hk. lia.
  - simpl _find_bloom_start. pose proof (start_scan_spec x p) as (H1 & H2 & H3 & H4).
    split; [exact H1|]. split; [exact H2|]. split; [exact H3|].
    intros k Hk1 Hk2. apply H4; lia.
Qed.

Lemma end_scan_spec (self : Detector) (x : list Q) (fuel i : nat) :
  (1 <= i)%nat -> (i <= length x - 1)%nat -> (length x - i <= fuel)%nat ->
  let e := end_scan self x fuel i in
  (i <= e <= length x - 1)%nat /\
  (e = (length x - 1)%nat \/
   (-(5#100) <= at_ x e - at_ x (e - 1) /\ at_ x e < bloom_threshold self)) /\
  (forall k, (i <= k)%nat -> (k < e)%nat ->
     at_ x k - at_ x (k - 1) < -(5#100) \/ bloom_threshold self <= at_ x k).
Proof.
  revert i; induction fuel as [|f IH]; intros i Hi1 Hi2 Hf; cbv zeta.
  - lia.
  - simpl end_scan.
    destruct (Nat.eqb i (length x - 1)) eqn:Ei.
    + apply Nat.eqb_eq in Ei. split; [lia|]. split; [left; exact Ei|]. intros k Hk1 Hk2. lia.
    + apply Nat.eqb_neq in Ei.
      destruct (Qltb (at_ x i - at_ x (i - 1)) (-(5#100))) eqn:Ed.
      * apply Qltb_iff in Ed.
        destruct (IH (S i)) as (H1 & H2 & H3); [lia|lia|lia|].
        split; [lia|]. split; [exact H2|].
        intros k Hk1 Hk2. destruct (Nat.eq_dec k i) as [->|Hne]; [left; exact Ed|].
        apply H3; lia.
      * apply Qltb_false in Ed.
        destruct (Qltb (at_ x i) (bloom_threshold self)) eqn:Et.
        -- apply Qltb_iff in Et. split; [lia|]. split; [right; split; assumption|].
           intros k Hk1 Hk2. lia.
        -- apply Qltb_false in Et.
           destruct (IH (S i)) as (H1 & H2 & H3); [lia|lia|lia|].
           split; [lia|]. split; [exact H2|].
           intros k Hk1 Hk2. destruct (Nat.eq_dec k i) as [->|Hne]; [right; exact Et|].
           apply H3; lia.
Qed.

(** X8: when [peak_idx + 1 < len(x)], [_find_bloom_end] returns an index [e]
    with [peak_idx < e <= len(x) - 1]; either [e] is the last index or the
    step into [e] is at least -0.05 and [x[e]] is below the detector's
    threshold, and every index strictly between the peak and [e] has a step
    below -0.05 or a value at or above the threshold. *)

Theorem find_bloom_end_scan (self : Detector) (x : list Q) (peak_idx : nat) :
  (S peak_idx < length x)%nat ->
  let e := _find_bloom_end self x peak_idx in
  (peak_idx < e <= length x - 1)%nat /\
  (e = (length x - 1)%nat \/
   (-(5#100) <= at_ x e - at_ x (e - 1) /\ at_ x e < bloom_threshold self)) /\
  (forall k, (peak_idx < k)%nat -> (k < e)%nat ->
     at_ x k - at_ x (k - 1) < -(5#100) \/ bloom_threshold self <= at_ x k).
Proof.
  intro Hp. cbv zeta. unfold _find_bloom_end.
  replace (length x - 1 <=? peak_idx)%nat with false by (symmetry; apply Nat.leb_gt; lia).
  destruct (end_scan_spec self x (length x) (S peak_idx)) as (H1 & H2 & H3); [lia|lia|lia|].
  split; [lia|]. split; [exact H2|]. intros k Hk1 Hk2. apply H3; lia.
Qed.

Lemma find_bloom_end_scan_witness :
  (S 1 < length c4_series)%nat /\
  let e := _find_bloom_end default_detector c4_series 1 in
  (1 < e <= length c4_series - 1)%nat /\
  (e = (length c4_series - 1)%nat \/
   (-(5#100) <= at_ c4_series e - at_ c4_series (e - 1) /\ at_ c4_series e < bloom_threshold default_detector)) /\
  (forall k, (1 < k)%nat -> (k < e)%nat ->
     at_ c4_series k - at_ c4_series (k - 1) < -(5#100) \/ bloom_threshold default_detector <= at_ c4_series k).
Proof.
  assert (H : (S 1 < length c4_series)%nat) by (simpl; lia).
  split; [exact H | exact (find_bloom_end_scan default_detector c4_series 1 H)].
Defined.

(** X9: [_calculate_confidence] is monotone in the peak value: a larger
    peak NDVI never gets a smaller confidence. *)

Theorem calculate_confidence_monotone (self : Detector) (v w : Q) :
  v <= w -> _calculate_confidence self v <= _calculate_confidence self w.
Proof.
  intro Hvw. unfold _calculate_confidence.
  destruct (Qltb v (bloom_threshold self)) eqn:E1, (Qltb w (bloom_threshold self)) eqn:E2,
           (Qltb v (5#10)) eqn:E3, (Qltb w (5#10)) eqn:E4,
           (Qltb v (6#10)) eqn:E5, (Qltb w (6#10)) eqn:E6,
           (Qltb v (7#10)) eqn:E7, (Qltb w (7#10)) eqn:E8;
    try (unfold Qle; simpl; lia);
    exfalso;
    repeat match goal with
           | H : Qltb _ _ = true |- _ => apply Qltb_iff in H
           | H : Qltb _ _ = false |- _ => apply Qltb_false in H
           end; lra.
Qed.

(** ** [detect_blooms]: peaks and sustained blooms *)

Lemma plateau_end_ge (x : list Q) (v : Q) (i_max fuel j : nat) :
  (j <= FindPeaks.plateau_end x v i_max fuel j)%nat.
Proof.
  revert j; induction fuel as [|f IH]; simpl; intro j; [lia|].
  destruct (_ && _); [specialize (IH (S j)); lia | lia].
Qed.

Lemma local_maxima_go_sorted (x : list Q) (i_max fuel i : nat) :
  StronglySorted gap2 (FindPeaks.local_maxima_go x i_max fuel i) /\
  Forall (fun p => i <= p)%nat (FindPeaks.local_maxima_go x i_max fuel i).
Proof.
  revert i; induction fuel as [|f IH]; intro i; simpl; [split; constructor|].
  destruct (i <? i_max)%nat; [|split; constructor].
  destruct (Qltb (at_ x (i - 1)) (at_ x i)).
  2: { destruct (IH (S i)) as [H1 H2]. split; [exact H1|].
       eapply Forall_impl; [|exact H2]. simpl; intros; lia. }
  set (ia := FindPeaks.plateau_end x (at_ x i) i_max (length x) (S i)).
  assert (Hia : (S i <= ia)%nat) by apply plateau_end_ge.
  destruct (Qltb (at_ x ia) (at_ x i)).
  2: { destruct (IH (S i)) as [H1 H2]. split; [exact H1|].
       eapply Forall_impl; [|exact H2]. simpl; intros; lia. }
  destruct (IH (S ia)) as [H1 H2].
  pose proof (Nat.div2_odd (i + (ia - 1))) as Hd.
  assert (Hp : (i <= Nat.div2 (i + (ia - 1)) <= ia - 1)%nat)
    by (destruct (Nat.odd (i + (ia - 1))); simpl in Hd; lia).
  split.
  - constructor; [exact H1|]. eapply Forall_impl; [|exact H2]. unfold gap2; simpl; intros; lia.
  - constructor; [lia|]. eapply Forall_impl; [|exact H2]. simpl; intros; lia.
Qed.

Lemma StronglySorted_filter {A} (R : A -> A -> Prop) (f : A -> bool) (l : list A) :
  StronglySorted R l -> StronglySorted R (filter f l).
Proof.
  induction l as [|a l IH]; simpl; intro H; [constructor|].
  inversion H as [|? ? Hl Ha]; subst.
  destruct (f a); [constructor; [apply IH; exact Hl|] | apply IH; exact Hl].
  apply Forall_forall. intros b Hb. apply filter_In in Hb as [Hb _].
  rewrite Forall_forall in Ha. apply Ha; exact Hb.
Qed.

Lemma StronglySorted_select (R : nat -> nat -> Prop) (keep : list bool) (l : list nat) :
  StronglySorted R l -> StronglySorted R (FindPeaks.select keep l).
Proof.
  revert l; induction keep as [|b keep IH]; intros [|a l] H; simpl; try constructor.
  inversion H as [|? ? Hl Ha]; subst.
  destruct b; [constructor; [apply IH; exact Hl|] | apply IH; exact Hl].
  apply Forall_forall. intros c Hc. apply select_in in Hc.
  rewrite Forall_forall in Ha. apply Ha; exact Hc.
Qed.

Lemma find_peaks_sorted (x : list Q) (h : Q) (d : nat) (pmin : Q) :
  StronglySorted gap2 (FindPeaks.find_peaks x h d pmin).
Proof.
  unfold FindPeaks.find_peaks, FindPeaks.select_by_prominence,
    FindPeaks.select_by_peak_distance, FindPeaks.select_by_height, FindPeaks._local_maxima_1d.
  apply StronglySorted_filter, StronglySorted_select, StronglySorted_filter.
  apply local_maxima_go_sorted.
Qed.

Lemma find_peaks_member (x : list Q) (h : Q) (d : nat) (pmin : Q) (p : nat) :
  In p (FindPeaks.find_peaks x h d pmin) ->
  (1 <= p)%nat /\ (S p < length x)%nat /\ h <= at_ x p.
Proof.
  unfold FindPeaks.find_peaks, FindPeaks.select_by_prominence,
    FindPeaks.select_by_peak_distance, FindPeaks.select_by_height, FindPeaks._local_maxima_1d.
  intro H. apply filter_In in H as [H _]. apply select_in in H.
  apply filter_In in H as [H Hh]. apply Qle_bool_iff in Hh.
  pose proof (local_maxima_go_lt _ _ _ _ _ H).
  destruct (local_maxima_go_sorted x (length x - 1) (length x) 1) as [_ Hge].
  rewrite Forall_forall in Hge. specialize (Hge p H). simpl in Hge.
  split; [lia|]. split; [lia|exact Hh].
Qed.

Lemma StronglySorted_nth_error {A} (R : A -> A -> Prop) (l : list A) (i j : nat) (a b : A) :
  StronglySorted R l -> (i < j)%nat -> nth_error l i = Some a -> nth_error l j = Some b -> R a b.
Proof.
  revert i j; induction l as [|c l IH]; intros i j H Hij Hi Hj; [destruct i; discriminate|].
  inversion H as [|? ? Hl Hc]; subst.
  destruct j as [|j]; [lia|]. simpl in Hj.
  destruct i as [|i]; simpl in Hi.
  - injection Hi as <-. rewrite Forall_forall in Hc. apply Hc. eapply nth_error_In; exact Hj.
  - apply (IH i j); [exact Hl|lia|exact Hi|exact Hj].
Qed.

Lemma mapM_nth_error {A B} (f : A -> Py.Exc B) (xs : list A) (ys : list B) (i : nat) (y : B) :
  Py.mapM f xs = inr ys -> nth_error ys i = Some y ->
  exists x, nth_error xs i = Some x /\ f x = inr y.
Proof.
  revert ys i; induction xs as [|a xs IH]; simpl; intros ys i H Hi.
  - inversion H; subst. destruct i; discriminate.
  - apply bind_inr in H as (b & Hb & H). apply bind_inr in H as (bs & Hbs & H).
    inversion H; subst. destruct i as [|i]; simpl in Hi.
    + injection Hi as <-. exists a. split; [reflexivity|exact Hb].
    + apply (IH bs i Hbs Hi).
Qed.

Lemma peak_event_index (self : Detector) (x : list Q) (evi : option (list PyScalar))
    (dates : option (list string)) (p : nat) (e : PeakEvent) :
  peak_event self x evi dates p = inr (PeakBloom e) ->
  peak_index e = p /\ peak_ndvi e = at_ x p.
Proof.
  unfold peak_event. intro H. apply bind_inr in H as (ev & _ & H).
  injection H as <-. split; reflexivity.
Qed.

(** X10: every peak_bloom event returned by [detect_blooms] has a peak index
    that is an interior position of the converted series (not the first nor
    the last), its [peak_ndvi] is the series value there, and that value is
    at least the effective threshold. *)

Theorem detect_blooms_peak_height (self : Detector) (data : list PyScalar)
    (evi : option (list PyScalar)) (thr : option Q) (dates : option (list string)) (e : PeakEvent) :
  In (PeakBloom e) (detect_blooms self data evi thr dates) ->
  exists x, Py.mapM to_float data = inr x /\
    (1 <= peak_index e)%nat /\ (S (peak_index e) < length x)%nat /\
    peak_ndvi e = at_ x (peak_index e) /\
    match thr with Some t => t | None => bloom_threshold self end <= peak_ndvi e.
Proof.
  intro H.
  destruct (detect_blooms_cases self data evi thr dates)
    as [E|[(x & v & c & Hx & _ & E)|[(x & Hx & _ & _ & _ & E)|(x & Hx & E)]]].
  1-3: rewrite E in H; try (destruct H as [H|[]]; discriminate H); destruct H.
  exists x. split; [exact Hx|].
  destruct (mapM_in _ _ _ _ E H) as (p & Hp & Hev).
  apply peak_event_index in Hev as [-> ->].
  apply find_peaks_member in Hp as (H1 & H2 & H3).
  repeat split; assumption.
Qed.

(** X11: the peak_bloom events of [detect_blooms] come in increasing peak
    order with peaks at least 2 observations apart ([distance=2]). *)

Theorem detect_blooms_peaks_spaced (self : Detector) (data : list PyScalar)
    (evi : option (list PyScalar)) (thr : option Q) (dates : option (list string))
    (i j : nat) (ei ej : PeakEvent) :
  (i < j)%nat ->
  nth_error (detect_blooms self data evi thr dates) i = Some (PeakBloom ei) ->
  nth_error (detect_blooms self data evi thr dates) j = Some (PeakBloom ej) ->
  (peak_index ei + 2 <= peak_index ej)%nat.
Proof.
  intros Hij Hi Hj.
  destruct (detect_blooms_cases self data evi thr dates)
    as [E|[(x & v & c & Hx & _ & E)|[(x & Hx & _ & _ & _ & E)|(x & Hx & E)]]];
    [rewrite E in Hi, Hj ..|].
  - destruct i; discriminate.
  - destruct j as [|[|j]]; [lia|discriminate|discriminate].
  - destruct j as [|[|j]]; [lia|discriminate|discriminate].
  - destruct (mapM_nth_error _ _ _ _ _ E Hi) as (pi & Hpi & Hei).
    destruct (mapM_nth_error _ _ _ _ _ E Hj) as (pj & Hpj & Hej).
    apply peak_event_index in Hei as [-> _]. apply peak_event_index in Hej as [-> _].
    exact (StronglySorted_nth_error _ _ _ _ _ _ (find_peaks_sorted _ _ _ _) Hij Hpi Hpj).
Qed.

Lemma Qsum_lower (t : Q) (l : list Q) :
  (forall v, In v l -> t <= v) -> t * inject_Z (Z.of_nat (length l)) <= Qsum l.
Proof.
  induction l as [|a l IH]; intro H; [unfold Qsum, Qle; simpl; lia|].
  change (length (a :: l)) with (S (length l)).
  change (Qsum (a :: l)) with (a + Qsum l).
  rewrite Nat2Z.inj_succ, <- Z.add_1_l, inject_Z_plus.
  assert (Ha : t <= a) by (apply H; left; reflexivity).
  assert (Hl : t * inject_Z (Z.of_nat (length l)) <= Qsum l) by (apply IH; intros v Hv; apply H; right; exact Hv).
  setoid_replace (t * (inject_Z 1 + inject_Z (Z.of_nat (length l))))
    with (t + t * inject_Z (Z.of_nat (length l))) by ring.
  apply Qplus_le_compat; assumption.
Qed.

Lemma Qsum_upper (t : Q) (l : list Q) :
  (forall v, In v l -> v <= t) -> Qsum l <= t * inject_Z (Z.of_nat (length l)).
Proof.
  induction l as [|a l IH]; intro H; [unfold Qsum, Qle; simpl; lia|].
  change (length (a :: l)) with (S (length l)).
  change (Qsum (a :: l)) with (a + Qsum l).
  rewrite Nat2Z.inj_succ, <- Z.add_1_l, inject_Z_plus.
  assert (Ha : a <= t) by (apply H; left; reflexivity).
  assert (Hl : Qsum l <= t * inject_Z (Z.of_nat (length l))) by (apply IH; intros v Hv; apply H; right; exact Hv).
  setoid_replace (t * (inject_Z 1 + inject_Z (Z.of_nat (length l))))
    with (t + t * inject_Z (Z.of_nat (length l))) by ring.
  apply Qplus_le_compat; assumption.
Qed.

Lemma Qmean_bounds (lo hi : Q) (l : list Q) :
  l <> [] -> (forall v, In v l -> lo <= v <= hi) -> lo <= Qmean l <= hi.
Proof.
  intros Hne H. unfold Qmean.
  assert (Hn : 0 < inject_Z (Z.of_nat (length l))).
  { destruct l as [|a l]; [congruence|]. unfold Qlt; simpl. lia. }
  split.
  - apply Qle_shift_div_l; [exact Hn|]. apply Qsum_lower. intros v Hv; apply H; exact Hv.
  - apply Qle_shift_div_r; [exact Hn|]. apply Qsum_upper. intros v Hv; apply H; exact Hv.
Qed.

Lemma fold_right_Qmax_ge (a : Q) (l : list Q) (v : Q) :
  In v l -> v <= fold_right Qmax a l.
Proof.
  induction l as [|b l IH]; simpl; intro H; [destruct H|].
  destruct H as [<-|H]; [apply Q.le_max_l|].
  eapply Qle_trans; [apply IH; exact H| apply Q.le_max_r].
Qed.


(** X12: a sustained_bloom event is returned only when [find_peaks] found no
    peak; its duration is the number of values at or above the effective
    threshold and is at least 2, its peak is the series maximum, its mean
    lies between the threshold and the peak, and its confidence is 0.7. *)


(** ** [analyze_trends] with two distinct years *)

Lemma fold_right_Qmin_le (a : Q) (l : list Q) (v : Q) :
  In v l -> fold_right Qmin a l <= v.
Proof.
  induction l as [|b l IH]; simpl; intro H; [destruct H|].
  destruct H as [<-|H]; [apply Q.le_min_l|].
  eapply Qle_trans; [apply Q.le_min_r| apply IH; exact H].
Qed.

Lemma linregress_distinct_x (xs ys : list Q) (a b : Q) :
  In a xs -> In b xs -> ~ a == b -> exists r, LinRegress.linregress xs ys = inr r.
Proof.
  intros Ha Hb Hab. unfold LinRegress.linregress.
  destruct xs as [|x0 xs']; [destruct Ha|].
  set (xmax := fold_right Qmax x0 (x0 :: xs')).
  set (xmin := fold_right Qmin x0 (x0 :: xs')).
  destruct (Qeq_bool xmax xmin) eqn:E.
  - exfalso. apply Qeq_bool_iff in E. apply Hab.
    pose proof (fold_right_Qmax_ge x0 _ _ Ha). pose proof (fold_right_Qmax_ge x0 _ _ Hb).
    pose proof (fold_right_Qmin_le x0 _ _ Ha). pose proof (fold_right_Qmin_le x0 _ _ Hb).
    fold xmax xmin in H, H0, H1, H2. lra.
  - simpl andb. cbv zeta. eexists. reflexivity.
Qed.

Lemma list_min_le (xs : list nat) (v : nat) : In v xs -> (Trends.list_min xs <= v)%nat.
Proof.
  destruct xs as [|x xs]; [intros []|]. unfold Trends.list_min.
  intro H. assert (Hg : forall l, (fold_right Nat.min x l <= x)%nat /\
                                  forall w, In w l -> (fold_right Nat.min x l <= w)%nat).
  { induction l as [|b l IH]; simpl; [split; [lia|intros w []]|].
    destruct IH as [IH1 IH2]. split; [lia|]. intros w [<-|Hw]; [lia|]. specialize (IH2 w Hw). lia. }
  destruct (Hg xs) as [Ha Hb]. destruct H as [<-|H]; [exact Ha | apply Hb; exact H].
Qed.

Lemma list_max_ge (xs : list nat) (v : nat) : In v xs -> (v <= Trends.list_max xs)%nat.
Proof.
  destruct xs as [|x xs]; [intros []|]. unfold Trends.list_max.
  intro H. assert (Hg : forall l, (x <= fold_right Nat.max x l)%nat /\
                                  forall w, In w l -> (w <= fold_right Nat.max x l)%nat).
  { induction l as [|b l IH]; simpl; [split; [lia|intros w []]|].
    destruct IH as [IH1 IH2]. split; [lia|]. intros w [<-|Hw]; [lia|]. specialize (IH2 w Hw). lia. }
  destruct (Hg xs) as [Ha Hb]. destruct H as [<-|H]; [exact Ha | apply Hb; exact H].
Qed.

Lemma yoy_changes_nonzero (years : list Z) (peaks : list Q) :
  length years = length peaks ->
  (forall i, (S i < length peaks)%nat -> ~ at_ peaks i == 0) ->
  exists changes, Trends.yoy_changes years peaks = inr changes /\
    length changes = (length peaks - 1)%nat /\
    forall i c, nth_error changes i = Some c ->
      Trends.from_year c = nth i years 0%Z /\ Trends.to_year c = nth (S i) years 0%Z /\
      Trends.percent_change c == (at_ peaks (S i) - at_ peaks i) / at_ peaks i * 100.
Proof.
  revert years; induction peaks as [|p0 peaks IH]; intros years Hl Hz.
  - exists []. destruct years; [|discriminate]. split; [reflexivity|]. split; [reflexivity|].
    intros i c H. destruct i; discriminate.
  - destruct peaks as [|p1 peaks'].
    + destruct years as [|y0 [|y1 ys]]; simpl in Hl; try lia.
      exists []. split; [reflexivity|]. split; [reflexivity|]. intros i c H. destruct i; discriminate.
    + destruct years as [|y0 [|y1 ys]]; simpl in Hl; try lia.
      destruct (IH (y1 :: ys)) as (rest & Hr & Hrl & Hrs).
      { simpl; lia. }
      { intros i Hi. apply (Hz (S i)). simpl in *. lia. }
      assert (Hp0 : ~ p0 == 0) by (apply (Hz 0%nat); simpl; lia).
      rewrite yoy_changes_cons. unfold Py.div.
      replace (Qeq_bool p0 0) with false
        by (symmetry; destruct (Qeq_bool p0 0) eqn:E; [apply Qeq_bool_iff in E; contradiction|reflexivity]).
      rewrite Hr. cbn [Py.bind Py.ret].
      eexists. split; [reflexivity|]. split; [simpl in *; lia|].
      intros i c Hc. destruct i as [|i].
      * injection Hc as <-. simpl. split; [reflexivity|]. split; [reflexivity|].
        unfold at_; simpl. reflexivity.
      * simpl in Hc. destruct (Hrs i c Hc) as (H1 & H2 & H3).
        split; [exact H1|]. split; [exact H2|]. exact H3.
Qed.

(** X13: when every entry has a year, two of the years differ and no peak
    value before the last is 0, [analyze_trends] succeeds: no status, both
    regression trends present, an average bloom frequency between the
    minimum and maximum count, and one year-over-year change per
    consecutive pair, from year i to year i+1 with percent
    (p[i+1] - p[i]) / p[i] * 100. *)

Theorem analyze_trends_two_years (ts : list Trends.YearlySummary) (years : list Z) (y1 y2 : Z) :
  Py.mapM Trends.get_year ts = inr years ->
  In y1 years -> In y2 years -> y1 <> y2 ->
  (forall i, (S i < length ts)%nat -> ~ at_ (map Trends.peak_of ts) i == 0) ->
  let r := Trends.analyze_trends ts in
  Trends.status r = None /\
  Trends.peak_ndvi_trend r <> None /\ Trends.average_ndvi_trend r <> None /\
  (exists f, Trends.bloom_frequency r = Some f /\
     inject_Z (Z.of_nat (Trends.f_min f)) <= Trends.f_average f <= inject_Z (Z.of_nat (Trends.f_max f))) /\
  (exists changes, Trends.year_over_year_changes r = Some changes /\
     length changes = (length ts - 1)%nat /\
     forall i c, nth_error changes i = Some c ->
       Trends.from_year c = nth i years 0%Z /\ Trends.to_year c = nth (S i) years 0%Z /\
       Trends.percent_change c ==
         (at_ (map Trends.peak_of ts) (S i) - at_ (map Trends.peak_of ts) i)
           / at_ (map Trends.peak_of ts) i * 100).
Proof.
  intros Hy H1 H2 H12 Hz. cbv zeta.
  pose proof (mapM_length _ _ _ Hy) as Hl.
  assert (Hlen : (2 <= length years)%nat).
  { destruct years as [|a [|b l]]; [destruct H1| |simpl; lia].
    destruct H1 as [<-|[]]; destruct H2 as [<-|[]]; congruence. }
  assert (Hq : ~ inject_Z y1 == inject_Z y2) by (rewrite inject_Z_injective; exact H12).
  destruct (linregress_distinct_x (map inject_Z years) (map Trends.peak_of ts) (inject_Z y1) (inject_Z y2))
    as [lp Hlp]; [apply in_map; exact H1 | apply in_map; exact H2 | exact Hq |].
  destruct (linregress_distinct_x (map inject_Z years) (map Trends.average_of ts) (inject_Z y1) (inject_Z y2))
    as [la Hla]; [apply in_map; exact H1 | apply in_map; exact H2 | exact Hq |].
  destruct (yoy_changes_nonzero years (map Trends.peak_of ts)) as (changes & Hc & Hcl & Hcs);
    [rewrite length_map; exact Hl | rewrite length_map; exact Hz |].
  rewrite length_map in Hcl.
  destruct ts as [|d ts']; [simpl in Hl; lia|].
  unfold Trends.analyze_trends, Trends.analyze_trends_body.
  rewrite Hy. cbn [Py.bind]. cbv zeta.
  replace (2 <=? length years)%nat with true by (symmetry; apply Nat.leb_le; exact Hlen).
  rewrite Hlp. cbn [Py.bind]. rewrite Hla. cbn [Py.bind Py.ret].
  replace (2 <=? length (d :: ts'))%nat with true by (symmetry; apply Nat.leb_le; lia).
  rewrite Hc. cbn [Py.bind Py.ret Py.try_except].
  set (counts := map (fun d0 => length (match Trends.bloom_events d0 with Some es => es | None => [] end))
                   (d :: ts')).
  assert (Hne : counts <> []) by discriminate.
  destruct counts as [|c0 cs] eqn:Ecounts; [congruence|].
  cbn [Trends.status Trends.peak_ndvi_trend Trends.average_ndvi_trend Trends.bloom_frequency
       Trends.year_over_year_changes].
  split; [reflexivity|]. split; [discriminate|]. split; [discriminate|].
  split.
  - eexists. split; [reflexivity|]. cbn [Trends.f_min Trends.f_average Trends.f_max].
    apply Qmean_bounds; [discriminate|].
    intros v Hv. apply in_map_iff in Hv as (c & <- & Hc').
    split; rewrite <- Zle_Qle; apply inj_le;
      [apply list_min_le | apply list_max_ge]; exact Hc'.
  - exists changes. split; [reflexivity|]. split; [exact Hcl|]. exact Hcs.
Qed.

(** ** [datetime] and the mock [predict_next_bloom] of [bloom_detector.py] *)

Lemma mk_datetime_valid (y m d : Z) (dt : Dates.Date) :
  Dates.mk_datetime y m d = inr dt ->
  dt = {| Dates.yr := y; Dates.mo := m; Dates.dy := d |} /\
  (1 <= y <= 9999)%Z /\ (1 <= m <= 12)%Z /\ (1 <= d <= Dates.days_in_month y m)%Z.
Proof.
  unfold Dates.mk_datetime. intro H.
  destruct ((1 <=? y)%Z && (y <=? 9999)%Z) eqn:E1; [|discriminate H].
  destruct ((1 <=? m)%Z && (m <=? 12)%Z) eqn:E2; [|discriminate H].
  destruct ((1 <=? d)%Z && (d <=? Dates.days_in_month y m)%Z) eqn:E3; [|discriminate H].
  injection H as <-. apply andb_true_iff in E1, E2, E3.
  destruct E1 as [E1 E1']; destruct E2 as [E2 E2']; destruct E3 as [E3 E3'].
  apply Z.leb_le in E1, E1', E2, E2', E3, E3'. repeat split; lia.
Qed.

Lemma strptime_valid (s : string) (dt : Dates.Date) :
  Dates.strptime s = inr dt ->
  (1 <= Dates.yr dt <= 9999)%Z /\ (1 <= Dates.mo dt <= 12)%Z /\
  (1 <= Dates.dy dt <= Dates.days_in_month (Dates.yr dt) (Dates.mo dt))%Z.
Proof.
  unfold Dates.strptime. cbv zeta. intro H.
  destruct s as [|a [|b [|c [|d [|e rest]]]]]; try discriminate H.
  destruct e as [b0 b1 b2 b3 b4 b5 b6 b7].
  destruct b0, b1, b2, b3, b4, b5, b6, b7; try discriminate H.
  destruct (Dates.digit_val a), (Dates.digit_val b), (Dates.digit_val c), (Dates.digit_val d);
    try discriminate H.
  destruct (Dates.first_before_dash (Dates.month_alts rest)) as [[m rest']|]; [|discriminate H].
  destruct (Dates.day_alts rest') as [|[dd [|ch r]] alts]; try discriminate H.
  apply mk_datetime_valid in H as (-> & H1 & H2 & H3). cbn [Dates.yr Dates.mo Dates.dy]. repeat split; lia.
Qed.

Lemma int_of_inject (q : Q) (z : Z) : q == inject_Z z -> Py.int_of q = z.
Proof.
  unfold Qeq, Py.int_of. simpl. rewrite Z.mul_1_r. intro H. rewrite H.
  apply Z.quot_mul. lia.
Qed.

Lemma Qsum_const {A} (c : Q) (l : list A) :
  Qsum (map (fun _ => c) l) == c * inject_Z (Z.of_nat (length l)).
Proof.
  induction l as [|a l IH]; [unfold Qsum; simpl; ring|].
  change (Qsum (map (fun _ => c) (a :: l))) with (c + Qsum (map (fun _ => c) l)).
  rewrite IH. change (length (a :: l)) with (S (length l)).
  rewrite Nat2Z.inj_succ, <- Z.add_1_l, inject_Z_plus. ring.
Qed.

Lemma Qmean_const {A} (c : Q) (l : list A) :
  l <> [] -> Qmean (map (fun _ => c) l) == c.
Proof.
  intro Hne. unfold Qmean. rewrite Qsum_const, length_map.
  field. destruct l as [|a l]; [congruence|]. unfold Qeq; simpl; lia.
Qed.

Lemma int_of_mean_const {A} (c : Z) (l : list A) :
  l <> [] -> Py.int_of (Qmean (map BloomPredictor.QZ (map (fun _ => c) l))) = c.
Proof.
  intro Hne. apply int_of_inject. rewrite map_map. apply Qmean_const. exact Hne.
Qed.

Lemma variance_const {A} (q : Q) (l : list A) :
  l <> [] -> BloomPredictor.variance (map (fun _ => q) l) == 0.
Proof.
  intro Hne. unfold BloomPredictor.variance. rewrite map_map.
  rewrite (Qmean_const _ l Hne). rewrite (Qmean_const q l Hne). ring.
Qed.

Lemma int_std_const {A} (c : Z) (l : list A) :
  l <> [] -> BloomPredictor.int_std (map BloomPredictor.QZ (map (fun _ => c) l)) = 0%Z.
Proof.
  intro Hne. unfold BloomPredictor.int_std. rewrite map_map.
  rewrite (Qfloor_comp _ 0 (variance_const _ l Hne)). reflexivity.
Qed.

Lemma mk_datetime_ok (y m d : Z) :
  (1 <= y <= 9999)%Z -> (1 <= m <= 12)%Z -> (1 <= d <= Dates.days_in_month y m)%Z ->
  Dates.mk_datetime y m d = inr {| Dates.yr := y; Dates.mo := m; Dates.dy := d |}.
Proof.
  intros H1 H2 H3. unfold Dates.mk_datetime.
  replace ((1 <=? y)%Z && (y <=? 9999)%Z) with true by (symmetry; apply andb_true_iff; split; apply Z.leb_le; lia).
  replace ((1 <=? m)%Z && (m <=? 12)%Z) with true by (symmetry; apply andb_true_iff; split; apply Z.leb_le; lia).
  replace ((1 <=? d)%Z && (d <=? Dates.days_in_month y m)%Z) with true
    by (symmetry; apply andb_true_iff; split; apply Z.leb_le; lia).
  reflexivity.
Qed.

Lemma days_before_year_bounds (y : Z) :
  (1 <= y <= 9999)%Z -> (0 <= Dates.days_before_year y <= 3651694)%Z.
Proof.
  intro H. unfold Dates.days_before_year. Z.div_mod_to_equations. lia.
Qed.

Lemma add_days_mid_april (y k : Z) :
  (1 <= y <= 9999)%Z -> (-7 <= k <= 7)%Z ->
  exists e, Dates.add_days {| Dates.yr := y; Dates.mo := 4; Dates.dy := 15 |} k = inr e.
Proof.
  intros Hy Hk. unfold Dates.add_days, Dates.toordinal, Dates.days_before_month. cbn [Dates.yr Dates.mo Dates.dy].
  pose proof (days_before_year_bounds y Hy).
  set (o := (Dates.days_before_year y + (Dates.days_before_month_table 4 + _) + 15 + k)%Z).
  assert (Ho : (1 <= o <= Dates.MAXORDINAL)%Z).
  { unfold o, Dates.MAXORDINAL. simpl Dates.days_before_month_table.
    destruct (_ && Dates.is_leap y); lia. }
  replace ((1 <=? o)%Z && (o <=? Dates.MAXORDINAL)%Z) with true
    by (symmetry; apply andb_true_iff; split; apply Z.leb_le; lia).
  eexists. reflexivity.
Qed.

Section MockPredictor.

Import DetectorSummaries.

(** X14: the mock [predict_next_bloom] of [bloom_detector.py] answers
    insufficient_data on an empty history and no_historical_blooms when the
    history holds no bloom event, whatever the date string; with events, an
    unparsable current date gives the error record with [str(e)]. *)

Theorem mock_prediction_without_events (hist : list Trends.YearlySummary) (current_date : string) :
  (hist = [] -> predict_next_bloom hist current_date = mock_status "insufficient_data"%string None) /\
  (hist <> [] -> history_events hist = [] ->
     predict_next_bloom hist current_date = mock_status "no_historical_blooms"%string None) /\
  (forall ex, history_events hist <> [] -> Dates.strptime current_date = inl ex ->
     predict_next_bloom hist current_date = mock_status "error"%string (Some (Py.str_exn ex))).
Proof.
  split; [|split].
  - intros ->. reflexivity.
  - intros Hne He. destruct hist as [|h t]; [congruence|].
    unfold predict_next_bloom, predict_next_bloom_body. cbv zeta. rewrite He. reflexivity.
  - intros ex Hne Hs. destruct hist as [|h t]; [simpl in Hne; congruence|].
    unfold predict_next_bloom, predict_next_bloom_body. cbv zeta.
    destruct (history_events (h :: t)) as [|e es]; [congruence|].
    simpl map. rewrite Hs. reflexivity.
Qed.

(** X15: with at least one bloom event and a parsable current date [d], the
    mock [predict_next_bloom] predicts April 15 of [d]'s year when [d] is
    before April and of the next year otherwise; the uncertainty is 0 days
    for two or more events and 7 for one, the confidence 0.8 for three or
    more history entries and 0.6 otherwise, and the range is the prediction
    shifted by -/+ the uncertainty.  A predicted year above 9999 gives the
    error record. *)

Theorem mock_prediction_success (hist : list Trends.YearlySummary) (current_date : string)
    (d : Dates.Date) :
  history_events hist <> [] -> Dates.strptime current_date = inr d ->
  let ny := if (Dates.mo d <? 4)%Z then Dates.yr d else (Dates.yr d + 1)%Z in
  let u := if (2 <=? length (history_events hist))%nat then 0%Z else 7%Z in
  let pd := {| Dates.yr := ny; Dates.mo := 4; Dates.dy := 15 |} in
  ((ny <= 9999)%Z ->
   exists earliest latest,
     Dates.add_days pd (- u) = inr earliest /\ Dates.add_days pd u = inr latest /\
     predict_next_bloom hist current_date =
       {| m_status := "success"%string; m_message := None;
          m_predicted_date := Some (Dates.strftime pd);
          m_confidence := Some (if (3 <=? length hist)%nat then 8#10 else 6#10);
          m_uncertainty_days := Some u;
          m_date_range := Some (Dates.strftime earliest, Dates.strftime latest);
          m_based_on_years := Some (length hist) |}) /\
  ((9999 < ny)%Z -> m_status (predict_next_bloom hist current_date) = "error"%string).
Proof.
  intros Hne Hs ny u pd.
  destruct (strptime_valid current_date d Hs) as [Hy _].
  assert (Hbody : predict_next_bloom_body hist current_date =
    (pd' <- Dates.mk_datetime ny 4 15 ;;
     let confidence := if (3 <=? length hist)%nat then 8#10 else 6#10 in
     earliest <- Dates.add_days pd' (- u) ;;
     latest <- Dates.add_days pd' u ;;
     Py.ret {| m_status := "success"%string; m_message := None;
               m_predicted_date := Some (Dates.strftime pd');
               m_confidence := Some confidence;
               m_uncertainty_days := Some u;
               m_date_range := Some (Dates.strftime earliest, Dates.strftime latest);
               m_based_on_years := Some (length hist) |})).
  { destruct hist as [|h t]; [simpl in Hne; congruence|].
    unfold predict_next_bloom_body. cbv zeta.
    unfold u. destruct (history_events (h :: t)) as [|e es] eqn:Ee; [congruence|].
    assert (Hce : e :: es <> []) by discriminate.
    change (match map (fun _ => 4%Z) (e :: es) with [] => Py.ret (mock_status "no_historical_blooms" None) | _ :: _ => ?k end) with k.
    rewrite (int_of_mean_const 4 _ Hce), (int_of_mean_const 15 _ Hce),
      (int_std_const 15 _ Hce), length_map.
    rewrite Hs. unfold ny, BloomPredictor.next_year_for. simpl Py.bind.
    destruct (length es) as [|n]; reflexivity. }
  split.
  - intro Hle.
    assert (Hny : (1 <= ny <= 9999)%Z) by (unfold ny; destruct (_ <? _)%Z; lia).
    assert (Hu : (-7 <= u <= 7)%Z) by (unfold u; destruct (_ <=? _)%nat; lia).
    destruct (add_days_mid_april ny (- u) Hny ltac:(lia)) as [e1 He1].
    destruct (add_days_mid_april ny u Hny Hu) as [e2 He2].
    exists e1, e2. split; [exact He1|]. split; [exact He2|].
    unfold predict_next_bloom. rewrite Hbody.
    rewrite (mk_datetime_ok ny 4 15 Hny ltac:(lia)) by (simpl; lia).
    simpl Py.bind. rewrite He1, He2. reflexivity.
  - intro Hgt. unfold predict_next_bloom. rewrite Hbody.
    unfold Dates.mk_datetime.
    replace ((1 <=? ny)%Z && (ny <=? 9999)%Z) with false
      by (symmetry; apply andb_false_iff; right; apply Z.leb_gt; lia).
    reflexivity.
Qed.

End MockPredictor.

(** ** [BloomPredictor.predict_next_bloom]: the ensemble confidence *)

Lemma truthy_strftime (d : Dates.Date) :
  BloomPredictor.truthy_str (Some (Dates.strftime d)) = Some (Dates.strftime d).
Proof. unfold Dates.strftime. destruct (Dates.z_to_string _); reflexivity. Qed.

Lemma statistical_prediction_shape (bd : list Dates.Date) (pv : list Q) (cur : Dates.Date)
    (sp : BloomPredictor.SubPrediction) :
  BloomPredictor._statistical_prediction bd pv cur = inr sp ->
  (exists pd, BloomPredictor.predicted_date sp = Some (Dates.strftime pd)) /\
  BloomPredictor.sp_confidence sp =
    Some (Qmin ((6#10) + BloomPredictor.Qnat (length bd) * (5#100)) (85#100)).
Proof.
  unfold BloomPredictor._statistical_prediction. intro H. peel_binds H.
  injection H as <-. split; [eexists|]; reflexivity.
Qed.

Lemma pattern_prediction_shape (bd : list Dates.Date) (pv : list Q) (cur : Dates.Date)
    (vt : option string) (sp : BloomPredictor.SubPrediction) :
  BloomPredictor._pattern_based_prediction bd pv cur vt = inr sp ->
  (exists pd, BloomPredictor.predicted_date sp = Some (Dates.strftime pd)) /\
  exists k, BloomPredictor.sp_confidence sp =
    Some (Qmin ((65#100) + BloomPredictor.Qnat k * (5#100)) (88#100)).
Proof.
  unfold BloomPredictor._pattern_based_prediction. intro H. peel_binds H.
  injection H as <-. split; eexists; reflexivity.
Qed.

Lemma Qnat_nonneg (n : nat) : 0 <= BloomPredictor.Qnat n.
Proof. unfold BloomPredictor.Qnat, Qle. simpl. lia. Qed.

Lemma Qnat_ge2 (n : nat) : (2 <= n)%nat -> 2 <= BloomPredictor.Qnat n.
Proof. intro H. unfold BloomPredictor.Qnat, Qle. simpl. lia. Qed.

Lemma statistical_confidence_range (n : nat) :
  (2 <= n)%nat -> 7#10 <= Qmin ((6#10) + BloomPredictor.Qnat n * (5#100)) (85#100) <= 85#100.
Proof.
  intro Hn. pose proof (Qnat_ge2 n Hn).
  destruct (Q.min_spec ((6#10) + BloomPredictor.Qnat n * (5#100)) (85#100)) as [[H1 H2]|[H1 H2]];
    rewrite H2; lra.
Qed.

Lemma trend_prediction_shape (sqrt : Q -> Q) (bd : list Dates.Date) (pv : list Q)
    (cur : Dates.Date) (sp : BloomPredictor.SubPrediction) :
  (forall q, 0 <= sqrt q) -> (2 <= length bd)%nat ->
  BloomPredictor._trend_adjusted_prediction sqrt bd pv cur = inr sp ->
  (exists pd, BloomPredictor.predicted_date sp = Some (Dates.strftime pd)) /\
  exists c, BloomPredictor.sp_confidence sp = Some c /\ 7#10 <= c <= 92#100.
Proof.
  intros Hsq Hn H. unfold BloomPredictor._trend_adjusted_prediction in H.
  assert (Hstat : BloomPredictor._statistical_prediction bd pv cur = inr sp ->
    (exists pd, BloomPredictor.predicted_date sp = Some (Dates.strftime pd)) /\
    exists c, BloomPredictor.sp_confidence sp = Some c /\ 7#10 <= c <= 92#100).
  { intro Hs. apply statistical_prediction_shape in Hs as [Hd Hc].
    split; [exact Hd|]. eexists. split; [exact Hc|].
    pose proof (statistical_confidence_range _ Hn). lra. }
  destruct (length bd <? 3)%nat; [apply Hstat; exact H|].
  cbv zeta in H.
  destruct (3 <=? length (nodup Z.eq_dec (map Dates.yr bd)))%nat; [|apply Hstat; exact H].
  peel_binds H. injection H as <-. split; [eexists; reflexivity|].
  eexists. split; [reflexivity|].
  match goal with |- context [Qmin ((7#10) + sqrt ?q * (2#10)) (92#100)] =>
    pose proof (Hsq q) as Hq;
    destruct (Q.min_spec ((7#10) + sqrt q * (2#10)) (92#100)) as [[H1 H2]|[H1 H2]];
    rewrite H2 end; lra.
Qed.

Lemma weighted_terms_three (weights : list (string * Q)) (s p t : BloomPredictor.SubPrediction)
    (terms : list Q * list Q) :
  forall ws wp wt,
  weights = [("statistical", ws); ("pattern_based", wp); ("trend_adjusted", wt)]%string ->
  (exists d, BloomPredictor.predicted_date s = Some (Dates.strftime d)) ->
  (exists d, BloomPredictor.predicted_date p = Some (Dates.strftime d)) ->
  (exists d, BloomPredictor.predicted_date t = Some (Dates.strftime d)) ->
  BloomPredictor.weighted_terms weights
    [("statistical", s); ("pattern_based", p); ("trend_adjusted", t)]%string = inr terms ->
  snd terms = [BloomPredictor.default_Q (5#10) (BloomPredictor.sp_confidence s) * ws;
               BloomPredictor.default_Q (5#10) (BloomPredictor.sp_confidence p) * wp;
               BloomPredictor.default_Q (5#10) (BloomPredictor.sp_confidence t) * wt].
Proof.
  intros ws wp wt -> [d1 Hs] [d2 Hp] [d3 Ht] H.
  cbn [BloomPredictor.weighted_terms BloomPredictor.lookup] in H.
  cbv iota beta in H.
  simpl String.eqb in H. cbv iota in H. rewrite Hs, Hp, Ht, !truthy_strftime in H.
  peel_binds H. injection H as <-.
  peel_binds Ha0. injection Ha0 as <-.
  peel_binds Ha2. injection Ha2 as <-.
  injection Ha3 as <-. reflexivity.
Qed.

Lemma ensemble_confidence_three (s p t : BloomPredictor.SubPrediction) (n : nat)
    (r : BloomPredictor.Prediction) :
  (exists d, BloomPredictor.predicted_date s = Some (Dates.strftime d)) ->
  (exists d, BloomPredictor.predicted_date p = Some (Dates.strftime d)) ->
  (exists d, BloomPredictor.predicted_date t = Some (Dates.strftime d)) ->
  BloomPredictor._ensemble_prediction
    [("statistical", s); ("pattern_based", p); ("trend_adjusted", t)]%string n = inr r ->
  let cs := BloomPredictor.default_Q (5#10) (BloomPredictor.sp_confidence s) in
  let cp := BloomPredictor.default_Q (5#10) (BloomPredictor.sp_confidence p) in
  let ct := BloomPredictor.default_Q (5#10) (BloomPredictor.sp_confidence t) in
  BloomPredictor.p_confidence r ==
    (if (5 <=? n)%nat then cs * (30#100) + cp * (35#100) + ct * (35#100)
     else cs * (4#10) + cp * (35#100) + ct * (25#100)) /\
  BloomPredictor.p_confidence_level r =
    Some (BloomPredictor._confidence_level (BloomPredictor.p_confidence r)).
Proof.
  intros Hs Hp Ht H. cbv zeta. unfold BloomPredictor._ensemble_prediction in H.
  apply bind_inr in H as (terms & Ht3 & H). peel_binds H. injection H as <-.
  cbn [BloomPredictor.p_confidence BloomPredictor.p_confidence_level]. split; [|reflexivity].
  unfold BloomPredictor.ensemble_weights in Ht3.
  destruct (5 <=? n)%nat.
  - rewrite (weighted_terms_three _ s p t terms (30#100) (35#100) (35#100) ltac:(reflexivity) Hs Hp Ht Ht3).
    unfold Qsum. simpl fold_right. ring.
  - rewrite (weighted_terms_three _ s p t terms (4#10) (35#100) (25#100) ltac:(reflexivity) Hs Hp Ht Ht3).
    unfold Qsum. simpl fold_right. ring.
Qed.

(** X16: for a non-negative square root, a successful
    [BloomPredictor.predict_next_bloom] has an ensemble confidence between
    0.65 and 0.9 and a confidence level of High or Very High: each method's
    confidence is at least 0.65, all three methods produce a date, and the
    weights sum to 1. *)

Theorem predict_next_bloom_success_confidence (sqrt : Q -> Q) (today : Dates.Date)
    (hist : list BloomPredictor.HistYear) (loc : BloomPredictor.Location)
    (vt cd : option string) :
  (forall q, 0 <= sqrt q) ->
  BloomPredictor.p_status (BloomPredictor.predict_next_bloom sqrt today hist loc vt cd)
    = "success"%string ->
  13#20 <= BloomPredictor.p_confidence (BloomPredictor.predict_next_bloom sqrt today hist loc vt cd)
        <= 9#10 /\
  (BloomPredictor.p_confidence_level (BloomPredictor.predict_next_bloom sqrt today hist loc vt cd)
     = Some "High"%string \/
   BloomPredictor.p_confidence_level (BloomPredictor.predict_next_bloom sqrt today hist loc vt cd)
     = Some "Very High"%string).
Proof.
  intros Hsq Hst. unfold BloomPredictor.predict_next_bloom in *.
  destruct (BloomPredictor.predict_next_bloom_body sqrt today hist loc vt cd) as [ex|r] eqn:E;
    [discriminate Hst|]. cbn [Py.try_except] in *.
  unfold BloomPredictor.predict_next_bloom_body in E. cbv zeta in E.
  apply bind_inr in E as (cur & _ & E). cbv beta in E.
  destruct hist as [|h hist']; [injection E as <-; discriminate Hst|].
  destruct (length (BloomPredictor.collect_pairs (h :: hist')) <? 2)%nat eqn:Elen;
    [injection E as <-; discriminate Hst|].
  apply Nat.ltb_ge in Elen.
  apply bind_inr in E as (sp & Hsp & E).
  apply bind_inr in E as (pp & Hpp & E).
  apply bind_inr in E as (tp & Htp & E).
  apply bind_inr in E as (fin & Hfin & E).
  injection E as <-. cbn [BloomPredictor.p_confidence BloomPredictor.p_confidence_level].
  assert (Hn : (2 <= length (map fst (BloomPredictor.collect_pairs (h :: hist'))))%nat)
    by (rewrite length_map; exact Elen).
  destruct (statistical_prediction_shape _ _ _ _ Hsp) as [Hds Hcs].
  destruct (pattern_prediction_shape _ _ _ _ _ Hpp) as [Hdp [k Hcp]].
  destruct (trend_prediction_shape _ _ _ _ _ Hsq Hn Htp) as [Hdt [ct [Hct Hctr]]].
  destruct (ensemble_confidence_three _ _ _ _ _ Hds Hdp Hdt Hfin) as [Hc Hl].
  rewrite Hcs, Hcp, Hct in Hc. cbn [BloomPredictor.default_Q] in Hc.
  pose proof (statistical_confidence_range _ Hn) as Hsr.
  set (cs := Qmin _ (85#100)) in *.
  set (cp := Qmin _ (88#100)) in *.
  assert (Hpr : 65#100 <= cp <= 88#100).
  { unfold cp. pose proof (Qnat_nonneg k).
    destruct (Q.min_spec ((65#100) + BloomPredictor.Qnat k * (5#100)) (88#100)) as [[H1 H2]|[H1 H2]];
      rewrite H2; lra. }
  assert (Hb : 13#20 <= BloomPredictor.p_confidence fin <= 9#10).
  { rewrite Hc. destruct (5 <=? _)%nat; lra. }
  split; [exact Hb|].
  rewrite Hl. unfold BloomPredictor._confidence_level, Qgeb.
  destruct (Qle_bool (80#100) (BloomPredictor.p_confidence fin)); [right; reflexivity|].
  replace (Qle_bool (65#100) (BloomPredictor.p_confidence fin)) with true
    by (symmetry; apply Qle_bool_iff; lra).
  left; reflexivity.
Qed.

Lemma predict_next_bloom_success_confidence_witness :
  (forall q : Q, 0 <= (fun _ : Q => 0) q) /\
  BloomPredictor.p_status
    (BloomPredictor.predict_next_bloom (fun _ => 0) some_day hist2 origin None (Some "2025-01-10"%string))
    = "success"%string /\
  13#20 <= BloomPredictor.p_confidence
    (BloomPredictor.predict_next_bloom (fun _ => 0) some_day hist2 origin None (Some "2025-01-10"%string))
    <= 9#10.
Proof.
  assert (Hsq : forall q : Q, 0 <= (fun _ : Q => 0) q) by (intro q; apply Qle_refl).
  assert (Hst : BloomPredictor.p_status
    (BloomPredictor.predict_next_bloom (fun _ => 0) some_day hist2 origin None (Some "2025-01-10"%string))
    = "success"%string) by (vm_compute; reflexivity).
  split; [exact Hsq|]. split; [exact Hst|].
  exact (proj1 (predict_next_bloom_success_confidence _ _ _ _ _ _ Hsq Hst)).
Defined.

(** ** Witnesses of the further properties *)

Lemma calculate_confidence_monotone_witness :
  6#10 <= 7#10 /\
  _calculate_confidence default_detector (6#10) <= _calculate_confidence default_detector (7#10).
Proof.
  assert (H : 6#10 <= 7#10) by (unfold Qle; simpl; lia).
  split; [exact H | exact (calculate_confidence_monotone default_detector _ _ H)].
Defined.

Lemma detect_blooms_peak_height_witness :
  exists e, In (PeakBloom e) (detect_blooms default_detector (series two_peak_series) None (Some (4#10)) None) /\
  exists x, Py.mapM to_float (series two_peak_series) = inr x /\
    (1 <= peak_index e)%nat /\ (S (peak_index e) < length x)%nat /\
    peak_ndvi e = at_ x (peak_index e) /\ 4#10 <= peak_ndvi e.
Proof.
  remember (detect_blooms default_detector (series two_peak_series) None (Some (4#10)) None) as evs eqn:E.
  destruct evs as [|[| |e] l]; try (vm_compute in E; discriminate E).
  assert (Hin : In (PeakBloom e) (detect_blooms default_detector (series two_peak_series) None (Some (4#10)) None))
    by (rewrite <- E; left; reflexivity).
  exists e. split; [left; reflexivity|].
  exact (detect_blooms_peak_height default_detector (series two_peak_series) None (Some (4#10)) None e Hin).
Defined.

Lemma detect_blooms_peaks_spaced_witness :
  exists ei ej,
    nth_error (detect_blooms default_detector (series two_peak_series) None (Some (4#10)) None) 0
      = Some (PeakBloom ei) /\
    nth_error (detect_blooms default_detector (series two_peak_series) None (Some (4#10)) None) 1
      = Some (PeakBloom ej) /\
    (peak_index ei + 2 <= peak_index ej)%nat.
Proof.
  remember (detect_blooms default_detector (series two_peak_series) None (Some (4#10)) None) as evs eqn:E.
  destruct evs as [|[| |ei] [|[| |ej] l]]; try (vm_compute in E; discriminate E).
  assert (Hi : nth_error (detect_blooms default_detector (series two_peak_series) None (Some (4#10)) None) 0
                 = Some (PeakBloom ei)) by (rewrite <- E; reflexivity).
  assert (Hj : nth_error (detect_blooms default_detector (series two_peak_series) None (Some (4#10)) None) 1
                 = Some (PeakBloom ej)) by (rewrite <- E; reflexivity).
  exists ei, ej. split; [reflexivity|]. split; [reflexivity|].
  exact (detect_blooms_peaks_spaced default_detector (series two_peak_series) None (Some (4#10)) None
           0 1 ei ej ltac:(lia) Hi Hj).
Defined.


Lemma analyze_trends_two_years_witness :
  Py.mapM Trends.get_year two_years = inr [2023%Z; 2024%Z] /\
  Trends.status (Trends.analyze_trends two_years) = None /\
  Trends.peak_ndvi_trend (Trends.analyze_trends two_years) <> None.
Proof.
  assert (Hy : Py.mapM Trends.get_year two_years = inr [2023%Z; 2024%Z]) by reflexivity.
  assert (Hz : forall i, (S i < length two_years)%nat -> ~ at_ (map Trends.peak_of two_years) i == 0).
  { intros [|i] Hi; [unfold Qeq; simpl; lia | simpl in Hi; lia]. }
  destruct (analyze_trends_two_years two_years [2023%Z; 2024%Z] 2023 2024 Hy
              (or_introl eq_refl) (or_intror (or_introl eq_refl)) ltac:(discriminate) Hz)
    as (H1 & H2 & _).
  split; [exact Hy|]. split; [exact H1 | exact H2].
Defined.

Lemma mock_prediction_without_events_witness :
  DetectorSummaries.predict_next_bloom [year_entry 2024 (7#10) (5#10)] "2025-03-10"%string
    = DetectorSummaries.mock_status "no_historical_blooms"%string None.
Proof.
  apply (proj1 (proj2 (mock_prediction_without_events [year_entry 2024 (7#10) (5#10)] "2025-03-10"%string))).
  - discriminate.
  - reflexivity.
Defined.

Lemma mock_prediction_success_witness :
  DetectorSummaries.history_events [year_with_event] <> [] /\
  Dates.strptime "2025-03-10"%string = inr march_10 /\
  DetectorSummaries.m_status (DetectorSummaries.predict_next_bloom [year_with_event] "2025-03-10"%string)
    = "success"%string.
Proof.
  assert (H1 : DetectorSummaries.history_events [year_with_event] <> []) by discriminate.
  assert (H2 : Dates.strptime "2025-03-10"%string = inr march_10) by (vm_compute; reflexivity).
  split; [exact H1|]. split; [exact H2|].
  destruct (proj1 (mock_prediction_success [year_with_event] "2025-03-10"%string march_10 H1 H2)
                  ltac:(vm_compute; intro Hc; discriminate Hc)) as (e & l & _ & _ & Hp).
  rewrite Hp. reflexivity.
Defined.

(** ** [_confidence_level] *)

(** X17: [_confidence_level] is monotone: a larger score never gets a
    lower label in the order Very Low < Low < Moderate < High < Very High. *)
Theorem confidence_level_monotone (a b : Q) :
  a <= b ->
  (level_rank (BloomPredictor._confidence_level a) <= level_rank (BloomPredictor._confidence_level b))%nat.
Proof.
  intro Hab. unfold BloomPredictor._confidence_level, Qgeb.
  destruct (Qle_bool (80#100) a) eqn:A1, (Qle_bool (80#100) b) eqn:B1,
           (Qle_bool (65#100) a) eqn:A2, (Qle_bool (65#100) b) eqn:B2,
           (Qle_bool (50#100) a) eqn:A3, (Qle_bool (50#100) b) eqn:B3,
           (Qle_bool (35#100) a) eqn:A4, (Qle_bool (35#100) b) eqn:B4;
    try (vm_compute; lia); exfalso;
    repeat match goal with
           | H : Qle_bool _ _ = true |- _ => apply Qle_bool_iff in H
           | H : Qle_bool _ _ = false |- _ => apply Qle_bool_false in H
           end; lra.
Qed.

Lemma confidence_level_monotone_witness :
  6#10 <= 7#10 /\
  (level_rank (BloomPredictor._confidence_level (6#10)) <=
   level_rank (BloomPredictor._confidence_level (7#10)))%nat.
Proof.
  assert (H : 6#10 <= 7#10) by (unfold Qle; simpl; lia).
  split; [exact H | exact (confidence_level_monotone _ _ H)].
Defined.
